(** * Facial photo capture client: capture controller and offline cache worker

    A shallow embedding of [app.js] (class [FaceCaptureApp]) and of the
    service worker script, with the properties of the specification stated
    and settled against it.

    Conventions of the embedding.
    - The arithmetic of the cover fit is the double-precision arithmetic of
      JavaScript numbers: it is modelled with the binary64 floats of the
      kernel ([PrimFloat]), rounding, [NaN] and infinities included.
      Numbers the code only passes on (the halves of the integer ellipse
      sizes, the numbers of a parsed document) are written as rationals.
    - Effects on the browser (alerts, console, canvas calls, network
      requests, object URLs, downloads) are recorded in a trace, in program
      order.
    - An [await] splits a method in the part that runs up to the suspension
      and the continuation that runs when the awaited promise settles; what
      the platform answers is an argument of the continuation. *)

From Stdlib Require Import QArith ZArith NArith String Ascii List Lia Bool.
From Stdlib Require Import DecimalString.
From Stdlib Require Import PrimFloat SpecFloat FloatOps.
Import ListNotations.

Set Warnings "-register-all".

Close Scope Q_scope.
Open Scope nat_scope.
Open Scope string_scope.
Open Scope list_scope.

(** String concatenation, as in a template literal. *)
Infix "+++" := String.append (right associativity, at level 60).

(** Decimal rendering of a natural number, as a template literal renders a
    non-negative integer ([Date.now()], an HTTP status). *)
Definition decimal (n : N) : string := NilEmpty.string_of_uint (N.to_uint n).

(** [s.includes(sub)] *)
Definition includes (s sub : string) : bool :=
  match index 0 sub s with
  | Some _ => true
  | None => false
  end.

(* ===================================================================== *)
(** * Cover-fit geometry of [capturePhoto] (app.js, lines 216-246) *)
(* ===================================================================== *)

Module Geometry.

Local Open Scope float_scope.

(** The double nearest to an integer, as a Number holds it. *)
Definition number (z : Z) : float :=
  SF2Prim (binary_normalize prec emax z 0 false).

Record CoverRect := {
  drawWidth : float;
  drawHeight : float;
  offsetX : float;
  offsetY : float
}.

(** Lines 218-234.  [Vw], [Vh] are [video.videoWidth], [video.videoHeight];
    [Cw], [Ch] the width and height of [video.getBoundingClientRect()].
    [videoAspect > containerAspect] is false when either is [NaN]. *)
Definition coverFit (Vw Vh Cw Ch : float) : CoverRect :=
  let videoAspect := Vw / Vh in
  let containerAspect := Cw / Ch in
  if PrimFloat.ltb containerAspect videoAspect then
    let drawHeight := Vh in
    let drawWidth := drawHeight * containerAspect in
    {| drawWidth := drawWidth;
       drawHeight := drawHeight;
       offsetX := (Vw - drawWidth) / 2;
       offsetY := 0 |}
  else
    let drawWidth := Vw in
    let drawHeight := drawWidth / containerAspect in
    {| drawWidth := drawWidth;
       drawHeight := drawHeight;
       offsetX := 0;
       offsetY := (Vh - drawHeight) / 2 |}.

(** The source rectangle handed to [drawImage] (lines 237-246 and 271-274):
    the bounding box, in video pixels, of the ellipse guide. *)
Record SourceRect := { sx : float; sy : float; sWidth : float; sHeight : float }.

Definition ellipseSource (ellipseWidth ellipseHeight : float)
    (Vw Vh Cw Ch : float) : SourceRect :=
  let r := coverFit Vw Vh Cw Ch in
  let scaleX := drawWidth r / Cw in
  let scaleY := drawHeight r / Ch in
  let ellipseCenterX := drawWidth r / 2 in
  let ellipseCenterY := drawHeight r / 2 in
  let ellipseRadiusX := (ellipseWidth / 2) * (Cw / Cw) * scaleX in
  let ellipseRadiusY := (ellipseHeight / 2) * (Ch / Ch) * scaleY in
  {| sx := offsetX r + ellipseCenterX - ellipseRadiusX;
     sy := offsetY r + ellipseCenterY - ellipseRadiusY;
     sWidth := ellipseRadiusX * 2;
     sHeight := ellipseRadiusY * 2 |}.

(** ** The claim's words on the aspect ratio

    "In either case the rectangle has the container's aspect ratio": the
    quotient of its sides is the quotient of the container's, for nonzero
    sizes ([===] on numbers). *)
Definition nonzero (x : float) : bool := negb (PrimFloat.eqb x 0).

Definition has_container_aspect_as_stated : Prop :=
  forall Vw Vh Cw Ch : float,
    nonzero Vw = true -> nonzero Vh = true ->
    nonzero Cw = true -> nonzero Ch = true ->
    let r := coverFit Vw Vh Cw Ch in
    PrimFloat.eqb (drawWidth r / drawHeight r) (Cw / Ch) = true.

End Geometry.

(* ===================================================================== *)
(** * The capture controller: class [FaceCaptureApp] of app.js *)
(* ===================================================================== *)

Module Controller.

(** ** Values the controller handles *)

(** [this.facingMode]: ['user'] or ['environment'] *)
Inductive facing := User | Environment.

(** An object URL ([blob:...]), named by the rank of the
    [URL.createObjectURL] call that made it. *)
Definition url := nat.

(** The image blob produced by [canvas.toBlob]. *)
Definition blob := nat.

(** A [MediaStream] as [getUserMedia] resolves it: an identity and its
    tracks. *)
Record MediaStream := { stream_id : nat; tracks : list nat }.

(** A parsed JSON document. *)
Inductive json :=
| JNull
| JBool (b : bool)
| JNum (q : Q)
| JStr (s : string)
| JArr (items : list json)
| JObj (fields : list (string * json)).

(** Engine built-ins the controller calls and that are not part of the
    sources.  [JSON_parse] answers the message of the [SyntaxError] it
    throws, or the document; [NumberToString] is the string a number
    converts to; [toFixed2] is [Number.prototype.toFixed] at two
    digits; [typeErrorMessage] is the message of the [TypeError] thrown by
    the access it is given (a property of [null], a call of something that
    is not a function, [ToPrimitive] for a value that cannot be
    converted). *)
Record Engine := {
  JSON_parse : string -> string + json;
  JSON_stringify : json -> string;
  NumberToString : Q -> string;
  toFixed2 : Q -> string;
  typeErrorMessage : string -> string
}.

(** An HTTP response as [fetch] resolves it. *)
Record Response := { status : N; body : string }.

(** [response.ok]: the status is in the range 200-299. *)
Definition ok (r : Response) : bool :=
  ((200 <=? status r) && (status r <=? 299))%N.

(** How a [fetch] promise settles: rejected (network failure) with the
    message of the error, or resolved with a response. *)
Inductive FetchResult :=
| Rejected (message : string)
| Resolved (r : Response).

(** How a [getUserMedia] promise settles. *)
Inductive MediaResult :=
| Denied (message : string)
| Granted (s : MediaStream).

(** The click listeners [initEventListeners] installs. *)
Inductive handler := HandleConsentAccept | SwitchCamera | CapturePhoto.

(** ** The trace of effects *)

Inductive effect :=
| Alert (msg : string)
| ConsoleError (msg : string)
| ConsoleLog (msg : string)
| AddEventListener (id : string) (h : handler)
| RegisterServiceWorker (script : string)
(** [fetch(url, {method, body})]; [file] is the part of the multipart form:
    the blob and its file name under the field ['file'] *)
| Fetch (method : string) (target : string) (file : option (blob * string))
| ShowApiStatus (connected : bool) (origin : string)
| GetUserMedia (f : facing) (idealWidth idealHeight : Z)
| TrackStop (stream track : nat)
| SetSrcObject (stream : nat)
| ClassAdd (id cls : string)
| ClassRemove (id cls : string)
| SetTextContent (id text : string)
| SetDisabled (id : string) (b : bool)
| CanvasWidth (w : Z)
| CanvasHeight (h : Z)
| CtxSave
| CtxBeginPath
(** [ctx.ellipse(x, y, radiusX, radiusY, 0, 0, 2 * Math.PI)] *)
| CtxEllipse (x y radiusX radiusY : Q)
| CtxClip
| CtxClearRect (x y w h : Z)
| CtxDrawImage (src : Geometry.SourceRect) (dx dy dWidth dHeight : Z)
| CtxRestore
| CanvasToBlob (type : string) (quality : Q)
| CreateObjectURL (u : url)
| RevokeObjectURL (u : url)
(** the full result view is filled with the image and the cards of [data] *)
| RenderAnalysis (u : url) (data : json)
| SetImageSrc (id : string) (u : url)
(** [a.href = href; a.download = name; a.click()] *)
| Download (href : url) (name : string).

(** ** State *)

(** [this.dom]: which of the references found by the constructor are
    non-null. *)
Record Dom := {
  dom_video : bool;
  dom_canvas : bool;
  dom_consentScreen : bool;
  dom_mainApp : bool;
  dom_loading : bool;
  dom_captureBtn : bool
}.

(** The fields the constructor sets on [this]. *)
Record App := {
  dom : Dom;
  currentStream : option MediaStream;
  facingMode : facing;
  apiUrl : option string;
  ellipseWidth : Z;
  ellipseHeight : Z
}.

(** What the video element reports: [videoWidth], [videoHeight] ([None]
    when the property is undefined) and the size of
    [getBoundingClientRect()]. *)
Record Video := {
  videoWidth : option N;
  videoHeight : option N;
  rectWidth : float;
  rectHeight : float
}.

(** The part of the page the controller writes.  [analysisButtons] is the
    URL and the data the buttons of the current content of
    [#analysisContainer] were wired with ([None]: the container has no
    content); [downloadBtn_onclick] and [retryBtn_onclick] are the URLs the
    [onclick] handlers of the preview buttons close over. *)
Record Page := {
  ids : list string;
  canvasWidth : Z;
  canvasHeight : Z;
  captureDisabled : bool;
  analysisHidden : bool;
  analysisButtons : option (url * json);
  previewHidden : bool;
  downloadBtn_onclick : option url;
  retryBtn_onclick : option url
}.

Record World := {
  origin : string;                 (* window.location.origin *)
  serviceWorkerSupported : bool;   (* 'serviceWorker' in navigator *)
  video : Video;
  page : Page;
  nextUrl : nat;                   (* object URLs created so far *)
  liveTracks : list (nat * nat);   (* (stream, track) pairs not stopped *)
  app : App
}.

(** ** Field updates *)

Definition set_ids (v : list string) (p : Page) : Page :=
  {| ids := v; canvasWidth := canvasWidth p; canvasHeight := canvasHeight p;
     captureDisabled := captureDisabled p; analysisHidden := analysisHidden p;
     analysisButtons := analysisButtons p; previewHidden := previewHidden p;
     downloadBtn_onclick := downloadBtn_onclick p;
     retryBtn_onclick := retryBtn_onclick p |}.

Definition set_canvasWidth (v : Z) (p : Page) : Page :=
  {| ids := ids p; canvasWidth := v; canvasHeight := canvasHeight p;
     captureDisabled := captureDisabled p; analysisHidden := analysisHidden p;
     analysisButtons := analysisButtons p; previewHidden := previewHidden p;
     downloadBtn_onclick := downloadBtn_onclick p;
     retryBtn_onclick := retryBtn_onclick p |}.

Definition set_canvasHeight (v : Z) (p : Page) : Page :=
  {| ids := ids p; canvasWidth := canvasWidth p; canvasHeight := v;
     captureDisabled := captureDisabled p; analysisHidden := analysisHidden p;
     analysisButtons := analysisButtons p; previewHidden := previewHidden p;
     downloadBtn_onclick := downloadBtn_onclick p;
     retryBtn_onclick := retryBtn_onclick p |}.

Definition set_captureDisabled (v : bool) (p : Page) : Page :=
  {| ids := ids p; canvasWidth := canvasWidth p; canvasHeight := canvasHeight p;
     captureDisabled := v; analysisHidden := analysisHidden p;
     analysisButtons := analysisButtons p; previewHidden := previewHidden p;
     downloadBtn_onclick := downloadBtn_onclick p;
     retryBtn_onclick := retryBtn_onclick p |}.

Definition set_analysisHidden (v : bool) (p : Page) : Page :=
  {| ids := ids p; canvasWidth := canvasWidth p; canvasHeight := canvasHeight p;
     captureDisabled := captureDisabled p; analysisHidden := v;
     analysisButtons := analysisButtons p; previewHidden := previewHidden p;
     downloadBtn_onclick := downloadBtn_onclick p;
     retryBtn_onclick := retryBtn_onclick p |}.

Definition set_analysisButtons (v : option (url * json)) (p : Page) : Page :=
  {| ids := ids p; canvasWidth := canvasWidth p; canvasHeight := canvasHeight p;
     captureDisabled := captureDisabled p; analysisHidden := analysisHidden p;
     analysisButtons := v; previewHidden := previewHidden p;
     downloadBtn_onclick := downloadBtn_onclick p;
     retryBtn_onclick := retryBtn_onclick p |}.

Definition set_previewHidden (v : bool) (p : Page) : Page :=
  {| ids := ids p; canvasWidth := canvasWidth p; canvasHeight := canvasHeight p;
     captureDisabled := captureDisabled p; analysisHidden := analysisHidden p;
     analysisButtons := analysisButtons p; previewHidden := v;
     downloadBtn_onclick := downloadBtn_onclick p;
     retryBtn_onclick := retryBtn_onclick p |}.

Definition set_downloadBtn_onclick (v : option url) (p : Page) : Page :=
  {| ids := ids p; canvasWidth := canvasWidth p; canvasHeight := canvasHeight p;
     captureDisabled := captureDisabled p; analysisHidden := analysisHidden p;
     analysisButtons := analysisButtons p; previewHidden := previewHidden p;
     downloadBtn_onclick := v;
     retryBtn_onclick := retryBtn_onclick p |}.

Definition set_retryBtn_onclick (v : option url) (p : Page) : Page :=
  {| ids := ids p; canvasWidth := canvasWidth p; canvasHeight := canvasHeight p;
     captureDisabled := captureDisabled p; analysisHidden := analysisHidden p;
     analysisButtons := analysisButtons p; previewHidden := previewHidden p;
     downloadBtn_onclick := downloadBtn_onclick p;
     retryBtn_onclick := v |}.

Definition set_currentStream (v : option MediaStream) (a : App) : App :=
  {| dom := dom a; currentStream := v; facingMode := facingMode a;
     apiUrl := apiUrl a; ellipseWidth := ellipseWidth a;
     ellipseHeight := ellipseHeight a |}.

Definition set_facingMode (v : facing) (a : App) : App :=
  {| dom := dom a; currentStream := currentStream a; facingMode := v;
     apiUrl := apiUrl a; ellipseWidth := ellipseWidth a;
     ellipseHeight := ellipseHeight a |}.

Definition set_apiUrl (v : option string) (a : App) : App :=
  {| dom := dom a; currentStream := currentStream a;
     facingMode := facingMode a; apiUrl := v;
     ellipseWidth := ellipseWidth a; ellipseHeight := ellipseHeight a |}.

Definition on_page (f : Page -> Page) (w : World) : World :=
  {| origin := origin w; serviceWorkerSupported := serviceWorkerSupported w;
     video := video w; page := f (page w); nextUrl := nextUrl w;
     liveTracks := liveTracks w; app := app w |}.

Definition on_app (f : App -> App) (w : World) : World :=
  {| origin := origin w; serviceWorkerSupported := serviceWorkerSupported w;
     video := video w; page := page w; nextUrl := nextUrl w;
     liveTracks := liveTracks w; app := f (app w) |}.

Definition set_video (v : Video) (w : World) : World :=
  {| origin := origin w; serviceWorkerSupported := serviceWorkerSupported w;
     video := v; page := page w; nextUrl := nextUrl w;
     liveTracks := liveTracks w; app := app w |}.

Definition set_nextUrl (v : nat) (w : World) : World :=
  {| origin := origin w; serviceWorkerSupported := serviceWorkerSupported w;
     video := video w; page := page w; nextUrl := v;
     liveTracks := liveTracks w; app := app w |}.

Definition set_liveTracks (v : list (nat * nat)) (w : World) : World :=
  {| origin := origin w; serviceWorkerSupported := serviceWorkerSupported w;
     video := video w; page := page w; nextUrl := nextUrl w;
     liveTracks := v; app := app w |}.

(** ** Computations: state, trace and exceptions *)

(** A thrown value; the controller reads only [error.message]. *)
Record exn := Exn { exn_name : string; message : string }.

Inductive outcome (A : Type) :=
| Return (a : A)
| Throw (e : exn).
Arguments Return {A} a.
Arguments Throw {A} e.

(** A piece of the controller's code: from the world it starts in to how it
    ends, the world it leaves and the effects it had, in order. *)
Definition Js (A : Type) : Type := World -> outcome A * World * list effect.

Definition ret {A} (a : A) : Js A := fun w => (Return a, w, []).

Definition bind {A B} (c : Js A) (k : A -> Js B) : Js B := fun w =>
  match c w with
  | (Return a, w1, t1) =>
      match k a w1 with
      | (r, w2, t2) => (r, w2, t1 ++ t2)
      end
  | (Throw e, w1, t1) => (Throw e, w1, t1)
  end.

Definition throw {A} (e : exn) : Js A := fun w => (Throw e, w, []).

Definition emit (e : effect) : Js unit := fun w => (Return tt, w, [e]).

Definition get : Js World := fun w => (Return w, w, []).

Definition modify (f : World -> World) : Js unit :=
  fun w => (Return tt, f w, []).

(** [try { c } catch (error) { h error }] *)
Definition try_catch {A} (c : Js A) (h : exn -> Js A) : Js A := fun w =>
  match c w with
  | (Return a, w1, t1) => (Return a, w1, t1)
  | (Throw e, w1, t1) =>
      match h e w1 with
      | (r, w2, t2) => (r, w2, t1 ++ t2)
      end
  end.

(** [try { c } finally { f }] *)
Definition try_finally {A} (c : Js A) (f : Js unit) : Js A := fun w =>
  match c w with
  | (r, w1, t1) =>
      match f w1 with
      | (Return _, w2, t2) => (r, w2, t1 ++ t2)
      | (Throw e, w2, t2) => (Throw e, w2, t1 ++ t2)
      end
  end.

Notation "x <- c ;; k" := (bind c (fun x => k))
  (at level 61, c at next level, right associativity).
Notation "c ;; k" := (bind c (fun _ => k))
  (at level 61, right associativity).

Definition when (b : bool) (c : Js unit) : Js unit :=
  if b then c else ret tt.

(** The world and the trace a computation leaves. *)
Definition world_after {A} (r : outcome A * World * list effect) : World :=
  snd (fst r).
Definition trace_of {A} (r : outcome A * World * list effect) : list effect :=
  snd r.
Definition outcome_of {A} (r : outcome A * World * list effect) : outcome A :=
  fst (fst r).

(** [document.getElementById(id)] is non-null. *)
Definition getElementById (id : string) (w : World) : bool :=
  existsb (String.eqb id) (ids (page w)).

(** [alert(msg)] *)
Definition alert (msg : string) : Js unit := emit (Alert msg).

(** ** Construction and initialisation (lines 8-102) *)

Definition has (id : string) (doc : list string) : bool :=
  existsb (String.eqb id) doc.

(** Lines 10-17: the six lookups of the constructor. *)
Definition lookup_dom (doc : list string) : Dom :=
  {| dom_video := has "video" doc;
     dom_canvas := has "canvas" doc;
     dom_consentScreen := has "consentScreen" doc;
     dom_mainApp := has "mainApp" doc;
     dom_loading := has "loading" doc;
     dom_captureBtn := has "captureBtn" doc |}.

(** [initEventListeners] (lines 54-58): each listener is attached when its
    element exists ([?.]). *)
Definition initEventListeners (doc : list string) (d : Dom) : list effect :=
  (if has "acceptConsent" doc
   then [AddEventListener "acceptConsent" HandleConsentAccept] else [])
  ++ (if has "switchCamera" doc
      then [AddEventListener "switchCamera" SwitchCamera] else [])
  ++ (if dom_captureBtn d
      then [AddEventListener "captureBtn" CapturePhoto] else []).

(** [registerServiceWorker] (lines 60-69) up to its [await]. *)
Definition registerServiceWorker (supported : bool) : list effect :=
  if supported then [RegisterServiceWorker "sw.js"] else [].

(** [detectApiUrl] (lines 74-85) up to its [await]: the health check is
    sent. *)
Definition detectApiUrl_request (currentUrl : string) : list effect :=
  [Fetch "GET" (currentUrl +++ "/api/health") None].

(** [init] (lines 43-48) *)
Definition init (doc : list string) (currentUrl : string) (supported : bool)
    (d : Dom) : list effect :=
  initEventListeners doc d
  ++ registerServiceWorker supported
  ++ detectApiUrl_request currentUrl.

(** [new FaceCaptureApp()] (lines 8-38) on a document with the elements
    [doc].  When a required element is missing, the constructor returns with
    only [this.dom] set and nothing refers to the object: [None]. *)
Definition constructor (doc : list string) (currentUrl : string)
    (supported : bool) : option App * list effect :=
  let d := lookup_dom doc in
  if negb (dom_video d) || negb (dom_canvas d) then
    (None, [ConsoleError "Elementos DOM 'video' e 'canvas' são obrigatórios."])
  else
    (Some {| dom := d;
             currentStream := None;
             facingMode := User;
             apiUrl := None;
             ellipseWidth := 307;
             ellipseHeight := 407 |},
     init doc currentUrl supported d).

(** The statements of the script outside the class (lines 652-664): a
    registration of the worker of their own, whatever the constructor
    did. *)
Definition script (supported : bool) : list effect :=
  if supported then [RegisterServiceWorker "/sw.js"]
  else [ConsoleError "Service workers are not supported."].

(** The world right after a successful construction, in a page that has
    loaded: nothing drawn, no view shown, no object URL made, no stream. *)
Definition loaded_page (doc : list string) : Page :=
  {| ids := doc; canvasWidth := 300; canvasHeight := 150;
     captureDisabled := false;
     analysisHidden := true; analysisButtons := None;
     previewHidden := true;
     downloadBtn_onclick := None; retryBtn_onclick := None |}.

Definition boot (doc : list string) (currentUrl : string) (supported : bool)
    (v : Video) : option World :=
  match fst (constructor doc currentUrl supported) with
  | Some a =>
      Some {| origin := currentUrl; serviceWorkerSupported := supported;
              video := v; page := loaded_page doc; nextUrl := 0;
              liveTracks := []; app := a |}
  | None => None
  end.

Section WithEngine.

Variable E : Engine.

Definition type_error (access : string) : exn :=
  Exn "TypeError" (typeErrorMessage E access).

(** [String(error)], as [${error}] renders a thrown error. *)
Definition error_toString (e : exn) : string :=
  exn_name e +++ ": " +++ message e.

(** ** Reading JSON values *)

Fixpoint assoc (name : string) (fields : list (string * json)) : option json :=
  match fields with
  | [] => None
  | (k, v) :: rest => if String.eqb name k then Some v else assoc name rest
  end.

(** [v.name]: [None] is [undefined]; reading a property of [null] throws. *)
Definition get_prop (name : string) (v : json) : outcome (option json) :=
  match v with
  | JNull => Throw (type_error ("null." +++ name))
  | JObj fields => Return (assoc name fields)
  | _ => Return None
  end.

(** [v?.name] on a value that may be [undefined] or [null]. *)
Definition get_opt (name : string) (v : option json) : option json :=
  match v with
  | None | Some JNull => None
  | Some (JObj fields) => assoc name fields
  | Some _ => None
  end.

(** Truthiness of a value ([None] is [undefined]). *)
Definition truthy (v : option json) : bool :=
  match v with
  | None | Some JNull => false
  | Some (JBool b) => b
  | Some (JNum q) => negb (Qeq_bool q 0)
  | Some (JStr s) => negb (String.eqb s "")
  | Some (JArr _) | Some (JObj _) => true
  end.

(** Sequencing of steps that return or throw. *)
Definition and_then {A B} (o : outcome A) (k : A -> outcome B) : outcome B :=
  match o with
  | Return a => k a
  | Throw e => Throw e
  end.

(** The conversion of a parsed value to a string ([ToString]), as a
    template literal and [new Error] apply it.  An array is joined with
    commas, a [null] element giving the empty string.  An object gives
    ["[object Object]"], unless it has a property [toString] of its own: a
    parsed value is never a function, so the conversion then finds no
    method that answers a primitive, and throws.  [stringable] tells
    whether the conversion succeeds, [text] what it gives. *)
Fixpoint stringable (v : json) : bool :=
  match v with
  | JArr items => forallb stringable items
  | JObj fields =>
      match assoc "toString" fields with
      | Some _ => false
      | None => true
      end
  | _ => true
  end.

Fixpoint text (v : json) : string :=
  match v with
  | JNull => "null"
  | JBool b => if b then "true" else "false"
  | JNum q => NumberToString E q
  | JStr s => s
  | JArr items =>
      String.concat ","
        (map (fun x => match x with
                       | JNull => ""
                       | _ => text x
                       end) items)
  | JObj _ => "[object Object]"
  end.

Definition to_string (v : json) : outcome string :=
  if stringable v then Return (text v)
  else Throw (type_error "ToPrimitive").

(** [ToNumber], for what can go wrong with it: an array or an object is
    first converted to a primitive, which ends in the same [toString]. *)
Definition to_number (v : json) : outcome unit :=
  match v with
  | JArr _ | JObj _ => and_then (to_string v) (fun _ => Return tt)
  | _ => Return tt
  end.

(** [${v || default}] in a template: a truthy value is converted. *)
Definition substitute (v : option json) : outcome unit :=
  match v with
  | Some x => if truthy v then and_then (to_string x) (fun _ => Return tt)
              else Return tt
  | None => Return tt
  end.

(** [Math.round((v || 0) * 100)]: a truthy value is converted to a
    number. *)
Definition percent (v : option json) : outcome unit :=
  match v with
  | Some x => if truthy v then to_number x else Return tt
  | None => Return tt
  end.

Definition lift {A} (o : outcome A) : Js A := fun w => (o, w, []).

(** [await response.json()] *)
Definition response_json (r : Response) : Js json :=
  match JSON_parse E (body r) with
  | inl msg => throw (Exn "SyntaxError" msg)
  | inr v => ret v
  end.

(** ** The API status badge (lines 109-144) *)

Definition createApiStatusElement : Js unit :=
  modify (on_page (fun p => set_ids ("apiStatus" :: ids p) p)).

Definition showApiStatus (connected : bool) (u : string) : Js unit :=
  w <- get;;
  when (negb (getElementById "apiStatus" w)) createApiStatusElement;;
  emit (ShowApiStatus connected u).

(** [detectApiUrl] (lines 86-101) from the moment the health check
    settles. *)
Definition detectApiUrl_settled (r : FetchResult) : Js unit :=
  w <- get;;
  let currentUrl := origin w in
  detected <-
    try_catch
      (match r with
       | Rejected msg => throw (Exn "TypeError" msg)
       | Resolved response =>
           if ok response then
             data <- response_json response;;
             st <- lift (get_prop "status" data);;
             match st with
             | Some (JStr "online") =>
                 modify (on_app (set_apiUrl (Some currentUrl)));;
                 emit (ConsoleLog ("✅ API híbrida detectada: " +++ currentUrl));;
                 showApiStatus true currentUrl;;
                 ret true
             | _ => ret false
             end
           else ret false
       end)
      (fun error =>
         emit (ConsoleError ("❌ Erro ao conectar ou API offline: "
                             +++ error_toString error));;
         ret false);;
  if detected : bool then ret tt
  else
    showApiStatus false "";;
    emit (ConsoleError "API híbrida não encontrada ou não respondeu corretamente.").

(** ** Camera (lines 150-196) *)

Definition same_track (a b : nat * nat) : bool :=
  Nat.eqb (fst a) (fst b) && Nat.eqb (snd a) (snd b).

(** [track.stop()] on one track of the stream [sid] *)
Definition stop_track (sid t : nat) : Js unit :=
  modify (fun w =>
    set_liveTracks
      (filter (fun x => negb (same_track x (sid, t))) (liveTracks w)) w);;
  emit (TrackStop sid t).

(** [stream.getTracks().forEach(track => track.stop())] *)
Fixpoint stop_tracks (sid : nat) (ts : list nat) : Js unit :=
  match ts with
  | [] => ret tt
  | t :: rest => stop_track sid t;; stop_tracks sid rest
  end.

(** [initCamera] (lines 156-172) up to its [await]: the held stream is
    stopped and forgotten, then the new stream is requested. *)
Definition initCamera_request : Js unit :=
  w <- get;;
  match currentStream (app w) with
  | Some s =>
      stop_tracks (stream_id s) (tracks s);;
      modify (on_app (set_currentStream None))
  | None => ret tt
  end;;
  w <- get;;
  emit (GetUserMedia (facingMode (app w)) 1280 720).

(** [initCamera] (lines 172-180) from the moment [getUserMedia] settles.  A
    granted stream arrives with all its tracks live. *)
Definition initCamera_settled (r : MediaResult) : Js unit :=
  match r with
  | Granted s =>
      modify (fun w =>
        set_liveTracks
          (liveTracks w ++ map (fun t => (stream_id s, t)) (tracks s)) w);;
      modify (on_app (set_currentStream (Some s)));;
      emit (SetSrcObject (stream_id s))
  | Denied msg =>
      alert "Erro ao acessar a câmera. Verifique as permissões.";;
      emit (ConsoleError ("Erro de câmera: " +++ msg))
  end.

(** [setupCanvas] (lines 187-191), the [onloadedmetadata] handler *)
Definition setupCanvas : Js unit :=
  modify (on_page (set_canvasWidth 800));;
  emit (CanvasWidth 800);;
  modify (on_page (set_canvasHeight 1000));;
  emit (CanvasHeight 1000).

Definition flip (f : facing) : facing :=
  match f with
  | User => Environment
  | Environment => User
  end.

(** [switchCamera] (lines 193-196) up to the [await] inside [initCamera] *)
Definition switchCamera_request : Js unit :=
  modify (on_app (fun a => set_facingMode (flip (facingMode a)) a));;
  initCamera_request.

(** [handleConsentAccept] (lines 150-154) up to the [await] inside
    [initCamera] *)
Definition handleConsentAccept_request : Js unit :=
  w <- get;;
  when (dom_consentScreen (dom (app w)))
       (emit (ClassAdd "consentScreen" "hidden"));;
  when (dom_mainApp (dom (app w)))
       (emit (ClassRemove "mainApp" "hidden"));;
  initCamera_request.

(** The streams that have a live track. *)
Definition live_streams (w : World) : list nat :=
  nodup Nat.eq_dec (map fst (liveTracks w)).

(** ** Capture (lines 205-294) *)

(** Truthiness of [video.videoWidth] *)
Definition truthy_dim (d : option N) : bool :=
  match d with
  | Some n => negb (n =? 0)%N
  | None => false
  end.

(** [video.videoWidth] as the number the arithmetic receives; an undefined
    property gives [NaN]. *)
Definition dimension (d : option N) : float :=
  match d with
  | Some n => Geometry.number (Z.of_N n)
  | None => PrimFloat.nan
  end.

(** [this.dom.captureBtn.disabled = b] *)
Definition set_captureBtn_disabled (b : bool) : Js unit :=
  w <- get;;
  if dom_captureBtn (dom (app w)) then
    modify (on_page (set_captureDisabled b));;
    emit (SetDisabled "captureBtn" b)
  else throw (type_error "null.disabled").

(** [showLoading] (lines 362-373) *)
Definition showLoading (show : bool) (msg : string) : Js unit :=
  w <- get;;
  if negb (dom_loading (dom (app w))) then ret tt
  else if show then
    emit (SetTextContent "loading" msg);;
    emit (ClassRemove "loading" "hidden")
  else emit (ClassAdd "loading" "hidden").

(** [capturePhoto] (lines 205-294).  The callback of [toBlob] is
    [analyzePhoto], below.  None of the statements of the [try] throws on a
    canvas and a video element (the radii of the clip are positive,
    [drawImage] ignores a non-finite source rectangle, the camera frames
    leave the canvas origin-clean), so the handler of line 288 is modelled
    but is not reached from inside the block. *)
Definition capturePhoto : Js unit :=
  w <- get;;
  let v := video w in
  if negb (truthy_dim (videoWidth v)) || negb (truthy_dim (videoHeight v)) then
    alert "Câmera não está pronta. Aguarde um momento."
  else
    set_captureBtn_disabled true;;
    showLoading true "Capturando e recortando foto...";;
    try_catch
      (let Ew := ellipseWidth (app w) in
       let Eh := ellipseHeight (app w) in
       let src :=
         Geometry.ellipseSource (Geometry.number Ew) (Geometry.number Eh)
           (dimension (videoWidth v)) (dimension (videoHeight v))
           (rectWidth v) (rectHeight v) in
       modify (on_page (set_canvasWidth Ew));;
       emit (CanvasWidth Ew);;
       modify (on_page (set_canvasHeight Eh));;
       emit (CanvasHeight Eh);;
       emit CtxSave;;
       emit CtxBeginPath;;
       emit (CtxEllipse (inject_Z Ew / 2) (inject_Z Eh / 2)
                        (inject_Z Ew / 2) (inject_Z Eh / 2));;
       emit CtxClip;;
       w1 <- get;;
       emit (CtxClearRect 0 0 (canvasWidth (page w1)) (canvasHeight (page w1)));;
       emit (CtxDrawImage src 0 0 Ew Eh);;
       emit CtxRestore;;
       emit (CanvasToBlob "image/png" (95 # 100)))
      (fun error =>
         emit (ConsoleError ("Erro de captura: " +++ error_toString error));;
         alert "Erro ao capturar foto. Tente novamente.";;
         showLoading false "Processando...";;
         set_captureBtn_disabled false).

(** ** Object URLs *)

(** [URL.createObjectURL(blob)]: a URL that was never made before. *)
Definition createObjectURL : Js url :=
  w <- get;;
  let u := nextUrl w in
  modify (set_nextUrl (S u));;
  emit (CreateObjectURL u);;
  ret u.

(** [URL.revokeObjectURL(url)] *)
Definition revokeObjectURL (u : url) : Js unit := emit (RevokeObjectURL u).

(** ** The minimal preview (lines 527-559)

    [URL.createObjectURL] is the first statement of the [try]; it does not
    throw on a blob, so [url] is set when the handler of line 554 runs and
    its [if (url)] holds. *)
Definition showPreview (b : blob) : Js unit :=
  w <- get;;
  if negb (getElementById "previewContainer" w)
     || negb (getElementById "previewImage" w) then
    emit (ConsoleError "Elementos de pré-visualização não encontrados.")
  else
    u <- createObjectURL;;
    try_catch
      (emit (SetImageSrc "previewImage" u);;
       modify (on_page (set_previewHidden false));;
       emit (ClassRemove "previewContainer" "hidden");;
       w1 <- get;;
       (if getElementById "downloadBtn" w1
        then modify (on_page (set_downloadBtn_onclick (Some u)))
        else throw (type_error "null.onclick"));;
       (if getElementById "retryBtn" w1
        then modify (on_page (set_retryBtn_onclick (Some u)))
        else throw (type_error "null.onclick")))
      (fun error =>
         emit (ConsoleError ("Erro ao gerar pré-visualização: "
                             +++ error_toString error));;
         alert "Erro ao gerar pré-visualização.";;
         revokeObjectURL u).

(** ** The full result view (lines 380-468) *)

(** [createAnalysisContainer] (lines 565-580): the container is appended
    hidden, with its style sheet when that is not there yet. *)
Definition createAnalysisContainer : Js unit :=
  w <- get;;
  when (negb (getElementById "analysisStyles" w))
       (modify (on_page (fun p => set_ids ("analysisStyles" :: ids p) p)));;
  modify (on_page (fun p => set_ids ("analysisContainer" :: ids p) p));;
  modify (on_page (set_analysisHidden true));;
  modify (on_page (set_analysisButtons None)).

(** What building the content reads of the document and converts, in the
    order of lines 395-419: the confidence is made a number (line 395);
    then the template converts to strings the value of each card, the
    count of spots (inside the arguments of the third card, so before its
    value) and the method.  Reading a property of [null] throws, and so
    does a conversion that fails. *)
Definition render_conversions (analysisData : json) : outcome unit :=
  and_then (get_prop "face_detectada" analysisData) (fun face =>
  and_then (percent (get_opt "confianca" face)) (fun _ =>
  and_then (get_prop "fitzpatrick" analysisData) (fun fitzpatrick =>
  and_then (substitute fitzpatrick) (fun _ =>
  and_then (get_prop "textura" analysisData) (fun textura =>
  and_then (substitute textura) (fun _ =>
  and_then (get_prop "manchas" analysisData) (fun manchas =>
  and_then (get_prop "detalhes" analysisData) (fun detalhes =>
  and_then (substitute (get_opt "numero" (get_opt "manchas" detalhes)))
           (fun _ =>
  and_then (substitute manchas) (fun _ =>
  and_then (get_prop "rugas" analysisData) (fun rugas =>
  and_then (substitute rugas) (fun _ =>
  substitute (get_opt "metodo" face))))))))))))).

(** [showAnalysisResults] (lines 380-445).  [URL.createObjectURL] is the
    first statement of the [try] and does not throw on a blob, so [url] is
    set when the handler of line 439 runs.  The container is emptied and
    shown before the content is built; the buttons are wired after it. *)
Definition showAnalysisResults (b : blob) (analysisData : json) : Js unit :=
  u <- createObjectURL;;
  try_catch
    (w <- get;;
     when (negb (getElementById "analysisContainer" w)) createAnalysisContainer;;
     modify (on_page (set_analysisButtons None));;
     modify (on_page (set_analysisHidden false));;
     emit (ClassRemove "analysisContainer" "hidden");;
     lift (render_conversions analysisData);;
     emit (RenderAnalysis u analysisData);;
     modify (on_page (set_analysisButtons (Some (u, analysisData)))))
    (fun error =>
       emit (ConsoleError ("Erro ao mostrar resultados: "
                           +++ error_toString error));;
       revokeObjectURL u;;
       showPreview b).

(** [_hideAnalysisContainer] (lines 465-468); an object URL is a non-empty
    string, so [if (url)] holds. *)
Definition _hideAnalysisContainer (u : url) : Js unit :=
  modify (on_page (set_analysisHidden true));;
  emit (ClassAdd "analysisContainer" "hidden");;
  revokeObjectURL u.

(** [_downloadImage] (lines 474-479); [now] is [Date.now()]. *)
Definition _downloadImage (u : url) (now : N) : Js unit :=
  emit (Download u ("analise-facial-" +++ decimal now +++ ".png")).

(** [formatDecimal] (line 487): [(value || 0).toFixed(2)].  A truthy value
    that is not a number has no [toFixed]. *)
Definition formatDecimal (v : option json) : outcome string :=
  if truthy v then
    match v with
    | Some (JNum q) => Return (toFixed2 E q)
    | _ => Throw (type_error "toFixed is not a function")
    end
  else Return (toFixed2 E 0).

(** [data.detalhes?.group?.field] *)
Definition detail (data : json) (group field : string) : outcome (option json) :=
  match get_prop "detalhes" data with
  | Return d => Return (get_opt field (get_opt group d))
  | Throw e => Throw e
  end.

Definition formatDetail (data : json) (group field : string) : outcome unit :=
  and_then (detail data group field) (fun v =>
  and_then (formatDecimal v) (fun _ => Return tt)).

(** The text of the report (lines 489-506), for what can go wrong with it,
    in the order of the template: the four classifications are converted
    to strings, the confidence to a number, the method and the count of
    spots to strings, and the four metrics are formatted. *)
Definition report (data : json) : outcome unit :=
  and_then (get_prop "fitzpatrick" data) (fun fitzpatrick =>
  and_then (substitute fitzpatrick) (fun _ =>
  and_then (get_prop "textura" data) (fun textura =>
  and_then (substitute textura) (fun _ =>
  and_then (get_prop "manchas" data) (fun manchas =>
  and_then (substitute manchas) (fun _ =>
  and_then (get_prop "rugas" data) (fun rugas =>
  and_then (substitute rugas) (fun _ =>
  and_then (get_prop "face_detectada" data) (fun face =>
  and_then (percent (get_opt "confianca" face)) (fun _ =>
  and_then (substitute (get_opt "metodo" face)) (fun _ =>
  and_then (get_prop "detalhes" data) (fun detalhes =>
  and_then (substitute (get_opt "numero" (get_opt "manchas" detalhes)))
           (fun _ =>
  and_then (formatDetail data "manchas" "porcentagem") (fun _ =>
  and_then (formatDetail data "textura" "contraste") (fun _ =>
  and_then (formatDetail data "textura" "homogeneidade") (fun _ =>
  formatDetail data "rugas" "porcentagem")))))))))))))))).

(** [saveAnalysisData] (lines 485-521): the text is built, then offered as
    a file through an object URL that is revoked at once. *)
Definition saveAnalysisData (data : json) (now : N) : Js unit :=
  lift (report data);;
  u <- createObjectURL;;
  emit (Download u ("analise-facial-" +++ decimal now +++ ".txt"));;
  revokeObjectURL u;;
  alert "Análise salva com sucesso como arquivo TXT!".

(** ** Upload (lines 300-351) *)

(** Lines 324-330: the detail of a failed upload.  The body is parsed; a
    truthy [erro] field is the detail, otherwise the document serialised
    again; when the body is not JSON, or is [null], the raw text stays
    (the handler of line 328 is empty).  The template of line 330 then
    converts the detail to a string, outside that handler. *)
Definition errorDetails (text : string) : outcome string :=
  match JSON_parse E text with
  | inl _ => Return text
  | inr v =>
      match get_prop "erro" v with
      | Throw _ => Return text
      | Return erro =>
          if truthy erro then
            match erro with
            | Some x => to_string x
            | None => Return text
            end
          else Return (JSON_stringify E v)
      end
  end.

(** Lines 311-340, the body of the [try] of [analyzePhoto]: the upload is
    sent to [api]; [net] is how it settles. *)
Definition upload (api : string) (b : blob) (net : FetchResult) : Js unit :=
  emit (Fetch "POST" (api +++ "/upload") (Some (b, "face-capture.png")));;
  match net with
  | Rejected msg => throw (Exn "TypeError" msg)
  | Resolved response =>
      if negb (ok response) then
        details <- lift (errorDetails (body response));;
        throw (Exn "Error"
                 ("Falha na comunicação com a API (HTTP "
                  +++ decimal (status response) +++ "): " +++ details))
      else
        result <- response_json response;;
        erro <- lift (get_prop "erro" result);;
        if truthy erro then
          msg <- lift (match erro with
                       | Some x => to_string x
                       | None => Return ""
                       end);;
          throw (Exn "Error" msg)
        else showAnalysisResults b result
  end.

(** Lines 342-347, the handler of that [try]. *)
Definition upload_catch (b : blob) (error : exn) : Js unit :=
  emit (ConsoleError ("Erro de análise: " +++ error_toString error));;
  alert ("Erro na análise: " +++ message error);;
  showPreview b.

(** Lines 347-350, its [finally]. *)
Definition upload_finally : Js unit :=
  showLoading false "Processando...";;
  set_captureBtn_disabled false.

(** [analyzePhoto] (lines 300-351).  [this.apiUrl] is [null] or the origin
    of the page, which is not the empty string: it is truthy exactly when
    it is set. *)
Definition analyzePhoto (b : blob) (net : FetchResult) : Js unit :=
  w <- get;;
  match apiUrl (app w) with
  | None =>
      showLoading false "Processando...";;
      set_captureBtn_disabled false;;
      alert "API de análise não está disponível. Verifique a conexão."
  | Some api =>
      showLoading true "Analisando foto na API...";;
      try_finally
        (try_catch (upload api b net) (upload_catch b))
        upload_finally
  end.

(** ** Clicks on the buttons of the two views *)

Inductive button :=
| CloseAnalysis | DownloadResults | SaveResults | RetryCapture
| DownloadBtn | RetryBtn.

(** Modelled from the spec: the page markup and the style sheet
    (index.html, style.css) are not part of the sources.  The class
    [hidden] takes an element out of the display; the buttons of the full
    result view are inside its container (line 431), and the minimal
    preview is "image + download + retake", so [#downloadBtn] and
    [#retryBtn] are shown exactly when [#previewContainer] is. *)
Definition displayed (btn : button) (w : World) : bool :=
  match btn with
  | CloseAnalysis | DownloadResults | SaveResults | RetryCapture =>
      negb (analysisHidden (page w))
  | DownloadBtn | RetryBtn => negb (previewHidden (page w))
  end.

(** The [onclick] handlers of lines 434-437 and 542-552; a button that was
    not wired has none. *)
Definition onclick (btn : button) (now : N) : Js unit :=
  w <- get;;
  let p := page w in
  match btn with
  | CloseAnalysis | RetryCapture =>
      match analysisButtons p with
      | Some (u, _) => _hideAnalysisContainer u
      | None => ret tt
      end
  | DownloadResults =>
      match analysisButtons p with
      | Some (u, _) => _downloadImage u now
      | None => ret tt
      end
  | SaveResults =>
      match analysisButtons p with
      | Some (_, data) => saveAnalysisData data now
      | None => ret tt
      end
  | DownloadBtn =>
      match downloadBtn_onclick p with
      | Some u =>
          emit (Download u ("face-capture-" +++ decimal now +++ ".png"))
      | None => ret tt
      end
  | RetryBtn =>
      match retryBtn_onclick p with
      | Some u =>
          modify (on_page (set_previewHidden true));;
          emit (ClassAdd "previewContainer" "hidden");;
          revokeObjectURL u
      | None => ret tt
      end
  end.

(** A click reaches a button only while it is displayed. *)
Definition click (btn : button) (now : N) : Js unit :=
  w <- get;;
  if displayed btn w then onclick btn now else ret tt.

(** ** The page as an event loop

    What can run a piece of the controller after construction: the events
    its listeners and callbacks are registered for, and the settling of the
    promises it awaits. *)
Inductive event :=
| EvVideo (v : Video)              (* the video element reports new sizes *)
| EvMetadata                       (* [loadedmetadata] on the video *)
| EvHealth (r : FetchResult)       (* the health check settles *)
| EvConsent                        (* click on [#acceptConsent] *)
| EvSwitch                         (* click on [#switchCamera] *)
| EvMedia (r : MediaResult)        (* a [getUserMedia] promise settles *)
| EvCapture                        (* click on the capture button *)
(** [toBlob] hands over the blob, and the upload it starts settles *)
| EvBlob (b : blob) (net : FetchResult)
| EvClick (btn : button) (now : N).

(** A click listener runs when its element exists (lines 55-57); a disabled
    button receives no click. *)
Definition handle (e : event) : Js unit :=
  match e with
  | EvVideo v => modify (set_video v)
  | EvMetadata => setupCanvas
  | EvHealth r => detectApiUrl_settled r
  | EvConsent =>
      w <- get;;
      when (getElementById "acceptConsent" w) handleConsentAccept_request
  | EvSwitch =>
      w <- get;;
      when (getElementById "switchCamera" w) switchCamera_request
  | EvMedia r => initCamera_settled r
  | EvCapture =>
      w <- get;;
      when (dom_captureBtn (dom (app w)) && negb (captureDisabled (page w)))
           capturePhoto
  | EvBlob b net => analyzePhoto b net
  | EvClick btn now => click btn now
  end.

(** One turn of the event loop.  An exception that leaves a handler is
    reported by the browser and the page goes on. *)
Definition step (e : event) (w : World) : World * list effect :=
  let r := handle e w in (world_after r, trace_of r).

Fixpoint run (evs : list event) (w : World) : World * list effect :=
  match evs with
  | [] => (w, [])
  | e :: rest =>
      let (w1, t1) := step e w in
      let (w2, t2) := run rest w1 in
      (w2, t1 ++ t2)
  end.

(** ** Accounting of object URLs in a trace *)

Definition is_create (u : url) (e : effect) : bool :=
  match e with
  | CreateObjectURL v => Nat.eqb u v
  | _ => false
  end.

Definition is_revoke (u : url) (e : effect) : bool :=
  match e with
  | RevokeObjectURL v => Nat.eqb u v
  | _ => false
  end.

Definition created (u : url) (t : list effect) : nat :=
  length (filter (is_create u) t).

Definition revoked (u : url) (t : list effect) : nat :=
  length (filter (is_revoke u) t).

(** The displayed full result view was wired with [u]. *)
Definition analysis_owns (w : World) (u : url) : Prop :=
  analysisHidden (page w) = false /\
  exists data, analysisButtons (page w) = Some (u, data).

(** The displayed minimal preview was wired with [u]. *)
Definition preview_owns (w : World) (u : url) : Prop :=
  previewHidden (page w) = false /\ retryBtn_onclick (page w) = Some u.

Definition owns_displayed (w : World) (u : url) : Prop :=
  analysis_owns w u \/ preview_owns w u.

(** The buttons that dismiss the view that owns [u]. *)
Definition dismisses (btn : button) (w : World) (u : url) : Prop :=
  ((btn = CloseAnalysis \/ btn = RetryCapture) /\ analysis_owns w u)
  \/ (btn = RetryBtn /\ preview_owns w u).

(** A run in which a result is rendered only when no displayed view holds
    an object URL. *)
Fixpoint orderly (evs : list event) (w : World) : Prop :=
  match evs with
  | [] => True
  | e :: rest =>
      match e with
      | EvBlob _ _ => forall u, ~ owns_displayed w u
      | _ => True
      end
      /\ orderly rest (fst (step e w))
  end.

(** ** Notions the properties are stated with *)

(** [c] leaves the part [f] of the world as it found it. *)
Definition keeps {T A} (f : World -> T) (c : Js A) : Prop :=
  forall w, f (world_after (c w)) = f w.

(** [c] ends without an exception. *)
Definition returns {A} (c : Js A) : Prop :=
  forall w, exists a, outcome_of (c w) = Return a.

(** Every effect of [c] satisfies [P]. *)
Definition emits_only {A} (P : effect -> Prop) (c : Js A) : Prop :=
  forall w, Forall P (trace_of (c w)).

(** The fields only the constructor writes. *)
Definition fixed_fields (w : World) : Dom * Z * Z :=
  (dom (app w), ellipseWidth (app w), ellipseHeight (app w)).

(** The worlds the page can be in: constructed on a document that has the
    required elements, then any sequence of events. *)
Definition reachable (w : World) : Prop :=
  exists doc currentUrl supported v evs w0,
    boot doc currentUrl supported v = Some w0 /\ w = fst (run evs w0).

(** The effects of [showLoading]. *)
Definition loading_effects (w : World) (show : bool) (msg : string)
  : list effect :=
  if dom_loading (dom (app w)) then
    if show then [SetTextContent "loading" msg; ClassRemove "loading" "hidden"]
    else [ClassAdd "loading" "hidden"]
  else [].

(** The canvas calls of a capture, for the source rectangle [src]. *)
Definition canvas_calls (src : Geometry.SourceRect) : list effect :=
  [ CanvasWidth 307; CanvasHeight 407;
    CtxSave; CtxBeginPath;
    CtxEllipse (inject_Z 307 / 2) (inject_Z 407 / 2)
               (inject_Z 307 / 2) (inject_Z 407 / 2);
    CtxClip;
    CtxClearRect 0 0 307 407;
    CtxDrawImage src 0 0 307 407;
    CtxRestore;
    CanvasToBlob "image/png" (95 # 100) ].

(** The source rectangle of a capture in the world [w]. *)
Definition capture_source (w : World) : Geometry.SourceRect :=
  Geometry.ellipseSource (Geometry.number 307) (Geometry.number 407)
    (dimension (videoWidth (video w))) (dimension (videoHeight (video w)))
    (rectWidth (video w)) (rectHeight (video w)).

(** An effect that initialises something: a listener, the registration of
    the service worker, a request. *)
Definition initialises (e : effect) : bool :=
  match e with
  | AddEventListener _ _ | RegisterServiceWorker _ | Fetch _ _ _ => true
  | _ => false
  end.


(** ** File downloads *)

Definition is_download (e : effect) : bool :=
  match e with
  | Download _ _ => true
  | _ => false
  end.

(** The two file names the specification gives for the downloads. *)
Definition spec_download_names (now : N) : list string :=
  [ "analise-facial-" +++ decimal now +++ ".png";
    "analise-facial-" +++ decimal now +++ ".txt" ].

(** The name the handler of a button gives the file it offers at the time
    [now]. *)
Definition file_name (btn : button) (now : N) : option string :=
  match btn with
  | DownloadResults => Some ("analise-facial-" +++ decimal now +++ ".png")
  | SaveResults => Some ("analise-facial-" +++ decimal now +++ ".txt")
  | DownloadBtn => Some ("face-capture-" +++ decimal now +++ ".png")
  | _ => None
  end.

(** ** Upload *)

(** What an upload that was sent comes to: the error its handler receives
    (line 342), or the document the result view is built from. *)
Definition upload_outcome (net : FetchResult) : exn + json :=
  match net with
  | Rejected msg => inl (Exn "TypeError" msg)
  | Resolved r =>
      if ok r then
        match JSON_parse E (body r) with
        | inl msg => inl (Exn "SyntaxError" msg)
        | inr JNull => inl (type_error "null.erro")
        | inr (JObj fields) =>
            match assoc "erro" fields with
            | Some x =>
                if truthy (Some x) then
                  inl (match to_string x with
                       | Return msg => Exn "Error" msg
                       | Throw e => e
                       end)
                else inr (JObj fields)
            | None => inr (JObj fields)
            end
        | inr v => inr v
        end
      else
        inl (match errorDetails (body r) with
             | Return details =>
                 Exn "Error"
                   ("Falha na comunicação com a API (HTTP "
                    +++ decimal (status r) +++ "): " +++ details)
             | Throw e => e
             end)
  end.

(** The notice of line 344. *)
Definition failure_notice (e : effect) : bool :=
  match e with
  | Alert msg => prefix "Erro na análise: " msg
  | _ => false
  end.

(** The upload was treated as failed: the notice of line 344 was shown. *)
Definition upload_failed (t : list effect) : bool := existsb failure_notice t.

(** When an upload that was sent is treated as failed: the request itself
    fails, the status is not a success, the body of a success is not JSON
    or is [null], or it has a truthy field [erro]. *)
Definition upload_fails (net : FetchResult) : bool :=
  match net with
  | Rejected _ => true
  | Resolved r =>
      negb (ok r)
      || match JSON_parse E (body r) with
         | inl _ => true
         | inr JNull => true
         | inr (JObj fields) => truthy (assoc "erro" fields)
         | inr _ => false
         end
  end.

(** The minimal preview is rendered: its image is set. *)
Definition shows_preview (e : effect) : bool :=
  match e with
  | SetImageSrc _ _ => true
  | _ => false
  end.

Definition is_fetch (e : effect) : bool :=
  match e with
  | Fetch _ _ _ => true
  | _ => false
  end.

Definition is_render (e : effect) : bool :=
  match e with
  | RenderAnalysis _ _ => true
  | _ => false
  end.

(** The failure of an upload in the words of the specification: the status
    is not a success, or the body of a success carries a field [erro]. *)
Definition has_erro_field (text : string) : bool :=
  match JSON_parse E text with
  | inr (JObj fields) =>
      match assoc "erro" fields with
      | Some _ => true
      | None => false
      end
  | _ => false
  end.

Definition spec_upload_failure (r : Response) : bool :=
  negb (ok r) || has_erro_field (body r).

(** The specification's account of when an upload that was answered is
    treated as failed. *)
Definition upload_failure_as_stated : Prop :=
  forall (w : World) (b : blob) (r : Response) (api : string),
    dom_captureBtn (dom (app w)) = true ->
    apiUrl (app w) = Some api ->
    (upload_failed (trace_of (analyzePhoto b (Resolved r) w)) = true
     <-> spec_upload_failure r = true).

(** One half of it: a success whose body carries a field [erro] is treated
    as failed. *)
Definition erro_field_as_stated : Prop :=
  forall (w : World) (b : blob) (r : Response) (api : string),
    dom_captureBtn (dom (app w)) = true ->
    apiUrl (app w) = Some api ->
    ok r = true -> has_erro_field (body r) = true ->
    upload_failed (trace_of (analyzePhoto b (Resolved r) w)) = true.

(** "The error message (extracted from the JSON error field, falling back
    to raw body text)": when the status is not a success and the body
    carries no field [erro], the notice carries the raw text of the
    body. *)
Definition raw_text_fallback_as_stated : Prop :=
  forall (w : World) (b : blob) (r : Response) (api : string),
    dom_captureBtn (dom (app w)) = true ->
    apiUrl (app w) = Some api ->
    ok r = false -> has_erro_field (body r) = false ->
    In (Alert ("Erro na análise: Falha na comunicação com a API (HTTP "
               +++ decimal (status r) +++ "): " +++ body r))
       (trace_of (analyzePhoto b (Resolved r) w)).

(** "In every failure case" the minimal preview is rendered, whatever the
    page. *)
Definition preview_on_failure_as_stated : Prop :=
  forall (w : World) (b : blob) (net : FetchResult) (api : string),
    dom_captureBtn (dom (app w)) = true ->
    apiUrl (app w) = Some api ->
    upload_failed (trace_of (analyzePhoto b net w)) = true ->
    existsb shows_preview (trace_of (analyzePhoto b net w)) = true.

(** "On upload failure of any kind" the minimal preview is rendered: also
    when the upload fails for want of an endpoint. *)
Definition preview_without_endpoint_as_stated : Prop :=
  forall (w : World) (b : blob) (net : FetchResult),
    dom_captureBtn (dom (app w)) = true ->
    getElementById "previewContainer" w = true ->
    getElementById "previewImage" w = true ->
    apiUrl (app w) = None ->
    existsb shows_preview (trace_of (analyzePhoto b net w)) = true.

(** ** Camera *)

(** The tracks of a stream, as pairs of the stream and the track. *)
Definition tracks_of (s : MediaStream) : list (nat * nat) :=
  map (fun t => (stream_id s, t)) (tracks s).

(** The live tracks are those of the stream the controller holds. *)
Definition holds_the_live_tracks (w : World) : Prop :=
  liveTracks w
  = match currentStream (app w) with
    | Some s => tracks_of s
    | None => []
    end.

Definition is_track_stop (sid : nat) (e : effect) : bool :=
  match e with
  | TrackStop s _ => Nat.eqb s sid
  | _ => false
  end.

(** ** The life cycle of object URLs, as a small machine

    What the accounting of object URLs depends on: how many were made, and
    for each of the two views whether it is displayed and which URL its
    dismiss handler holds.  The controller is shown to follow this machine
    ([step_follows_machine]), and the accounting is proved on it. *)

Inductive url_effect :=
| Make (u : url)
| Drop (u : url).

Fixpoint url_effects (t : list effect) : list url_effect :=
  match t with
  | [] => []
  | CreateObjectURL u :: rest => Make u :: url_effects rest
  | RevokeObjectURL u :: rest => Drop u :: url_effects rest
  | _ :: rest => url_effects rest
  end.

Record Urls := {
  next : nat;                 (* object URLs made so far *)
  aShown : bool;              (* the full result view is displayed *)
  aOwner : option url;        (* the URL its buttons were wired with *)
  pShown : bool;              (* the minimal preview is displayed *)
  pOwner : option url;        (* the URL of the handler of [#retryBtn] *)
  pButtons : bool             (* [#downloadBtn] and [#retryBtn] exist *)
}.

Definition url_state (w : World) : Urls :=
  {| next := nextUrl w;
     aShown := negb (analysisHidden (page w));
     aOwner := option_map fst (analysisButtons (page w));
     pShown := negb (previewHidden (page w));
     pOwner := retryBtn_onclick (page w);
     pButtons := getElementById "downloadBtn" w && getElementById "retryBtn" w |}.

(** [showPreview] finds its container and its image. *)
Definition previewable (w : World) : bool :=
  getElementById "previewContainer" w && getElementById "previewImage" w.

Inductive move :=
| Quiet
| Render (failed : bool) (preview : bool)
| Preview (preview : bool)
| DismissAnalysis
| DismissPreview
| Save.

Definition preview_move (preview : bool) (s : Urls) : Urls * list url_effect :=
  if preview then
    if pButtons s then
      ({| next := S (next s); aShown := aShown s; aOwner := aOwner s;
          pShown := true; pOwner := Some (next s); pButtons := pButtons s |},
       [Make (next s)])
    else
      ({| next := S (next s); aShown := aShown s; aOwner := aOwner s;
          pShown := true; pOwner := pOwner s; pButtons := pButtons s |},
       [Make (next s); Drop (next s)])
  else (s, []).

Definition make_move (m : move) (s : Urls) : Urls * list url_effect :=
  match m with
  | Quiet => (s, [])
  | Render false _ =>
      ({| next := S (next s); aShown := true; aOwner := Some (next s);
          pShown := pShown s; pOwner := pOwner s; pButtons := pButtons s |},
       [Make (next s)])
  | Render true preview =>
      let s1 := {| next := S (next s); aShown := true; aOwner := None;
                   pShown := pShown s; pOwner := pOwner s;
                   pButtons := pButtons s |} in
      (fst (preview_move preview s1),
       Make (next s) :: Drop (next s) :: snd (preview_move preview s1))
  | Preview preview => preview_move preview s
  | DismissAnalysis =>
      match aOwner s with
      | Some u =>
          if aShown s then
            ({| next := next s; aShown := false; aOwner := aOwner s;
                pShown := pShown s; pOwner := pOwner s;
                pButtons := pButtons s |},
             [Drop u])
          else (s, [])
      | None => (s, [])
      end
  | DismissPreview =>
      match pOwner s with
      | Some u =>
          if pShown s then
            ({| next := next s; aShown := aShown s; aOwner := aOwner s;
                pShown := false; pOwner := pOwner s;
                pButtons := pButtons s |},
             [Drop u])
          else (s, [])
      | None => (s, [])
      end
  | Save =>
      ({| next := S (next s); aShown := aShown s; aOwner := aOwner s;
          pShown := pShown s; pOwner := pOwner s; pButtons := pButtons s |},
       [Make (next s); Drop (next s)])
  end.

(** The report of [data] can be written: nothing throws while its text is
    built. *)
Definition report_formats (data : json) : bool :=
  match report data with
  | Return _ => true
  | Throw _ => false
  end.

(** The content of the result view can be built from [data]. *)
Definition renders (data : json) : bool :=
  match render_conversions data with
  | Return _ => true
  | Throw _ => false
  end.

(** The move of the machine an event of the page amounts to. *)
Definition move_of (e : event) (w : World) : move :=
  match e with
  | EvBlob _ net =>
      match apiUrl (app w) with
      | None => Quiet
      | Some _ =>
          match upload_outcome net with
          | inl _ => Preview (previewable w)
          | inr data => Render (negb (renders data)) (previewable w)
          end
      end
  | EvClick CloseAnalysis _ | EvClick RetryCapture _ => DismissAnalysis
  | EvClick RetryBtn _ => DismissPreview
  | EvClick SaveResults _ =>
      match analysisButtons (page w) with
      | Some (_, data) =>
          if analysisHidden (page w) then Quiet
          else if report_formats data then Save else Quiet
      | None => Quiet
      end
  | _ => Quiet
  end.

Definition made (u : url) (t : list url_effect) : nat :=
  length (filter (fun e => match e with Make v => Nat.eqb u v | _ => false end) t).

Definition dropped (u : url) (t : list url_effect) : nat :=
  length (filter (fun e => match e with Drop v => Nat.eqb u v | _ => false end) t).

(** The accounting that holds of the machine at every moment: the URLs
    made are those below [next], each once; none was revoked twice; the URL
    a view holds was revoked exactly when that view was dismissed. *)
Definition accounted (s : Urls) (t : list url_effect) : Prop :=
  (forall u, made u t = if (u <? next s)%nat then 1 else 0)
  /\ (forall u, dropped u t <= 1)
  /\ (forall u, next s <= u -> dropped u t = 0)
  /\ (forall u, aOwner s = Some u ->
        u < next s /\ dropped u t = if aShown s then 0 else 1)
  /\ (forall u, pOwner s = Some u ->
        u < next s /\ dropped u t = (if pShown s then 0 else 1)
        /\ pButtons s = true)
  /\ (forall u, aOwner s = Some u -> pOwner s <> Some u).

(** A displayed view holds [u]. *)
Definition held (s : Urls) (u : url) : Prop :=
  (aShown s = true /\ aOwner s = Some u)
  \/ (pShown s = true /\ pOwner s = Some u).

(** Every URL made was revoked, or is held by a displayed view. *)
Definition none_lost (s : Urls) (t : list url_effect) : Prop :=
  forall u, u < next s -> dropped u t = 1 \/ held s u.

(** An effect that neither makes nor revokes an object URL. *)
Definition not_url (e : effect) : Prop :=
  match e with
  | CreateObjectURL _ | RevokeObjectURL _ => False
  | _ => True
  end.

(** A computation that follows the move [m w] of the machine. *)
Definition follows {A} (c : Js A) (m : World -> move) : Prop :=
  forall w,
    url_state (world_after (c w)) = fst (make_move (m w) (url_state w))
    /\ url_effects (trace_of (c w)) = snd (make_move (m w) (url_state w)).


(** ** Further notions *)

(** The health check found the API: the response is a success and its body
    is a JSON object whose [status] is the string ["online"]. *)
Definition health_online (r : FetchResult) : bool :=
  match r with
  | Rejected _ => false
  | Resolved response =>
      ok response
      && match JSON_parse E (body response) with
         | inr (JObj fields) =>
             match assoc "status" fields with
             | Some (JStr s) => String.eqb s "online"
             | _ => false
             end
         | _ => false
         end
  end.

Definition is_console_error (e : effect) : bool :=
  match e with
  | ConsoleError _ => true
  | _ => false
  end.

Definition is_blob_event (e : event) : bool :=
  match e with
  | EvBlob _ _ => true
  | _ => false
  end.

Definition is_get_user_media (e : effect) : bool :=
  match e with
  | GetUserMedia _ _ _ => true
  | _ => false
  end.

Definition is_to_blob (e : effect) : bool :=
  match e with
  | CanvasToBlob _ _ => true
  | _ => false
  end.

(** [data.name] of a document that is not [null]. *)
Definition property (data : json) (name : string) : option json :=
  match data with
  | JObj fields => assoc name fields
  | _ => None
  end.

(** [data.detalhes?.group?.field] of a document that is not [null]. *)
Definition metric (data : json) (group field : string) : option json :=
  get_opt field (get_opt group (property data "detalhes")).

(** A value a template can show: falsy (a default is shown in its place),
    or one whose conversion to a string succeeds. *)
Definition shown (v : option json) : bool :=
  negb (truthy v)
  || match v with
     | Some x => stringable x
     | None => true
     end.

(** What the result view and the report convert of the document: the four
    classifications, the confidence and the method of the detection, and
    the count of spots. *)
Definition template_fields (data : json) : list (option json) :=
  [ property data "fitzpatrick"; property data "textura";
    property data "manchas"; property data "rugas";
    get_opt "confianca" (property data "face_detectada");
    get_opt "metodo" (property data "face_detectada");
    metric data "manchas" "numero" ].

(** The document is an analysis the result view can be built from. *)
Definition presentable (data : json) : bool :=
  match data with
  | JNull => false
  | _ => forallb shown (template_fields data)
  end.

(** A metric the report can print: a number, or a falsy value (absent,
    [null], [false], the empty string), which is printed as zero. *)
Definition printable (v : option json) : bool :=
  match v with
  | Some (JNum _) => true
  | _ => negb (truthy v)
  end.

(** The four metrics the report prints with two decimals. *)
Definition report_metrics : list (string * string) :=
  [ ("manchas", "porcentagem"); ("textura", "contraste");
    ("textura", "homogeneidade"); ("rugas", "porcentagem") ].

(** The document is an analysis whose report can be written. *)
Definition saves (data : json) : bool :=
  presentable data
  && forallb (fun gf => printable (metric data (fst gf) (snd gf)))
             report_metrics.

End WithEngine.

End Controller.

(* ===================================================================== *)
(** * The offline cache worker (the service worker script) *)
(* ===================================================================== *)

Module Worker.

Definition CACHE_NAME : string := "face-capture-v2".

Definition STATIC_CACHE : list string :=
  [ "/"; "/index.html"; "/style.css"; "/app.js"; "/manifest.json";
    "/icons/icon-512x512.png" ].

Definition OFFLINE_URL : string := "/index.html".

(** A request as the fetch event carries it; [url_origin] is
    [new URL(request.url).origin]. *)
Record Request := {
  method : string;
  url : string;
  url_origin : string
}.

Record Response := { status : N; body : string }.

(** [response.ok] *)
Definition ok (r : Response) : bool :=
  ((200 <=? status r) && (status r <=? 299))%N.

(** A cache: request URL to response.  The cache storage: name to cache, in
    the order of creation, which is the order [caches.match] searches in.
    Requests are matched by URL. *)
Definition Cache : Type := list (string * Response).
Definition CacheStorage : Type := list (string * Cache).

(** [cache.match(url)] *)
Fixpoint cache_match (c : Cache) (u : string) : option Response :=
  match c with
  | [] => None
  | (k, r) :: rest => if String.eqb k u then Some r else cache_match rest u
  end.

(** [caches.match(url)]: the first cache that has the URL answers. *)
Fixpoint caches_match (cs : CacheStorage) (u : string) : option Response :=
  match cs with
  | [] => None
  | (_, c) :: rest =>
      match cache_match c u with
      | Some r => Some r
      | None => caches_match rest u
      end
  end.

(** [caches.keys()] *)
Definition keys (cs : CacheStorage) : list string := map fst cs.

(** [caches.has(name)] *)
Definition has_cache (cs : CacheStorage) (name : string) : bool :=
  existsb (String.eqb name) (keys cs).

(** [caches.open(name)]: the cache is created, empty, when it is not
    there. *)
Definition open (cs : CacheStorage) (name : string) : CacheStorage :=
  if has_cache cs name then cs else cs ++ [(name, [])].

(** [cache.put(url, response)]: the entry of the URL is replaced, or a new
    one is added. *)
Fixpoint cache_put (c : Cache) (u : string) (r : Response) : Cache :=
  match c with
  | [] => [(u, r)]
  | (k, r0) :: rest =>
      if String.eqb k u then (k, r) :: rest
      else (k, r0) :: cache_put rest u r
  end.

(** [caches.open(name).then(cache => cache.put(url, response))] *)
Fixpoint put_in (cs : CacheStorage) (name u : string) (r : Response)
  : CacheStorage :=
  match cs with
  | [] => [(name, [(u, r)])]
  | (n, c) :: rest =>
      if String.eqb n name then (n, cache_put c u r) :: rest
      else (n, c) :: put_in rest name u r
  end.

(** [caches.delete(name)] *)
Definition delete (cs : CacheStorage) (name : string) : CacheStorage :=
  filter (fun e => negb (String.eqb (fst e) name)) cs.

(** The worker: its own origin ([location.origin]), the cache storage of
    that origin, and the cache writes that were started and not awaited. *)
Record Put := { put_cache : string; put_url : string; put_response : Response }.

Record State := {
  caches : CacheStorage;
  pending : list Put
}.

(** ** install (lines 16-27)

    [net] is what the network answers for a URL ([None]: the fetch fails).
    [cache.addAll] stores the whole list or, when a fetch fails or answers a
    status that is not [ok], nothing.  The result tells whether the
    installation succeeded. *)
Fixpoint fetch_all (origin : string) (net : string -> option Response)
    (paths : list string) : option (list (string * Response)) :=
  match paths with
  | [] => Some []
  | p :: rest =>
      match net (origin +++ p) with
      | Some r =>
          if ok r then
            match fetch_all origin net rest with
            | Some l => Some ((origin +++ p, r) :: l)
            | None => None
            end
          else None
      | None => None
      end
  end.

Definition put_all (cs : CacheStorage) (name : string)
    (l : list (string * Response)) : CacheStorage :=
  fold_left (fun acc e => put_in acc name (fst e) (snd e)) l cs.

Definition install (origin : string) (net : string -> option Response)
    (cs : CacheStorage) : bool * CacheStorage :=
  let opened := open cs CACHE_NAME in
  match fetch_all origin net STATIC_CACHE with
  | Some l => (true, put_all opened CACHE_NAME l)
  | None => (false, opened)
  end.

(** ** activate (lines 30-44): every cache with another name is deleted. *)
Definition stale (cs : CacheStorage) : list string :=
  filter (fun cacheName => negb (String.eqb cacheName CACHE_NAME)) (keys cs).

Definition activate (cs : CacheStorage) : CacheStorage :=
  fold_left delete (stale cs) cs.

(** ** fetch (lines 47-87) *)

(** What the handler does with the event: it returns without
    [respondWith], and the browser handles the request as if there were no
    worker; or it answers with the promise's value, where [None] is
    [undefined] (no response: the page sees a network error). *)
Inductive answer :=
| PassThrough
| RespondWith (r : option Response).

Inductive effect :=
| CachesMatch (u : string)
| NetworkFetch (u : string)
| ConsoleLog (msg : string).

Record Handled := {
  reply : answer;
  started : list Put;      (* cache writes started, not awaited *)
  trace : list effect
}.

(** Lines 52-57: the requests the handler leaves alone. *)
Definition ignored (origin : string) (req : Request) : bool :=
  negb (String.eqb (method req) "GET")
  || includes (url req) "/upload"
  || negb (String.eqb (url_origin req) origin).

(** [net] is how [fetch(event.request)] settles when it is called. *)
Definition on_fetch (origin : string) (cs : CacheStorage) (req : Request)
    (net : option Response) : Handled :=
  if ignored origin req then
    {| reply := PassThrough; started := []; trace := [] |}
  else
    match caches_match cs (url req) with
    | Some cachedResponse =>
        {| reply := RespondWith (Some cachedResponse);
           started := [];
           trace := [CachesMatch (url req)] |}
    | None =>
        match net with
        | Some networkResponse =>
            {| reply := RespondWith (Some networkResponse);
               started :=
                 if (status networkResponse =? 200)%N
                 then [{| put_cache := CACHE_NAME; put_url := url req;
                          put_response := networkResponse |}]
                 else [];
               trace := [CachesMatch (url req); NetworkFetch (url req)] |}
        | None =>
            {| reply := RespondWith (caches_match cs (origin +++ OFFLINE_URL));
               started := [];
               trace := [CachesMatch (url req); NetworkFetch (url req);
                         ConsoleLog "Service Worker: Falha na requisição de rede. Tentando fallback offline.";
                         CachesMatch (origin +++ OFFLINE_URL)] |}
        end
    end.

(** ** The life of the worker after a successful installation *)
Inductive event :=
| Fetch (req : Request) (net : option Response)
| Written.     (* the oldest started cache write completes *)

Definition step (origin : string) (e : event) (s : State) : State :=
  match e with
  | Fetch req net =>
      {| caches := caches s;
         pending := pending s ++ started (on_fetch origin (caches s) req net) |}
  | Written =>
      match pending s with
      | [] => s
      | p :: rest =>
          {| caches := put_in (caches s) (put_cache p) (put_url p) (put_response p);
             pending := rest |}
      end
  end.

Definition run (origin : string) (evs : list event) (s : State) : State :=
  fold_left (fun acc e => step origin e acc) evs s.

(** The state in which the worker starts to serve: installed, then
    activated. *)
Definition activated (origin : string) (net : string -> option Response)
    (cs : CacheStorage) : option State :=
  match install origin net cs with
  | (true, cs1) => Some {| caches := activate cs1; pending := [] |}
  | (false, _) => None
  end.

(** ** Notions the properties are stated with *)

(** The cache with a given name. *)
Fixpoint find_cache (cs : CacheStorage) (name : string) : option Cache :=
  match cs with
  | [] => None
  | (n, c) :: rest => if String.eqb n name then Some c else find_cache rest name
  end.

(** The worker serves from the single current cache, which holds the
    offline document, and every write it started goes to that cache. *)
Definition serving (origin : string) (s : State) : Prop :=
  (exists c, caches s = [(CACHE_NAME, c)]
             /\ cache_match c (origin +++ OFFLINE_URL) <> None)
  /\ Forall (fun p => put_cache p = CACHE_NAME) (pending s).

(** The write-through of the specification: on a miss, a response whose
    status is a success has a copy written to the cache. *)
Definition write_through_as_stated : Prop :=
  forall (origin : string) (cs : CacheStorage) (req : Request) (r : Response),
    ignored origin req = false ->
    caches_match cs (url req) = None ->
    ok r = true ->
    exists p, In p (started (on_fetch origin cs req (Some r)))
              /\ put_url p = url req.

(** "Store a copy in the cache store before returning it to the caller":
    on a miss, once the handler has answered with a response of status
    200, the cache store answers the request with it. *)
Definition stored_before_returned_as_stated : Prop :=
  forall (origin : string) (s : State) (req : Request) (r : Response),
    ignored origin req = false ->
    caches_match (caches s) (url req) = None ->
    status r = 200%N ->
    reply (on_fetch origin (caches s) req (Some r)) = RespondWith (Some r) ->
    caches_match (caches (step origin (Fetch req (Some r)) s)) (url req)
    = Some r.

(** ** Further notions *)

(** The network answers the static asset [p] with a success. *)
Definition asset_available (origin : string) (net : string -> option Response)
    (p : string) : bool :=
  match net (origin +++ p) with
  | Some r => ok r
  | None => false
  end.

(** The answers of the network for a list of paths, by URL. *)
Definition answers (origin : string) (net : string -> option Response)
    (paths : list string) : list (string * Response) :=
  flat_map (fun p => match net (origin +++ p) with
                     | Some r => [(origin +++ p, r)]
                     | None => []
                     end) paths.

End Worker.

(* ===================================================================== *)
(** * Concrete inputs the properties are exercised on *)
(* ===================================================================== *)

Module Samples.

Import Controller.

(** The double quote character, as a string. *)
Definition dq : string := String (ascii_of_nat 34) EmptyString.

(** The body [{"erro":"face not found"}]. *)
Definition face_not_found : string :=
  "{" +++ dq +++ "erro" +++ dq +++ ":" +++ dq +++ "face not found" +++ dq +++ "}".

(** The body [{"erro":null}]. *)
Definition erro_null : string :=
  "{" +++ dq +++ "erro" +++ dq +++ ":null}".

(** The body [{"erro":{"toString":1}}]. *)
Definition erro_unconvertible : string :=
  "{" +++ dq +++ "erro" +++ dq +++ ":{" +++ dq +++ "toString" +++ dq +++ ":1}}".

(** The body [{"fitzpatrick":{"toString":1}}]. *)
Definition fitzpatrick_unconvertible : string :=
  "{" +++ dq +++ "fitzpatrick" +++ dq +++ ":{" +++ dq +++ "toString" +++ dq
  +++ ":1}}".

(** The body [{"status":"online"}]. *)
Definition online_body : string :=
  "{" +++ dq +++ "status" +++ dq +++ ":" +++ dq +++ "online" +++ dq +++ "}".

(** An engine that parses the bodies used below. *)
Definition engine : Engine :=
  {| JSON_parse := fun text =>
       if String.eqb text face_not_found
       then inr (JObj [("erro", JStr "face not found")])
       else if String.eqb text online_body
       then inr (JObj [("status", JStr "online")])
       else if String.eqb text "{}" then inr (JObj [])
       else if String.eqb text "{ }" then inr (JObj [])
       else if String.eqb text erro_null then inr (JObj [("erro", JNull)])
       else if String.eqb text erro_unconvertible
       then inr (JObj [("erro", JObj [("toString", JNum 1)])])
       else if String.eqb text fitzpatrick_unconvertible
       then inr (JObj [("fitzpatrick", JObj [("toString", JNum 1)])])
       else inl "Unexpected token < in JSON at position 0";
     JSON_stringify := fun _ => "{}";
     NumberToString := fun _ => "0";
     toFixed2 := fun _ => "0.00";
     typeErrorMessage := fun access =>
       if String.eqb access "ToPrimitive"
       then "Cannot convert object to primitive value"
       else "Cannot read " +++ access |}.

Definition page_origin : string := "https://app.example".

(** A page with every element the controller looks up. *)
Definition document : list string :=
  [ "video"; "canvas"; "consentScreen"; "mainApp"; "loading"; "captureBtn";
    "acceptConsent"; "switchCamera";
    "previewContainer"; "previewImage"; "downloadBtn"; "retryBtn" ].

(** A 1280x720 camera shown in a 360x640 box. *)
Definition camera : Video :=
  {| videoWidth := Some 1280%N; videoHeight := Some 720%N;
     rectWidth := 360%float; rectHeight := 640%float |}.

(** The same video element before the metadata arrived. *)
Definition camera_not_ready : Video :=
  {| videoWidth := Some 0%N; videoHeight := Some 0%N;
     rectWidth := 360%float; rectHeight := 640%float |}.

(** The world right after construction on [document]. *)
Definition fresh : World :=
  {| origin := page_origin; serviceWorkerSupported := true;
     video := camera; page := loaded_page document; nextUrl := 0;
     liveTracks := [];
     app := {| dom := lookup_dom document; currentStream := None;
               facingMode := User; apiUrl := None;
               ellipseWidth := 307; ellipseHeight := 407 |} |}.

(** [fresh] once the health check found the API. *)
Definition connected : World := on_app (set_apiUrl (Some page_origin)) fresh.

(** [connected] with the minimal preview of a blob displayed. *)
Definition preview_shown : World :=
  world_after (showPreview engine 1 connected).

(** [connected] with the full result view of a blob displayed. *)
Definition results_shown : World :=
  world_after (showAnalysisResults engine 1 (JObj []) connected).

(** A success status whose body is not JSON. *)
Definition html_page : Response := {| status := 200; body := "<html>" |}.

(** HTTP 500 with the body [{"erro":"face not found"}]. *)
Definition server_error : Response :=
  {| status := 500; body := face_not_found |}.

(** An analysis with no field. *)
Definition empty_analysis : Response := {| status := 200; body := "{}" |}.

(** A success whose body has a field [erro] that is [null]. *)
Definition no_error : Response := {| status := 200; body := erro_null |}.

(** HTTP 500 whose [erro] cannot be converted to a string. *)
Definition odd_error : Response :=
  {| status := 500; body := erro_unconvertible |}.

(** An analysis whose classification cannot be converted to a string. *)
Definition odd_analysis : Response :=
  {| status := 200; body := fitzpatrick_unconvertible |}.

(** HTTP 503 with the body [{ }]: JSON, without a field [erro]. *)
Definition unavailable : Response := {| status := 503; body := "{ }" |}.

(** The health check answered by the API. *)
Definition healthy : Response := {| status := 200; body := online_body |}.

(** A session: the API is found; a first capture fails at the server and
    its preview is dismissed; a second capture succeeds, its image and its
    report are downloaded and the view is closed. *)
Definition session : list event :=
  [ EvHealth (Resolved healthy);
    EvCapture; EvBlob 1 (Resolved server_error);
    EvClick DownloadBtn 1700000000000; EvClick RetryBtn 1700000000001;
    EvCapture; EvBlob 2 (Resolved empty_analysis);
    EvClick DownloadResults 1700000000002;
    EvClick SaveResults 1700000000003;
    EvClick CloseAnalysis 1700000000004 ].

(** ** Camera streams *)

Definition front_stream : MediaStream := {| stream_id := 0; tracks := [0] |}.
Definition back_stream : MediaStream := {| stream_id := 1; tracks := [0] |}.
Definition front_again : MediaStream := {| stream_id := 2; tracks := [0] |}.

(** [fresh] after the consent was accepted and the front camera granted. *)
Definition streaming : World :=
  fst (run engine [EvConsent; EvMedia (Granted front_stream)] fresh).

(** The switch button pressed twice before the camera answers, then the
    two requests granted in turn. *)
Definition two_quick_switches : list event :=
  [ EvSwitch; EvSwitch;
    EvMedia (Granted back_stream); EvMedia (Granted front_again) ].

(** ** The cache worker *)

(** A same-origin GET of a page asset. *)
Definition asset_request : Worker.Request :=
  {| Worker.method := "GET";
     Worker.url := "https://app.example/extra.js";
     Worker.url_origin := "https://app.example" |}.

(** The upload of the controller. *)
Definition upload_request : Worker.Request :=
  {| Worker.method := "POST";
     Worker.url := "https://app.example/upload";
     Worker.url_origin := "https://app.example" |}.

Definition asset : Worker.Response :=
  {| Worker.status := 200; Worker.body := "console.log(1)" |}.

(** A success that is not a 200. *)
Definition no_content : Worker.Response :=
  {| Worker.status := 204; Worker.body := "" |}.

(** A network on which every URL answers 200. *)
Definition online (u : string) : option Worker.Response :=
  Some {| Worker.status := 200; Worker.body := u |}.

(** The cache storage an earlier version of the worker left. *)
Definition old_storage : Worker.CacheStorage :=
  [ ("face-capture-v1",
     [("https://app.example/index.html",
       {| Worker.status := 200; Worker.body := "old" |})]);
    ("unrelated", []) ].

(** ** Further worlds *)

(** [fresh] after the health check was answered by the API. *)
Definition api_found : World :=
  fst (run engine [EvHealth (Resolved healthy)] fresh).

(** Two captures whose uploads both fail at the server, the second made
    while the preview of the first is displayed; then the preview is
    dismissed with its retake button. *)
Definition two_failed_captures : list event :=
  [ EvHealth (Resolved healthy);
    EvCapture; EvBlob 1 (Resolved server_error);
    EvCapture; EvBlob 2 (Resolved server_error);
    EvClick RetryBtn 1700000000000 ].

(** [api_found] on a page that has the required elements and the capture
    button, and nothing of the minimal preview. *)
Definition bare_page : World :=
  on_page (set_ids ["video"; "canvas"; "captureBtn"]) api_found.

End Samples.

(* ===================================================================== *)
(** * Properties of the cover-fit geometry *)
(* ===================================================================== *)

Module GeometryFacts.

Import Geometry.
Local Open Scope float_scope.

(** A landscape camera in a portrait box: the width is cropped, and the
    product is rounded (404.79760119940028, offset 437.60119940029983). *)
Example coverFit_landscape_in_portrait :
  coverFit 1280 720 375 667
  = {| drawWidth := 0x1.94cc2f979aacbp+8; drawHeight := 720;
       offsetX := 0x1.b599e83432a9ap+8; offsetY := 0 |}.
Proof. reflexivity. Qed.

Example coverFit_portrait_in_landscape :
  coverFit 720 1280 640 360
  = {| drawWidth := 720; drawHeight := 405;
       offsetX := 0; offsetY := 437.5 |}.
Proof. reflexivity. Qed.

(** A box without height: the container aspect is infinite, the comparison
    fails and the second branch divides by it. *)
Example coverFit_flat_box :
  coverFit 1280 720 360 0
  = {| drawWidth := 1280; drawHeight := 0; offsetX := 0; offsetY := 360 |}.
Proof. reflexivity. Qed.



End GeometryFacts.

(* ===================================================================== *)
(** * Properties of the capture controller *)
(* ===================================================================== *)

Module ControllerFacts.

Import Controller.

(** ** What a computation leaves unchanged *)

Section Frames.

Context {T : Type} (f : World -> T).

Lemma keeps_ret {A} (a : A) : keeps f (ret a).
Proof. intros w. reflexivity. Qed.

Lemma keeps_throw {A} (e : exn) : keeps f (@throw A e).
Proof. intros w. reflexivity. Qed.

Lemma keeps_emit (e : effect) : keeps f (emit e).
Proof. intros w. reflexivity. Qed.

Lemma keeps_get : keeps f get.
Proof. intros w. reflexivity. Qed.

Lemma keeps_lift {A} (o : outcome A) : keeps f (lift o).
Proof. intros w. reflexivity. Qed.

Lemma keeps_modify (g : World -> World) :
  (forall w, f (g w) = f w) -> keeps f (modify g).
Proof. intros H w. apply H. Qed.

Lemma keeps_bind {A B} (c : Js A) (k : A -> Js B) :
  keeps f c -> (forall a, keeps f (k a)) -> keeps f (bind c k).
Proof.
  intros Hc Hk w. specialize (Hc w). unfold bind, world_after in *.
  destruct (c w) as [[[a|e] w1] t1]; cbn in *; [|exact Hc].
  specialize (Hk a w1). unfold world_after in Hk.
  destruct (k a w1) as [[r w2] t2]. cbn in *. congruence.
Qed.

Lemma keeps_try_catch {A} (c : Js A) (h : exn -> Js A) :
  keeps f c -> (forall e, keeps f (h e)) -> keeps f (try_catch c h).
Proof.
  intros Hc Hh w. specialize (Hc w). unfold try_catch, world_after in *.
  destruct (c w) as [[[a|e] w1] t1]; cbn in *; [exact Hc|].
  specialize (Hh e w1). unfold world_after in Hh.
  destruct (h e w1) as [[r w2] t2]. cbn in *. congruence.
Qed.

Lemma keeps_try_finally {A} (c : Js A) (fin : Js unit) :
  keeps f c -> keeps f fin -> keeps f (try_finally c fin).
Proof.
  intros Hc Hf w. specialize (Hc w). unfold try_finally, world_after in *.
  destruct (c w) as [[r w1] t1]; cbn in *.
  specialize (Hf w1). unfold world_after in Hf.
  destruct (fin w1) as [[[a|e] w2] t2]; cbn in *; congruence.
Qed.

Lemma keeps_when (b : bool) (c : Js unit) :
  keeps f c -> keeps f (when b c).
Proof. intros H. destruct b; [exact H | apply keeps_ret]. Qed.

End Frames.

(** Breaks a computation of the controller down to its primitive steps. *)
Ltac frame_step :=
  first
    [ apply keeps_ret | apply keeps_throw | apply keeps_emit | apply keeps_get
    | apply keeps_lift
    | apply keeps_bind; [|intros ?]
    | apply keeps_try_catch; [|intros ?]
    | apply keeps_try_finally
    | apply keeps_when
    | apply keeps_modify; intros ?; reflexivity
    | match goal with
      | |- keeps _ (match ?x with _ => _ end) => destruct x
      | |- keeps _ (if ?b then _ else _) => destruct b
      end ].

Ltac frame := repeat frame_step.

(** ** The fields only the constructor writes *)

Lemma stop_tracks_keeps {T} (f : World -> T) sid ts :
  (forall w l, f (set_liveTracks l w) = f w) ->
  keeps f (stop_tracks sid ts).
Proof.
  intros H. induction ts as [|t ts IH]; cbn [stop_tracks].
  - apply keeps_ret.
  - apply keeps_bind; [|intros ?; exact IH].
    unfold stop_track. apply keeps_bind; [|intros ?; apply keeps_emit].
    apply keeps_modify. intros w. apply H.
Qed.

Lemma handle_keeps_fixed_fields (E : Engine) (e : event) :
  keeps fixed_fields (handle E e).
Proof.
  destruct e; cbn [handle].
  - frame.
  - unfold setupCanvas. frame.
  - unfold detectApiUrl_settled, response_json, showApiStatus,
      createApiStatusElement. frame.
  - unfold handleConsentAccept_request, initCamera_request. frame;
      try (apply stop_tracks_keeps; reflexivity).
  - unfold switchCamera_request, initCamera_request. frame;
      try (apply stop_tracks_keeps; reflexivity).
  - unfold initCamera_settled, alert. frame.
  - unfold capturePhoto, set_captureBtn_disabled, showLoading, alert. frame.
  - unfold analyzePhoto, upload, upload_catch, upload_finally,
      showAnalysisResults, showPreview, response_json,
      createAnalysisContainer, createObjectURL, revokeObjectURL,
      set_captureBtn_disabled, showLoading, alert. frame.
  - unfold click, onclick, _hideAnalysisContainer, _downloadImage, saveAnalysisData,
      formatDetail, createObjectURL, revokeObjectURL, alert. frame.
Qed.

Lemma run_keeps_fixed_fields (E : Engine) (evs : list event) (w : World) :
  fixed_fields (fst (run E evs w)) = fixed_fields w.
Proof.
  revert w. induction evs as [|e evs IH]; intros w; [reflexivity|].
  cbn [run]. unfold step.
  pose proof (handle_keeps_fixed_fields E e w) as H.
  specialize (IH (world_after (handle E e w))).
  destruct (run E evs (world_after (handle E e w))) as [w2 t2].
  cbn in *. congruence.
Qed.

Lemma boot_fixed_fields doc currentUrl supported v w0 :
  boot doc currentUrl supported v = Some w0 ->
  ellipseWidth (app w0) = 307%Z /\ ellipseHeight (app w0) = 407%Z /\
  dom_video (dom (app w0)) = true /\ dom_canvas (dom (app w0)) = true /\
  dom (app w0) = lookup_dom doc.
Proof.
  unfold boot, constructor. cbn.
  destruct (has "video" doc) eqn:Hv; cbn; [|discriminate].
  destruct (has "canvas" doc) eqn:Hc; cbn; [|discriminate].
  intros H. injection H as <-. cbn. auto.
Qed.

Lemma reachable_ellipse (E : Engine) (w : World) :
  reachable E w ->
  ellipseWidth (app w) = 307%Z /\ ellipseHeight (app w) = 407%Z.
Proof.
  intros (doc & cu & sup & v & evs & w0 & Hb & ->).
  pose proof (run_keeps_fixed_fields E evs w0) as H.
  apply boot_fixed_fields in Hb. destruct Hb as (Hw & Hh & _).
  unfold fixed_fields in H. injection H as _ H1 H2. split; congruence.
Qed.

Lemma fresh_is_booted :
  boot Samples.document Samples.page_origin true Samples.camera
  = Some Samples.fresh.
Proof. reflexivity. Qed.

Lemma fresh_reachable (E : Engine) : reachable E Samples.fresh.
Proof.
  exists Samples.document, Samples.page_origin, true, Samples.camera, [],
    Samples.fresh.
  split; reflexivity.
Qed.

(** ** Construction *)

(** On a document with both required elements the constructor does
    initialise: the health check is sent, and the listeners of the elements
    that exist are attached. *)
Lemma constructor_initialises (doc : list string) (currentUrl : string)
    (supported : bool) :
  has "video" doc = true -> has "canvas" doc = true ->
  exists a,
    constructor doc currentUrl supported
    = (Some a, initEventListeners doc (lookup_dom doc)
               ++ registerServiceWorker supported
               ++ [Fetch "GET" (currentUrl +++ "/api/health") None])
    /\ ellipseWidth a = 307%Z /\ ellipseHeight a = 407%Z.
Proof.
  intros Hv Hc. unfold constructor. cbn. rewrite Hv, Hc. cbn.
  eexists. split; [reflexivity|]. split; reflexivity.
Qed.

(** C10.  When the element [video] or the element [canvas] is absent, the
    constructor returns right after reporting it on the console: its only
    effect is that message, so no listener is attached, no service worker is
    registered by the controller and no health check is sent; no controller
    is left for a later event to run on. *)
Theorem constructor_without_required_elements (doc : list string)
    (currentUrl : string) (supported : bool) (v : Video) :
  has "video" doc = false \/ has "canvas" doc = false ->
  constructor doc currentUrl supported
  = (None, [ConsoleError "Elementos DOM 'video' e 'canvas' são obrigatórios."])
  /\ existsb initialises (snd (constructor doc currentUrl supported)) = false
  /\ boot doc currentUrl supported v = None.
Proof.
  intros H. unfold boot, constructor. cbn.
  destruct H as [H | H]; rewrite H; cbn;
    try (destruct (has "video" doc); cbn); repeat split.
Qed.

Lemma constructor_without_required_elements_witness :
  constructor ["canvas"; "captureBtn"; "acceptConsent"] Samples.page_origin true
  = (None, [ConsoleError "Elementos DOM 'video' e 'canvas' são obrigatórios."])
  /\ existsb initialises
       (snd (constructor ["canvas"; "captureBtn"; "acceptConsent"]
               Samples.page_origin true)) = false
  /\ boot ["canvas"; "captureBtn"; "acceptConsent"] Samples.page_origin true
       Samples.camera = None.
Proof.
  apply (constructor_without_required_elements
           ["canvas"; "captureBtn"; "acceptConsent"] Samples.page_origin true
           Samples.camera).
  left. reflexivity.
Defined.

(** ** Capture *)

(** C3.  When the video reports no width or no height (zero, or
    undefined), [capturePhoto] shows the camera-not-ready notice and
    returns: that alert is its only effect and the world is as before, so
    nothing is computed or drawn, the canvas keeps its size, and no blob is
    made that an upload could send. *)
Theorem capture_before_video_is_ready (E : Engine) (w : World) :
  videoWidth (video w) = None \/ videoWidth (video w) = Some 0%N \/
  videoHeight (video w) = None \/ videoHeight (video w) = Some 0%N ->
  capturePhoto E w
  = (Return tt, w, [Alert "Câmera não está pronta. Aguarde um momento."]).
Proof.
  intros H. unfold capturePhoto, bind, get, alert, emit. cbn.
  destruct H as [H | [H | [H | H]]]; rewrite H; cbn;
    try reflexivity;
    destruct (truthy_dim (videoWidth (video w))); reflexivity.
Qed.

Lemma capture_before_video_is_ready_witness :
  capturePhoto Samples.engine (set_video Samples.camera_not_ready Samples.fresh)
  = (Return tt, set_video Samples.camera_not_ready Samples.fresh,
     [Alert "Câmera não está pronta. Aguarde um momento."]).
Proof.
  apply (capture_before_video_is_ready Samples.engine
           (set_video Samples.camera_not_ready Samples.fresh)).
  right. left. reflexivity.
Defined.

(** C2.  In every world the page can be in, a capture started by the
    capture button that passes the readiness check sets the canvas to
    307 x 407 before anything is drawn, whatever the size of the video and
    of its box: after disabling the button and showing the loading text, its
    effects are exactly the canvas calls of [canvas_calls], which start with
    the two size assignments and clip with the ellipse of centre
    (307/2, 407/2) and radii 307/2 and 407/2; the canvas is left at that
    size. *)
Theorem capture_sets_output_canvas (E : Engine) (w : World) :
  reachable E w ->
  dom_captureBtn (dom (app w)) = true ->
  truthy_dim (videoWidth (video w)) = true ->
  truthy_dim (videoHeight (video w)) = true ->
  trace_of (capturePhoto E w)
  = SetDisabled "captureBtn" true
    :: loading_effects w true "Capturando e recortando foto..."
    ++ canvas_calls (capture_source w)
  /\ canvasWidth (page (world_after (capturePhoto E w))) = 307%Z
  /\ canvasHeight (page (world_after (capturePhoto E w))) = 407%Z
  /\ outcome_of (capturePhoto E w) = Return tt.
Proof.
  intros Hr Hbtn Hw Hh.
  apply reachable_ellipse in Hr. destruct Hr as [Ew Eh].
  destruct w as [o sw v p n l [[dv dc ds dm dl db] cs fm api ew eh]].
  cbn in Ew, Eh, Hbtn, Hw, Hh. subst ew eh db.
  unfold capturePhoto, try_catch, bind, get, trace_of, world_after,
    outcome_of.
  cbn. rewrite Hw, Hh. cbn.
  destruct dl; cbn; repeat split.
Qed.

Lemma capture_sets_output_canvas_witness :
  trace_of (capturePhoto Samples.engine Samples.fresh)
  = SetDisabled "captureBtn" true
    :: loading_effects Samples.fresh true "Capturando e recortando foto..."
    ++ canvas_calls (capture_source Samples.fresh)
  /\ canvasWidth (page (world_after (capturePhoto Samples.engine Samples.fresh))) = 307%Z
  /\ canvasHeight (page (world_after (capturePhoto Samples.engine Samples.fresh))) = 407%Z
  /\ outcome_of (capturePhoto Samples.engine Samples.fresh) = Return tt.
Proof.
  apply (capture_sets_output_canvas Samples.engine Samples.fresh).
  - exact (fresh_reachable Samples.engine).
  - reflexivity.
  - reflexivity.
  - reflexivity.
Defined.

(** ** What a computation emits *)

Section Emissions.

Context (P : effect -> Prop).

Lemma emits_ret {A} (a : A) : emits_only P (ret a).
Proof. intros w. constructor. Qed.

Lemma emits_throw {A} (e : exn) : emits_only P (@throw A e).
Proof. intros w. constructor. Qed.

Lemma emits_get : emits_only P get.
Proof. intros w. constructor. Qed.

Lemma emits_lift {A} (o : outcome A) : emits_only P (lift o).
Proof. intros w. constructor. Qed.

Lemma emits_modify (g : World -> World) : emits_only P (modify g).
Proof. intros w. constructor. Qed.

Lemma emits_emit (e : effect) : P e -> emits_only P (emit e).
Proof. intros H w. repeat constructor. exact H. Qed.

Lemma emits_bind {A B} (c : Js A) (k : A -> Js B) :
  emits_only P c -> (forall a, emits_only P (k a)) -> emits_only P (bind c k).
Proof.
  intros Hc Hk w. specialize (Hc w). unfold bind, trace_of in *.
  destruct (c w) as [[[a|e] w1] t1]; cbn in *; [|exact Hc].
  specialize (Hk a w1). unfold trace_of in Hk.
  destruct (k a w1) as [[r w2] t2]. cbn in *.
  apply Forall_app. split; assumption.
Qed.

Lemma emits_try_catch {A} (c : Js A) (h : exn -> Js A) :
  emits_only P c -> (forall e, emits_only P (h e)) ->
  emits_only P (try_catch c h).
Proof.
  intros Hc Hh w. specialize (Hc w). unfold try_catch, trace_of in *.
  destruct (c w) as [[[a|e] w1] t1]; cbn in *; [exact Hc|].
  specialize (Hh e w1). unfold trace_of in Hh.
  destruct (h e w1) as [[r w2] t2]. cbn in *.
  apply Forall_app. split; assumption.
Qed.

Lemma emits_try_finally {A} (c : Js A) (fin : Js unit) :
  emits_only P c -> emits_only P fin -> emits_only P (try_finally c fin).
Proof.
  intros Hc Hf w. specialize (Hc w). unfold try_finally, trace_of in *.
  destruct (c w) as [[r w1] t1]; cbn in *.
  specialize (Hf w1). unfold trace_of in Hf.
  destruct (fin w1) as [[[a|e] w2] t2]; cbn in *;
    apply Forall_app; split; assumption.
Qed.

Lemma emits_when (b : bool) (c : Js unit) :
  emits_only P c -> emits_only P (when b c).
Proof. intros H. destruct b; [exact H | apply emits_ret]. Qed.

Lemma emits_stop_tracks sid ts :
  (forall t, P (TrackStop sid t)) -> emits_only P (stop_tracks sid ts).
Proof.
  intros H. induction ts as [|t ts IH]; cbn [stop_tracks].
  - apply emits_ret.
  - apply emits_bind; [|intros ?; exact IH].
    unfold stop_track. apply emits_bind; [apply emits_modify|].
    intros ?. apply emits_emit. apply H.
Qed.

End Emissions.

(** Breaks a computation down to the effects it emits; the goals left are
    those of the effects themselves. *)
Ltac emission_step :=
  first
    [ apply emits_ret | apply emits_throw | apply emits_get | apply emits_lift
    | apply emits_modify
    | apply emits_bind; [|intros ?]
    | apply emits_try_catch; [|intros ?]
    | apply emits_try_finally
    | apply emits_when
    | apply emits_stop_tracks; intros ?
    | apply emits_emit
    | match goal with
      | |- emits_only _ (match ?x with _ => _ end) => destruct x
      | |- emits_only _ (if ?b then _ else _) => destruct b
      end ].

Ltac emissions := repeat emission_step.

Ltac unfold_methods :=
  unfold handle, click, onclick, analyzePhoto, upload, upload_catch, upload_finally,
    capturePhoto, detectApiUrl_settled,
    handleConsentAccept_request, switchCamera_request, initCamera_request,
    initCamera_settled, setupCanvas, showAnalysisResults, saveAnalysisData,
    _hideAnalysisContainer, _downloadImage, showPreview,
    createAnalysisContainer, formatDetail, showApiStatus,
    createApiStatusElement, response_json, createObjectURL, revokeObjectURL,
    set_captureBtn_disabled, showLoading, alert.

(** ** File downloads *)

(** Only a click on a button of a view offers a file. *)
Lemma no_download_outside_clicks (E : Engine) (e : event) :
  (forall btn now, e <> EvClick btn now) ->
  emits_only (fun x => is_download x = false) (handle E e).
Proof.
  intros H. destruct e; try (exfalso; eapply H; reflexivity);
    unfold_methods; emissions; reflexivity.
Qed.

Lemma click_download_name (E : Engine) (btn : button) (now : N) :
  emits_only
    (fun x => forall href name, x = Download href name ->
                                file_name btn now = Some name)
    (click E btn now).
Proof.
  destruct btn; unfold_methods; emissions;
    intros href name Hx; try discriminate Hx;
    injection Hx as _ <-; reflexivity.
Qed.

(** C9, as the code has it.  Whatever event the page handles, a file it
    offers for download comes from a click on a button of a view, at some
    time [now] ([Date.now()]), and is named by the button:
    [analise-facial-<now>.png] for the download button of the full result
    view, [analise-facial-<now>.txt] for its text report, and
    [face-capture-<now>.png] for the download button of the minimal
    preview. *)
Theorem download_file_names (E : Engine) (e : event) (w : World)
    (href : url) (name : string) :
  In (Download href name) (snd (step E e w)) ->
  exists btn now,
    e = EvClick btn now /\
    ((btn = DownloadResults
      /\ name = "analise-facial-" +++ decimal now +++ ".png")
     \/ (btn = SaveResults
         /\ name = "analise-facial-" +++ decimal now +++ ".txt")
     \/ (btn = DownloadBtn
         /\ name = "face-capture-" +++ decimal now +++ ".png")).
Proof.
  intros Hin. cbn [step snd] in Hin.
  destruct e as [v| |r| | |r| |b net|btn now];
    try (exfalso;
         match goal with
         | H : In _ (trace_of (handle E ?ev w)) |- _ =>
             assert (Hq : emits_only (fun x => is_download x = false)
                                     (handle E ev))
               by (apply no_download_outside_clicks; intros ? ?; discriminate);
             specialize (Hq w); rewrite Forall_forall in Hq;
             apply Hq in H; discriminate H
         end).
  exists btn, now. split; [reflexivity|].
  pose proof (click_download_name E btn now w) as Hq.
  rewrite Forall_forall in Hq. specialize (Hq _ Hin href name eq_refl).
  destruct btn; cbn in Hq; try discriminate Hq; injection Hq as <-; auto.
Qed.

Lemma download_file_names_witness :
  exists btn now,
    EvClick DownloadBtn 1700000000000 = EvClick btn now /\
    ((btn = DownloadResults
      /\ "face-capture-1700000000000.png"
         = "analise-facial-" +++ decimal now +++ ".png")
     \/ (btn = SaveResults
         /\ "face-capture-1700000000000.png"
            = "analise-facial-" +++ decimal now +++ ".txt")
     \/ (btn = DownloadBtn
         /\ "face-capture-1700000000000.png"
            = "face-capture-" +++ decimal now +++ ".png")).
Proof.
  apply (download_file_names Samples.engine
           (EvClick DownloadBtn 1700000000000) Samples.preview_shown 0).
  vm_compute. left. reflexivity.
Defined.

(** The three buttons do offer their file while their view is displayed. *)
Example full_view_image_download :
  trace_of (click Samples.engine DownloadResults 1700000000000
              Samples.results_shown)
  = [Download 0 "analise-facial-1700000000000.png"].
Proof. reflexivity. Qed.

Example full_view_report_download :
  trace_of (click Samples.engine SaveResults 1700000000000
              Samples.results_shown)
  = [CreateObjectURL 1; Download 1 "analise-facial-1700000000000.txt";
     RevokeObjectURL 1; Alert "Análise salva com sucesso como arquivo TXT!"].
Proof. reflexivity. Qed.

Example preview_image_download :
  trace_of (click Samples.engine DownloadBtn 1700000000000
              Samples.preview_shown)
  = [Download 0 "face-capture-1700000000000.png"].
Proof. reflexivity. Qed.

(** C9, as stated, fails: the download button of the minimal preview names
    its file [face-capture-<now>.png], which is neither of the two names of
    the specification. *)
Lemma preview_download_is_not_named_analise_facial :
  ~ (forall (E : Engine) (w : World) (btn : button) (now : N)
            (href : url) (name : string),
        In (Download href name) (trace_of (click E btn now w)) ->
        In name (spec_download_names now)).
Proof.
  intros H.
  specialize (H Samples.engine Samples.preview_shown DownloadBtn
                1700000000000%N 0 "face-capture-1700000000000.png").
  assert (Hin : In (Download 0 "face-capture-1700000000000.png")
                   (trace_of (click Samples.engine DownloadBtn 1700000000000
                                Samples.preview_shown)))
    by (left; reflexivity).
  apply H in Hin. vm_compute in Hin.
  destruct Hin as [Hn | [Hn | []]]; discriminate Hn.
Qed.

(** ** How the combinators run *)

Lemma bind_unfold {A B} (c : Js A) (k : A -> Js B) (w : World) :
  bind c k w
  = match outcome_of (c w) with
    | Return a =>
        let r := k a (world_after (c w)) in
        (outcome_of r, world_after r, trace_of (c w) ++ trace_of r)
    | Throw e => (Throw e, world_after (c w), trace_of (c w))
    end.
Proof.
  unfold bind, outcome_of, world_after, trace_of.
  destruct (c w) as [[[a|e] w1] t1]; cbn; [|reflexivity].
  destruct (k a w1) as [[r w2] t2]. reflexivity.
Qed.

Lemma try_catch_unfold {A} (c : Js A) (h : exn -> Js A) (w : World) :
  try_catch c h w
  = match outcome_of (c w) with
    | Return a => (Return a, world_after (c w), trace_of (c w))
    | Throw e =>
        let r := h e (world_after (c w)) in
        (outcome_of r, world_after r, trace_of (c w) ++ trace_of r)
    end.
Proof.
  unfold try_catch, outcome_of, world_after, trace_of.
  destruct (c w) as [[[a|e] w1] t1]; cbn; [reflexivity|].
  destruct (h e w1) as [[r w2] t2]. reflexivity.
Qed.

Lemma try_finally_unfold {A} (c : Js A) (fin : Js unit) (w : World) :
  try_finally c fin w
  = let r := fin (world_after (c w)) in
    (match outcome_of r with
     | Return _ => outcome_of (c w)
     | Throw e => Throw e
     end,
     world_after r, trace_of (c w) ++ trace_of r).
Proof.
  unfold try_finally, outcome_of, world_after, trace_of.
  destruct (c w) as [[r w1] t1]; cbn.
  destruct (fin w1) as [[[a|e] w2] t2]; reflexivity.
Qed.

(** ** Computations that end without an exception *)

Lemma returns_ret {A} (a : A) : returns (ret a).
Proof. intros w. exists a. reflexivity. Qed.

Lemma returns_emit (e : effect) : returns (emit e).
Proof. intros w. exists tt. reflexivity. Qed.

Lemma returns_get : returns get.
Proof. intros w. exists w. reflexivity. Qed.

Lemma returns_modify (g : World -> World) : returns (modify g).
Proof. intros w. exists tt. reflexivity. Qed.

Lemma returns_bind {A B} (c : Js A) (k : A -> Js B) :
  returns c -> (forall a, returns (k a)) -> returns (bind c k).
Proof.
  intros Hc Hk w. rewrite bind_unfold. destruct (Hc w) as [a ->].
  destruct (Hk a (world_after (c w))) as [x Hx]. exists x. exact Hx.
Qed.

Lemma returns_try_catch {A} (c : Js A) (h : exn -> Js A) :
  (forall e, returns (h e)) -> returns (try_catch c h).
Proof.
  intros Hh w. rewrite try_catch_unfold.
  destruct (outcome_of (c w)) as [a|e]; [exists a; reflexivity|].
  destruct (Hh e (world_after (c w))) as [x Hx]. exists x. exact Hx.
Qed.

Lemma returns_when (b : bool) (c : Js unit) : returns c -> returns (when b c).
Proof. intros H. destruct b; [exact H | apply returns_ret]. Qed.

Ltac returning_step :=
  first
    [ apply returns_ret | apply returns_emit | apply returns_get
    | apply returns_modify
    | apply returns_try_catch; intros ?
    | apply returns_bind; [|intros ?]
    | apply returns_when
    | match goal with
      | |- returns (match ?x with _ => _ end) => destruct x
      | |- returns (if ?b then _ else _) => destruct b
      end ].

Ltac returning := repeat returning_step.

Lemma showPreview_returns (E : Engine) (b : blob) : returns (showPreview E b).
Proof. unfold_methods. returning. Qed.

Lemma showAnalysisResults_returns (E : Engine) (b : blob) (data : json) :
  returns (showAnalysisResults E b data).
Proof.
  unfold showAnalysisResults. apply returns_bind.
  - unfold_methods. returning.
  - intros u. apply returns_try_catch. intros e.
    apply returns_bind; [apply returns_emit|]. intros _.
    apply returns_bind; [apply returns_emit|]. intros _.
    apply showPreview_returns.
Qed.

(** ** Upload *)

Lemma showPreview_keeps_fixed_fields (E : Engine) (b : blob) :
  keeps fixed_fields (showPreview E b).
Proof. unfold_methods. frame. Qed.

Lemma showAnalysisResults_keeps_fixed_fields (E : Engine) (b : blob)
    (data : json) :
  keeps fixed_fields (showAnalysisResults E b data).
Proof. unfold_methods. frame. Qed.

Lemma prefix_append (s m : string) : prefix s (s +++ m) = true.
Proof.
  induction s as [|c s IH]; cbn.
  - destruct m; reflexivity.
  - destruct (Ascii.ascii_dec c c) as [_|Hn]; [exact IH | congruence].
Qed.

(** The views show no notice of a failed upload, and send nothing. *)
Lemma showPreview_emits (E : Engine) (b : blob) :
  emits_only (fun x => failure_notice x = false /\ is_fetch x = false
                       /\ is_render x = false)
             (showPreview E b).
Proof. unfold_methods. emissions; repeat split. Qed.

Lemma showAnalysisResults_emits (E : Engine) (b : blob) (data : json) :
  emits_only (fun x => failure_notice x = false /\ is_fetch x = false)
             (showAnalysisResults E b data).
Proof. unfold_methods. emissions; repeat split. Qed.

Lemma loading_effects_quiet (w : World) (show : bool) (msg : string) :
  Forall (fun x => failure_notice x = false /\ is_fetch x = false
                   /\ is_render x = false)
         (loading_effects w show msg).
Proof.
  unfold loading_effects.
  destruct (dom_loading (dom (app w))); [destruct show|];
    repeat constructor.
Qed.

Lemma filter_none {A} (p : A -> bool) (l : list A) :
  Forall (fun x => p x = false) l -> filter p l = [].
Proof.
  induction 1 as [|x l Hx _ IH]; cbn; [reflexivity|]. rewrite Hx. exact IH.
Qed.

Lemma existsb_none {A} (p : A -> bool) (l : list A) :
  Forall (fun x => p x = false) l -> existsb p l = false.
Proof.
  induction 1 as [|x l Hx _ IH]; cbn; [reflexivity|]. rewrite Hx. exact IH.
Qed.

Lemma showLoading_runs (show : bool) (msg : string) (w : World) :
  showLoading show msg w = (Return tt, w, loading_effects w show msg).
Proof.
  unfold showLoading, loading_effects, bind, get. cbn.
  destruct (dom_loading (dom (app w))); [destruct show|]; reflexivity.
Qed.

Lemma set_captureBtn_disabled_runs (E : Engine) (v : bool) (w : World) :
  dom_captureBtn (dom (app w)) = true ->
  set_captureBtn_disabled E v w
  = (Return tt, on_page (set_captureDisabled v) w,
     [SetDisabled "captureBtn" v]).
Proof.
  intros H. unfold set_captureBtn_disabled, bind, get. cbn. rewrite H.
  reflexivity.
Qed.

Lemma upload_finally_runs (E : Engine) (w : World) :
  dom_captureBtn (dom (app w)) = true ->
  upload_finally E w
  = (Return tt, on_page (set_captureDisabled false) w,
     loading_effects w false "Processando..."
     ++ [SetDisabled "captureBtn" false]).
Proof.
  intros H. unfold upload_finally. rewrite bind_unfold, showLoading_runs.
  cbn [outcome_of world_after trace_of fst snd].
  rewrite (set_captureBtn_disabled_runs E false w H). reflexivity.
Qed.

(** The body of the [try]: either it throws the error of [upload_outcome]
    right after the request, or it goes on to the result view. *)
Lemma upload_runs (E : Engine) (api : string) (b : blob) (net : FetchResult)
    (w : World) :
  upload E api b net w
  = match upload_outcome E net with
    | inl err =>
        (Throw err, w,
         [Fetch "POST" (api +++ "/upload") (Some (b, "face-capture.png"))])
    | inr result =>
        let r := showAnalysisResults E b result w in
        (outcome_of r, world_after r,
         Fetch "POST" (api +++ "/upload") (Some (b, "face-capture.png"))
         :: trace_of r)
    end.
Proof.
  unfold upload, upload_outcome. rewrite bind_unfold.
  cbn [emit outcome_of world_after trace_of fst snd].
  destruct net as [msg|r]; [reflexivity|].
  destruct (ok r); cbn [negb].
  2:{ rewrite bind_unfold.
      destruct (errorDetails E (body r)) as [details|e]; reflexivity. }
  unfold response_json.
  destruct (JSON_parse E (body r)) as [msg|v]; [reflexivity|].
  rewrite bind_unfold. cbn [ret outcome_of world_after trace_of fst snd].
  rewrite bind_unfold.
  destruct v as [|x|q|s|items|fields];
    cbn [get_prop lift outcome_of world_after trace_of fst snd];
    try reflexivity.
  destruct (assoc "erro" fields) as [x|]; [|reflexivity].
  destruct (truthy (Some x)); [|reflexivity].
  rewrite bind_unfold. destruct (to_string E x) as [msg|e]; reflexivity.
Qed.

(** The trace of an upload that is sent. *)
Lemma analyzePhoto_trace (E : Engine) (w : World) (b : blob)
    (net : FetchResult) (api : string) :
  dom_captureBtn (dom (app w)) = true ->
  apiUrl (app w) = Some api ->
  trace_of (analyzePhoto E b net w)
  = loading_effects w true "Analisando foto na API..."
    ++ Fetch "POST" (api +++ "/upload") (Some (b, "face-capture.png"))
    :: match upload_outcome E net with
       | inl err =>
           [ ConsoleError ("Erro de análise: " +++ error_toString err);
             Alert ("Erro na análise: " +++ message err) ]
           ++ trace_of (showPreview E b w)
       | inr result => trace_of (showAnalysisResults E b result w)
       end
    ++ loading_effects w false "Processando..."
    ++ [SetDisabled "captureBtn" false].
Proof.
  intros Hbtn Hapi.
  assert (Hfin : forall w2, fixed_fields w2 = fixed_fields w ->
            trace_of (upload_finally E w2)
            = loading_effects w false "Processando..."
              ++ [SetDisabled "captureBtn" false]).
  { intros w2 Hw2. unfold fixed_fields in Hw2. injection Hw2 as Hd _ _.
    rewrite upload_finally_runs by (rewrite Hd; exact Hbtn).
    unfold loading_effects. rewrite Hd. reflexivity. }
  unfold analyzePhoto. rewrite bind_unfold.
  cbn [get outcome_of world_after trace_of fst snd]. rewrite Hapi.
  cbv zeta. rewrite bind_unfold, showLoading_runs.
  cbn [outcome_of world_after trace_of fst snd].
  rewrite try_finally_unfold, try_catch_unfold, upload_runs.
  destruct (upload_outcome E net) as [err|result].
  - cbn [outcome_of world_after trace_of fst snd]. unfold upload_catch.
    rewrite !bind_unfold.
    cbn [emit alert outcome_of world_after trace_of fst snd].
    rewrite Hfin by apply showPreview_keeps_fixed_fields.
    cbn [app]. rewrite <- ?app_assoc. reflexivity.
  - destruct (showAnalysisResults_returns E b result w) as [[] Hret].
    cbn [outcome_of world_after trace_of fst snd] in Hret |- *.
    rewrite Hret.
    cbn [outcome_of world_after trace_of fst snd].
    rewrite Hfin by apply showAnalysisResults_keeps_fixed_fields.
    reflexivity.
Qed.

Lemma analyzePhoto_without_endpoint (E : Engine) (w : World) (b : blob)
    (net : FetchResult) :
  dom_captureBtn (dom (app w)) = true ->
  apiUrl (app w) = None ->
  analyzePhoto E b net w
  = (Return tt, on_page (set_captureDisabled false) w,
     loading_effects w false "Processando..."
     ++ [ SetDisabled "captureBtn" false;
          Alert "API de análise não está disponível. Verifique a conexão." ]).
Proof.
  intros Hbtn Hapi. unfold analyzePhoto. rewrite bind_unfold.
  cbn [get outcome_of world_after trace_of fst snd]. rewrite Hapi.
  cbv zeta. rewrite bind_unfold, showLoading_runs.
  cbn [outcome_of world_after trace_of fst snd].
  rewrite bind_unfold, (set_captureBtn_disabled_runs E false w Hbtn).
  cbn [outcome_of world_after trace_of fst snd alert emit app].
  rewrite <- ?app_assoc. reflexivity.
Qed.

Lemma filter_fetch_loading (w : World) (show : bool) (msg : string) :
  filter is_fetch (loading_effects w show msg) = [].
Proof.
  apply filter_none. eapply Forall_impl; [|apply loading_effects_quiet].
  cbn. intros x H. apply H.
Qed.

Lemma notice_loading (w : World) (show : bool) (msg : string) :
  existsb failure_notice (loading_effects w show msg) = false.
Proof.
  apply existsb_none. eapply Forall_impl; [|apply loading_effects_quiet].
  cbn. intros x H. apply H.
Qed.

Lemma render_loading (w : World) (show : bool) (msg : string) :
  existsb is_render (loading_effects w show msg) = false.
Proof.
  apply existsb_none. eapply Forall_impl; [|apply loading_effects_quiet].
  cbn. intros x H. apply H.
Qed.

(** The world an upload that is sent leaves: the world of the view that
    was shown, with the capture button enabled. *)
Lemma analyzePhoto_world (E : Engine) (w : World) (b : blob)
    (net : FetchResult) (api : string) :
  dom_captureBtn (dom (app w)) = true ->
  apiUrl (app w) = Some api ->
  world_after (analyzePhoto E b net w)
  = on_page (set_captureDisabled false)
      (world_after
         match upload_outcome E net with
         | inl _ => showPreview E b w
         | inr result => showAnalysisResults E b result w
         end).
Proof.
  intros Hbtn Hapi.
  assert (Hfin : forall w2, fixed_fields w2 = fixed_fields w ->
            world_after (upload_finally E w2)
            = on_page (set_captureDisabled false) w2).
  { intros w2 Hw2. unfold fixed_fields in Hw2. injection Hw2 as Hd _ _.
    rewrite upload_finally_runs by (rewrite Hd; exact Hbtn). reflexivity. }
  unfold analyzePhoto. rewrite bind_unfold.
  cbn [get outcome_of world_after trace_of fst snd]. rewrite Hapi.
  cbv zeta. rewrite bind_unfold, showLoading_runs.
  cbn [outcome_of world_after trace_of fst snd].
  rewrite try_finally_unfold, try_catch_unfold, upload_runs.
  destruct (upload_outcome E net) as [err|result].
  - cbn [outcome_of world_after trace_of fst snd]. unfold upload_catch.
    rewrite !bind_unfold.
    cbn [emit alert outcome_of world_after trace_of fst snd].
    apply Hfin, showPreview_keeps_fixed_fields.
  - destruct (showAnalysisResults_returns E b result w) as [[] Hret].
    cbn [outcome_of world_after trace_of fst snd] in Hret |- *.
    rewrite Hret.
    cbn [outcome_of world_after trace_of fst snd].
    apply Hfin, showAnalysisResults_keeps_fixed_fields.
Qed.

(** On a page that has the container and the image of the preview,
    [showPreview] renders it. *)
Lemma showPreview_renders (E : Engine) (b : blob) (w : World) :
  getElementById "previewContainer" w = true ->
  getElementById "previewImage" w = true ->
  previewHidden (page (world_after (showPreview E b w))) = false
  /\ exists rest,
       trace_of (showPreview E b w)
       = [ CreateObjectURL (nextUrl w);
           SetImageSrc "previewImage" (nextUrl w);
           ClassRemove "previewContainer" "hidden" ] ++ rest.
Proof.
  intros Hc Hi.
  destruct w as [o sw v [i cw ch cd ah ab ph dl rt] n l a].
  unfold getElementById in *. cbn [page ids] in *.
  unfold showPreview, getElementById. rewrite bind_unfold.
  cbn [get outcome_of world_after trace_of fst snd page ids].
  rewrite Hc, Hi. cbn [negb orb].
  unfold createObjectURL, set_nextUrl, on_page, set_previewHidden,
    set_downloadBtn_onclick, set_retryBtn_onclick, try_catch, bind, get,
    modify, emit, ret, throw, alert, revokeObjectURL, outcome_of,
    world_after, trace_of.
  cbn -[String.eqb String.append error_toString type_error].
  destruct (existsb (String.eqb "downloadBtn") i);
    cbn -[String.eqb String.append error_toString type_error];
    [destruct (existsb (String.eqb "retryBtn") i);
     cbn -[String.eqb String.append error_toString type_error]|];
    (split; [reflexivity|eexists; reflexivity]).
Qed.

Lemma upload_fails_outcome (E : Engine) (net : FetchResult) :
  upload_fails E net = true <-> exists err, upload_outcome E net = inl err.
Proof.
  unfold upload_fails, upload_outcome.
  destruct net as [msg|r]; [split; eauto|].
  destruct (ok r); cbn [negb orb]; [|split; eauto].
  destruct (JSON_parse E (body r)) as [msg|[|x|q|s|items|fields]];
    try (split; [eauto | reflexivity]);
    try (split; [discriminate | intros [err H]; discriminate H]).
  destruct (assoc "erro" fields) as [x|].
  - destruct (truthy (Some x)).
    + split; [eauto | reflexivity].
    + split; [discriminate | intros [err H]; discriminate H].
  - split; [discriminate | intros [err H]; discriminate H].
Qed.


(** HTTP 500 with the body [{"erro":"face not found"}]: the notice carries
    "face not found", and the minimal preview is shown, not the full
    result view. *)
Example upload_face_not_found :
  trace_of (analyzePhoto Samples.engine 1
              (Resolved Samples.server_error) Samples.connected)
  = [ SetTextContent "loading" "Analisando foto na API...";
      ClassRemove "loading" "hidden";
      Fetch "POST" "https://app.example/upload" (Some (1, "face-capture.png"));
      ConsoleError
        "Erro de análise: Error: Falha na comunicação com a API (HTTP 500): face not found";
      Alert
        "Erro na análise: Falha na comunicação com a API (HTTP 500): face not found";
      CreateObjectURL 0;
      SetImageSrc "previewImage" 0;
      ClassRemove "previewContainer" "hidden";
      ClassAdd "loading" "hidden";
      SetDisabled "captureBtn" false ].
Proof. reflexivity. Qed.

(** HTTP 500 with the body [{"erro":{"toString":1}}]: the template of line
    330 cannot convert the detail, and the notice carries the message of
    that error. *)
Example upload_unconvertible_error :
  trace_of (analyzePhoto Samples.engine 1
              (Resolved Samples.odd_error) Samples.connected)
  = [ SetTextContent "loading" "Analisando foto na API...";
      ClassRemove "loading" "hidden";
      Fetch "POST" "https://app.example/upload" (Some (1, "face-capture.png"));
      ConsoleError
        "Erro de análise: TypeError: Cannot convert object to primitive value";
      Alert
        "Erro na análise: Cannot convert object to primitive value";
      CreateObjectURL 0;
      SetImageSrc "previewImage" 0;
      ClassRemove "previewContainer" "hidden";
      ClassAdd "loading" "hidden";
      SetDisabled "captureBtn" false ].
Proof. reflexivity. Qed.

(** HTTP 503 with the body [{ }]: the notice carries the document
    serialised again. *)
Example upload_unavailable :
  trace_of (analyzePhoto Samples.engine 1
              (Resolved Samples.unavailable) Samples.connected)
  = [ SetTextContent "loading" "Analisando foto na API...";
      ClassRemove "loading" "hidden";
      Fetch "POST" "https://app.example/upload" (Some (1, "face-capture.png"));
      ConsoleError
        "Erro de análise: Error: Falha na comunicação com a API (HTTP 503): {}";
      Alert
        "Erro na análise: Falha na comunicação com a API (HTTP 503): {}";
      CreateObjectURL 0;
      SetImageSrc "previewImage" 0;
      ClassRemove "previewContainer" "hidden";
      ClassAdd "loading" "hidden";
      SetDisabled "captureBtn" false ].
Proof. reflexivity. Qed.



(** ** Camera *)

Lemma stop_tracks_runs (sid : nat) (ts : list nat) (w : World) :
  stop_tracks sid ts w
  = (Return tt,
     set_liveTracks
       (filter (fun x => negb (existsb (same_track x)
                                 (map (fun t => (sid, t)) ts)))
               (liveTracks w)) w,
     map (TrackStop sid) ts).
Proof.
  revert w. induction ts as [|t ts IH]; intros w.
  - cbn. unfold ret. f_equal. f_equal.
    destruct w as [o sw v p n l a]. unfold set_liveTracks. cbn. f_equal.
    induction l as [|x l IHl]; cbn; congruence.
  - cbn [stop_tracks]. rewrite bind_unfold. unfold stop_track at 1.
    rewrite bind_unfold.
    cbn [modify emit outcome_of world_after trace_of fst snd].
    rewrite IH. cbn [outcome_of world_after trace_of fst snd app map].
    f_equal. f_equal.
    destruct w as [o sw v p n l a]. unfold set_liveTracks. cbn. f_equal.
    induction l as [|x l IHl]; cbn; [reflexivity|].
    destruct (same_track x (sid, t)); cbn; [exact IHl|].
    destruct (existsb (same_track x) (map (fun t0 => (sid, t0)) ts)); cbn;
      congruence.
Qed.

Lemma same_track_refl (x : nat * nat) : same_track x x = true.
Proof. unfold same_track. rewrite !Nat.eqb_refl. reflexivity. Qed.

Lemma filter_own_tracks (l : list (nat * nat)) :
  filter (fun x => negb (existsb (same_track x) l)) l = [].
Proof.
  apply filter_none. apply Forall_forall. intros x Hx.
  apply negb_false_iff. apply existsb_exists. exists x.
  split; [exact Hx | apply same_track_refl].
Qed.

(** In every switch, each track of the stream the controller holds is
    stopped and the reference is cleared before the new stream is
    requested, and the facing mode flips. *)
Lemma switchCamera_stops_before_request (w : World) :
  let r := switchCamera_request w in
  trace_of r
  = match currentStream (app w) with
    | Some s => map (TrackStop (stream_id s)) (tracks s)
    | None => []
    end
    ++ [GetUserMedia (flip (facingMode (app w))) 1280 720]
  /\ currentStream (app (world_after r)) = None
  /\ facingMode (app (world_after r)) = flip (facingMode (app w))
  /\ (holds_the_live_tracks w -> liveTracks (world_after r) = []).
Proof.
  unfold switchCamera_request, initCamera_request.
  rewrite bind_unfold. cbn [modify outcome_of world_after trace_of fst snd].
  rewrite bind_unfold. cbn [get outcome_of world_after trace_of fst snd].
  destruct w as [o sw v p n l [d cs fm api ew eh]].
  unfold holds_the_live_tracks, tracks_of. cbn.
  destruct cs as [s|].
  - rewrite bind_unfold, bind_unfold, stop_tracks_runs.
    cbn [outcome_of world_after trace_of fst snd modify].
    rewrite bind_unfold. cbn. rewrite app_nil_r.
    repeat split. intros ->. apply filter_own_tracks.
  - rewrite bind_unfold. cbn. repeat split. auto.
Qed.

(** When a switch is followed by the answer to its own request, the
    controller again holds all the live tracks: the streams do not
    overlap. *)
Lemma switch_then_answer_holds_the_live_tracks (w : World) (r : MediaResult) :
  holds_the_live_tracks w ->
  holds_the_live_tracks
    (world_after (initCamera_settled r (world_after (switchCamera_request w)))).
Proof.
  intros H.
  destruct (switchCamera_stops_before_request w) as (_ & Hcs & _ & Hl).
  specialize (Hl H).
  set (w1 := world_after (switchCamera_request w)) in *.
  destruct w1 as [o sw v p n l [d cs fm api ew eh]]. cbn in Hcs, Hl. subst.
  destruct r as [msg|s]; unfold holds_the_live_tracks; reflexivity.
Qed.

(** C5 at the failing input: the switch button is pressed twice while the
    first request is pending, and both requests are granted.  The stream of
    the first request is assigned and then overwritten without any of its
    tracks being stopped: two streams are live, and the controller holds
    only the second. *)
Theorem overlapping_switches_leave_two_live_streams :
  let r := run Samples.engine Samples.two_quick_switches Samples.streaming in
  snd r
  = [ TrackStop 0 0; GetUserMedia Environment 1280 720;
      GetUserMedia User 1280 720;
      SetSrcObject 1; SetSrcObject 2 ]
  /\ live_streams (fst r) = [1; 2]
  /\ currentStream (app (fst r)) = Some Samples.front_again
  /\ existsb (is_track_stop 1) (snd r) = false.
Proof. repeat split. Qed.

(** ** The accounting of object URLs on the machine *)

Lemma made_app (u : url) (t1 t2 : list url_effect) :
  made u (t1 ++ t2) = made u t1 + made u t2.
Proof. unfold made. rewrite filter_app, length_app. reflexivity. Qed.

Lemma dropped_app (u : url) (t1 t2 : list url_effect) :
  dropped u (t1 ++ t2) = dropped u t1 + dropped u t2.
Proof. unfold dropped. rewrite filter_app, length_app. reflexivity. Qed.

Lemma made_make (u v : url) (t : list url_effect) :
  made u (Make v :: t) = (if Nat.eqb u v then 1 else 0) + made u t.
Proof. unfold made. cbn. destruct (Nat.eqb u v); reflexivity. Qed.

Lemma made_drop (u v : url) (t : list url_effect) :
  made u (Drop v :: t) = made u t.
Proof. reflexivity. Qed.

Lemma dropped_drop (u v : url) (t : list url_effect) :
  dropped u (Drop v :: t) = (if Nat.eqb u v then 1 else 0) + dropped u t.
Proof. unfold dropped. cbn. destruct (Nat.eqb u v); reflexivity. Qed.

Lemma dropped_make (u v : url) (t : list url_effect) :
  dropped u (Make v :: t) = dropped u t.
Proof. reflexivity. Qed.

Lemma made_nil (u : url) : made u [] = 0.
Proof. reflexivity. Qed.

Lemma dropped_nil (u : url) : dropped u [] = 0.
Proof. reflexivity. Qed.

Ltac count_effects :=
  repeat first
    [ rewrite made_app | rewrite dropped_app | rewrite made_make
    | rewrite made_drop | rewrite dropped_drop | rewrite dropped_make
    | rewrite made_nil | rewrite dropped_nil ].

Ltac split_comparisons :=
  repeat match goal with
         | |- context [Nat.eqb ?a ?b] => destruct (Nat.eqb_spec a b)
         | |- context [Nat.ltb ?a ?b] => destruct (Nat.ltb_spec a b)
         | H : context [Nat.eqb ?a ?b] |- _ => destruct (Nat.eqb_spec a b)
         | H : context [Nat.ltb ?a ?b] |- _ => destruct (Nat.ltb_spec a b)
         end.

(** Uses the accounting of the state before a move at the URL [u]. *)
Ltac use_accounting u :=
  match goal with
  | Hm : forall u, made u ?t = _,
    Hd : forall u, dropped u ?t <= 1,
    Hn : forall u, _ <= u -> dropped u ?t = 0 |- _ =>
      pose proof (Hm u); pose proof (Hd u); pose proof (Hn u)
  end.

Ltac finish_count :=
  cbn [next aShown aOwner pShown pOwner pButtons] in *;
  split_comparisons; subst; try lia; try congruence; auto.

Lemma accounted_move (m : move) (s : Urls) (t : list url_effect) :
  accounted s t ->
  accounted (fst (make_move m s)) (t ++ snd (make_move m s)).
Proof.
  destruct s as [n ash ao psh po pb].
  intros (Hm & Hd & Hn & Ha & Hp & Hap).
  cbn [next aShown aOwner pShown pOwner pButtons] in *.
  assert (Hne : forall a p, ao = Some a -> po = Some p -> a <> p).
  { intros a p Ha' Hp' ->. apply (Hap p Ha'). exact Hp'. }
  destruct m as [|failed preview|preview| | |];
    try destruct failed; try destruct preview;
    try destruct pb; try destruct ao as [a|]; try destruct po as [p|];
    try destruct ash; try destruct psh;
    cbn; rewrite ?app_nil_r;
    (split; [|split; [|split; [|split; [|split]]]]);
    try assumption;
    try (pose proof (Ha _ eq_refl) as Ha0);
    try (pose proof (Hp _ eq_refl) as Hp0);
    try (pose proof (Hne _ _ eq_refl eq_refl) as Hne0);
    cbn [next aShown aOwner pShown pOwner pButtons] in *.
  all: try (intros u; use_accounting u; count_effects; finish_count; fail).
  all: try (intros u Hu; use_accounting u; count_effects;
            try discriminate Hu;
            try (injection Hu as Hu; subst u);
            finish_count; fail).
  all: try (intros u Hu Hq;
            try discriminate Hu; try discriminate Hq;
            try (injection Hu as Hu); try (injection Hq as Hq); subst;
            try lia; try congruence; fail).
Qed.

Ltac pick_holder :=
  first
    [ left; finish_count; fail
    | right; left; split; finish_count; fail
    | right; right; split; finish_count; fail ].

Lemma none_lost_move (m : move) (s : Urls) (t : list url_effect) :
  accounted s t ->
  none_lost s t ->
  match m with
  | Render _ _ | Preview _ => forall u, ~ held s u
  | _ => True
  end ->
  none_lost (fst (make_move m s)) (t ++ snd (make_move m s)).
Proof.
  destruct s as [n ash ao psh po pb].
  intros (Hm & Hd & Hn & Ha & Hp & Hap) Hl Hfree.
  unfold none_lost, held in *.
  cbn [next aShown aOwner pShown pOwner pButtons] in *.
  assert (Hne : forall a p, ao = Some a -> po = Some p -> a <> p).
  { intros a p Ha' Hp' ->. apply (Hap p Ha'). exact Hp'. }
  destruct m as [|failed preview|preview| | |];
    try destruct failed; try destruct preview;
    try destruct pb; try destruct ao as [a|]; try destruct po as [p|];
    try destruct ash; try destruct psh;
    cbn; rewrite ?app_nil_r;
    try assumption;
    try (pose proof (Ha _ eq_refl) as Ha0);
    try (pose proof (Hp _ eq_refl) as Hp0);
    try (pose proof (Hne _ _ eq_refl eq_refl) as Hne0);
    cbn [next aShown aOwner pShown pOwner pButtons] in *;
    intros u Hu; use_accounting u; count_effects;
    destruct (Nat.eq_dec u n) as [Hun|Hun];
    destruct (Nat.eq_dec u (S n)) as [Hus|Hus];
    (destruct (Nat.lt_ge_cases u n) as [Hlt|Hge];
     [ destruct (Hl u Hlt) as [Hdone | [[Hs Ho] | [Hs Ho]]];
       try discriminate Hs; try discriminate Ho;
       try (exfalso; apply (Hfree u); auto; fail);
       try (injection Ho as Ho)
     | ]);
    try lia;
    pick_holder.
Qed.


(** ** The controller follows the machine *)

Lemma url_effects_app (t1 t2 : list effect) :
  url_effects (t1 ++ t2) = url_effects t1 ++ url_effects t2.
Proof.
  induction t1 as [|e t1 IH]; [reflexivity|].
  destruct e; cbn; rewrite ?IH; reflexivity.
Qed.

Lemma url_effects_none (t : list effect) :
  Forall not_url t -> url_effects t = [].
Proof.
  induction 1 as [|e t He _ IH]; [reflexivity|].
  destruct e; cbn in *; try exact IH; destruct He.
Qed.

Lemma created_made (u : url) (t : list effect) :
  created u t = made u (url_effects t).
Proof.
  unfold created, made. induction t as [|e t IH]; [reflexivity|].
  destruct e; cbn; try exact IH. destruct (Nat.eqb u u0); cbn; congruence.
Qed.

Lemma revoked_dropped (u : url) (t : list effect) :
  revoked u t = dropped u (url_effects t).
Proof.
  unfold revoked, dropped. induction t as [|e t IH]; [reflexivity|].
  destruct e; cbn; try exact IH. destruct (Nat.eqb u u0); cbn; congruence.
Qed.

Lemma quiet_follows {A} (c : Js A) :
  keeps url_state c -> emits_only not_url c -> follows c (fun _ => Quiet).
Proof.
  intros Hk He w. cbn. split; [apply Hk | apply url_effects_none, He].
Qed.

Ltac quiet :=
  apply quiet_follows;
  [ unfold_methods; frame;
    try (apply stop_tracks_keeps; reflexivity)
  | unfold_methods; emissions; exact I ].

(** Evaluates the comparisons of two literal identifiers. *)
Ltac compare_ids :=
  repeat match goal with
         | |- context [String.eqb ?a ?b] =>
             let r := eval vm_compute in (String.eqb a b) in
             match r with
             | true => change (String.eqb a b) with true
             | false => change (String.eqb a b) with false
             end
         end.

Ltac run_on_ids := cbn -[String.eqb]; compare_ids; cbn -[String.eqb].

Ltac known_elements :=
  repeat match goal with
         | H : existsb (String.eqb _) _ = _ |- _ => progress rewrite H
         end.

(** Runs a computation by cases on the elements the document has. *)
Ltac by_elements i :=
  run_on_ids;
  repeat (match goal with
          | |- context [existsb (String.eqb ?s) i] =>
              let H := fresh "Hel" in
              destruct (existsb (String.eqb s) i) eqn:H
          end; run_on_ids; known_elements; run_on_ids).

Lemma showPreview_follows (E : Engine) (b : blob) :
  follows (showPreview E b) (fun w => Preview (previewable w)).
Proof.
  intros [o sw v [i cw ch cd ah ab ph dl rt] n l a].
  unfold showPreview, previewable, url_state, make_move, preview_move,
    getElementById, createObjectURL, revokeObjectURL, alert, try_catch, bind,
    get, modify, emit, throw, ret, world_after, trace_of.
  by_elements i; split; reflexivity.
Qed.

Lemma showAnalysisResults_follows (E : Engine) (b : blob) (data : json) :
  follows (showAnalysisResults E b data)
    (fun w => Render (negb (renders E data)) (previewable w)).
Proof.
  intros [o sw v [i cw ch cd ah ab ph dl rt] n l a].
  unfold showAnalysisResults, createAnalysisContainer, showPreview,
    previewable, url_state, make_move, preview_move, when, renders, lift,
    getElementById, createObjectURL, revokeObjectURL, alert, try_catch, bind,
    get, modify, emit, throw, ret, world_after, trace_of.
  destruct (render_conversions E data) as [[]|e]; by_elements i;
    split; reflexivity.
Qed.

Lemma saveAnalysisData_follows (E : Engine) (data : json) (now : N) :
  follows (saveAnalysisData E data now)
    (fun _ => if report_formats E data then Save else Quiet).
Proof.
  intros [o sw v p n l a].
  unfold saveAnalysisData, report_formats, url_state,
    createObjectURL, revokeObjectURL, alert, bind, lift, get, modify, emit,
    ret, world_after, trace_of.
  destruct (report E data) as [[]|e]; split; reflexivity.
Qed.

Lemma click_follows (E : Engine) (btn : button) (now : N) :
  follows (click E btn now) (move_of E (EvClick btn now)).
Proof.
  intros w.
  destruct btn; cbn [move_of]; unfold click, onclick, displayed;
    rewrite bind_unfold;
    cbn [get outcome_of world_after trace_of fst snd app];
    try (destruct w as [o sw v [i cw ch cd ah ab ph dl rt] n l a];
         unfold url_state, _hideAnalysisContainer, _downloadImage,
           revokeObjectURL, bind, get, modify, emit, ret, world_after,
           trace_of;
         cbn -[String.eqb];
         try destruct ab as [[u d]|]; try destruct ah;
         try destruct dl as [u'|]; try destruct rt as [u''|]; try destruct ph;
         cbn -[String.eqb]; split; reflexivity).
  destruct (analysisHidden (page w)) eqn:Hah; cbn [negb].
  - destruct (analysisButtons (page w)) as [[u data]|]; split; reflexivity.
  - rewrite bind_unfold.
    cbn [get outcome_of world_after trace_of fst snd app].
    destruct (analysisButtons (page w)) as [[u data]|] eqn:Hab;
      [|split; reflexivity].
    destruct (saveAnalysisData_follows E data now w) as [Hs Ht].
    split; assumption.
Qed.

Lemma upload_finally_quiet (E : Engine) :
  keeps url_state (upload_finally E) /\ emits_only not_url (upload_finally E).
Proof.
  split; unfold_methods; [frame | emissions; exact I].
Qed.

Lemma loading_effects_not_url (w : World) (show : bool) (msg : string) :
  url_effects (loading_effects w show msg) = [].
Proof.
  unfold loading_effects.
  destruct (dom_loading (dom (app w))); [destruct show|]; reflexivity.
Qed.

Lemma analyzePhoto_follows (E : Engine) (b : blob) (net : FetchResult) :
  follows (analyzePhoto E b net) (move_of E (EvBlob b net)).
Proof.
  intros w. unfold analyzePhoto. rewrite bind_unfold.
  cbn [get outcome_of world_after trace_of fst snd app move_of].
  destruct (apiUrl (app w)) as [api|] eqn:Hapi.
  - cbv zeta. rewrite bind_unfold, showLoading_runs.
    cbn [outcome_of world_after trace_of fst snd].
    rewrite try_finally_unfold, try_catch_unfold, upload_runs.
    destruct (upload_finally_quiet E) as [Hk He].
    destruct (upload_outcome E net) as [err|result];
      cbn [outcome_of world_after trace_of fst snd].
    + unfold upload_catch. rewrite !bind_unfold.
      cbn [emit alert outcome_of world_after trace_of fst snd].
      destruct (showPreview_follows E b w) as [Hs Ht].
      rewrite Hk. split; [exact Hs|].
      rewrite !url_effects_app, loading_effects_not_url.
      rewrite (url_effects_none _ (He _)), app_nil_r.
      cbn [url_effects app]. exact Ht.
    + destruct (showAnalysisResults_returns E b result w) as [[] Hret].
      rewrite Hret. cbn [outcome_of world_after trace_of fst snd].
      destruct (showAnalysisResults_follows E b result w) as [Hs Ht].
      rewrite Hk. split; [exact Hs|].
      rewrite !url_effects_app, loading_effects_not_url.
      rewrite (url_effects_none _ (He _)), app_nil_r.
      cbn [url_effects app]. exact Ht.
  - cbv zeta.
    assert (Hq : follows
                   (showLoading false "Processando...";;
                    set_captureBtn_disabled E false;;
                    alert "API de análise não está disponível. Verifique a conexão.")
                   (fun _ => Quiet)) by quiet.
    exact (Hq w).
Qed.

(** Every event of the page is a move of the machine. *)
Lemma step_follows_machine (E : Engine) (e : event) :
  follows (handle E e) (move_of E e).
Proof.
  destruct e as [v| |r| | |r| |b net|btn now].
  - quiet.
  - quiet.
  - quiet.
  - quiet.
  - quiet.
  - quiet.
  - quiet.
  - apply analyzePhoto_follows.
  - apply click_follows.
Qed.

(** ** Object URLs along a run of the page *)

Lemma owns_displayed_held (w : World) (u : url) :
  owns_displayed w u <-> held (url_state w) u.
Proof.
  unfold owns_displayed, analysis_owns, preview_owns, held, url_state. cbn.
  rewrite !negb_true_iff. split.
  - intros [[Hh [d Hb]] | [Hh Hr]]; [left | right]; split; auto.
    rewrite Hb. reflexivity.
  - intros [[Hh Hb] | [Hh Hr]]; [left | right]; split; auto.
    destruct (analysisButtons (page w)) as [[u' d]|]; [|discriminate].
    injection Hb as <-. exists d. reflexivity.
Qed.

Lemma step_accounted (E : Engine) (e : event) (w : World) (t : list effect) :
  accounted (url_state w) (url_effects t) ->
  accounted (url_state (fst (step E e w)))
            (url_effects (t ++ snd (step E e w))).
Proof.
  intros H. cbn [step fst snd].
  destruct (step_follows_machine E e w) as [Hs Ht].
  rewrite url_effects_app, Hs, Ht. apply accounted_move. exact H.
Qed.

Lemma run_accounted (E : Engine) (evs : list event) (w : World)
    (t : list effect) :
  accounted (url_state w) (url_effects t) ->
  accounted (url_state (fst (run E evs w)))
            (url_effects (t ++ snd (run E evs w))).
Proof.
  revert w t. induction evs as [|e evs IH]; intros w t H.
  - cbn. rewrite app_nil_r. exact H.
  - cbn [run]. pose proof (step_accounted E e w t H) as H1.
    destruct (step E e w) as [w1 t1]. cbn [fst snd] in H1.
    specialize (IH w1 (t ++ t1) H1).
    destruct (run E evs w1) as [w2 t2]. cbn [fst snd] in *.
    rewrite app_assoc. exact IH.
Qed.

Lemma run_none_lost (E : Engine) (evs : list event) (w : World)
    (t : list effect) :
  orderly E evs w ->
  accounted (url_state w) (url_effects t) ->
  none_lost (url_state w) (url_effects t) ->
  none_lost (url_state (fst (run E evs w)))
            (url_effects (t ++ snd (run E evs w))).
Proof.
  revert w t. induction evs as [|e evs IH]; intros w t Ho Ha Hl.
  - cbn. rewrite app_nil_r. exact Hl.
  - cbn [run]. destruct Ho as [Hfree Ho].
    pose proof (step_accounted E e w t Ha) as Ha1.
    assert (Hl1 : none_lost (url_state (fst (step E e w)))
                            (url_effects (t ++ snd (step E e w)))).
    { cbn [step fst snd].
      destruct (step_follows_machine E e w) as [Hs Ht].
      rewrite url_effects_app, Hs, Ht. apply none_lost_move; [exact Ha|exact Hl|].
      destruct e as [v| |r| | |r| |b net|btn now];
        try exact I; [|destruct btn; try exact I].
      - cbn [move_of]. destruct (apiUrl (app w)); [|exact I].
        destruct (upload_outcome E net);
          intros u Hu; apply (Hfree u); apply owns_displayed_held; exact Hu.
      - cbn [move_of]. destruct (analysisButtons (page w)) as [[u d]|];
          [|exact I].
        destruct (analysisHidden (page w)); [exact I|].
        destruct (report_formats E d); exact I. }
    destruct (step E e w) as [w1 t1]. cbn [fst snd] in *.
    specialize (IH w1 (t ++ t1) Ho Ha1 Hl1).
    destruct (run E evs w1) as [w2 t2]. cbn [fst snd] in *.
    rewrite app_assoc. exact IH.
Qed.

Lemma boot_accounted (doc : list string) (currentUrl : string)
    (supported : bool) (v : Video) (w0 : World) :
  boot doc currentUrl supported v = Some w0 ->
  accounted (url_state w0) [] /\ none_lost (url_state w0) [].
Proof.
  unfold boot. destruct (fst (constructor doc currentUrl supported));
    [|discriminate].
  intros H. injection H as <-.
  unfold accounted, none_lost, url_state. cbn.
  repeat split; intros; try discriminate; try lia; auto.
Qed.

Lemma accounted_held (s : Urls) (t : list url_effect) (u : url) :
  accounted s t -> held s u -> made u t = 1 /\ dropped u t = 0.
Proof.
  intros (Hm & _ & _ & Ha & Hp & _) [[Hs Ho] | [Hs Ho]].
  - destruct (Ha u Ho) as [Hlt Hd]. rewrite Hs in Hd. rewrite Hm.
    apply Nat.ltb_lt in Hlt. rewrite Hlt. auto.
  - destruct (Hp u Ho) as (Hlt & Hd & _). rewrite Hs in Hd. rewrite Hm.
    apply Nat.ltb_lt in Hlt. rewrite Hlt. auto.
Qed.

(** What does hold of object URLs along every run of the page from its
    construction: no object URL is revoked twice, and only URLs that were
    created are revoked; the URL a displayed view holds, the full result
    view of the success path or the minimal preview of the failure path,
    was created once and is not yet revoked; dismissing the view (close or
    retake on the full view, retake on the preview) revokes it, which makes
    exactly one revocation, and leaves no displayed view holding it.  In a
    run where a result is rendered only while no displayed view holds a
    URL, every URL created is revoked once or is held by the displayed
    view. *)
Lemma object_urls_accounting (E : Engine) (doc : list string)
    (currentUrl : string) (supported : bool) (v : Video) (w0 : World)
    (evs : list event) :
  boot doc currentUrl supported v = Some w0 ->
  let w := fst (run E evs w0) in
  let tr := snd (run E evs w0) in
  (forall u, created u tr <= 1 /\ revoked u tr <= created u tr)
  /\ (forall u, owns_displayed w u -> created u tr = 1 /\ revoked u tr = 0)
  /\ (forall u btn now,
        dismisses btn w u ->
        revoked u (tr ++ trace_of (click E btn now w)) = 1
        /\ ~ owns_displayed (world_after (click E btn now w)) u)
  /\ (orderly E evs w0 ->
      forall u, created u tr = 1 -> revoked u tr = 1 \/ owns_displayed w u).
Proof.
  intros Hb w tr.
  destruct (boot_accounted doc currentUrl supported v w0 Hb) as [Ha0 Hl0].
  pose proof (run_accounted E evs w0 [] Ha0) as Ha.
  change (accounted (url_state w) (url_effects tr)) in Ha.
  split; [|split; [|split]].
  - intros u. rewrite created_made, revoked_dropped.
    destruct Ha as (Hm & Hd & Hn & _). rewrite Hm.
    destruct (Nat.ltb_spec u (next (url_state w))) as [Hlt|Hge].
    + split; [lia | apply Hd].
    + rewrite (Hn u Hge). lia.
  - intros u Hu. rewrite created_made, revoked_dropped.
    apply (accounted_held _ _ u Ha). apply owns_displayed_held. exact Hu.
  - intros u btn now Hdis.
    pose proof (step_accounted E (EvClick btn now) w tr Ha) as Ha1.
    cbn [step handle fst snd] in Ha1.
    destruct (click_follows E btn now w) as [Hs _].
    rewrite revoked_dropped.
    assert (Hmove : move_of E (EvClick btn now) w = DismissAnalysis
                    /\ held (url_state w) u
                    /\ aShown (url_state w) = true
                    /\ aOwner (url_state w) = Some u
                    \/ move_of E (EvClick btn now) w = DismissPreview
                       /\ held (url_state w) u
                       /\ pShown (url_state w) = true
                       /\ pOwner (url_state w) = Some u).
    { destruct Hdis as [[Hbtn Hown] | [Hbtn Hown]].
      - left. assert (Hh : held (url_state w) u)
          by (apply owns_displayed_held; left; exact Hown).
        destruct Hown as [Hhid [d Hab]].
        split; [destruct Hbtn as [-> | ->]; reflexivity|].
        split; [exact Hh|].
        unfold url_state. cbn. rewrite Hhid, Hab. cbn. auto.
      - right. assert (Hh : held (url_state w) u)
          by (apply owns_displayed_held; right; exact Hown).
        destruct Hown as [Hhid Hr].
        split; [subst btn; reflexivity|].
        split; [exact Hh|].
        unfold url_state. cbn. rewrite Hhid, Hr. cbn. auto. }
    destruct Ha1 as (_ & _ & _ & Ha1 & Hp1 & _).
    destruct Hmove as [(Hmv & Hh & Hsh & Hown) | (Hmv & Hh & Hsh & Hown)];
      rewrite Hmv in Hs; cbn [make_move] in Hs; rewrite Hown, Hsh in Hs;
      cbn [fst] in Hs.
    + specialize (Ha1 u). rewrite Hs in Ha1.
      cbn [next aShown aOwner pShown pOwner pButtons] in Ha1.
      destruct (Ha1 eq_refl) as [_ Hd]. split; [exact Hd|].
      intros Hown'. apply owns_displayed_held in Hown'.
      assert (Hacc : accounted (url_state (world_after (click E btn now w)))
                       (url_effects (tr ++ trace_of (click E btn now w))))
        by exact (step_accounted E (EvClick btn now) w tr Ha).
      destruct (accounted_held _ _ u Hacc Hown') as [_ Hz]. lia.
    + specialize (Hp1 u). rewrite Hs in Hp1.
      cbn [next aShown aOwner pShown pOwner pButtons] in Hp1.
      destruct (Hp1 eq_refl) as (_ & Hd & _). split; [exact Hd|].
      intros Hown'. apply owns_displayed_held in Hown'.
      assert (Hacc : accounted (url_state (world_after (click E btn now w)))
                       (url_effects (tr ++ trace_of (click E btn now w))))
        by exact (step_accounted E (EvClick btn now) w tr Ha).
      destruct (accounted_held _ _ u Hacc Hown') as [_ Hz]. lia.
  - intros Hord u Hc.
    pose proof (run_none_lost E evs w0 [] Hord Ha0 Hl0) as Hl.
    change (none_lost (url_state w) (url_effects tr)) in Hl.
    rewrite created_made in Hc. rewrite revoked_dropped.
    destruct Ha as (Hm & _). rewrite Hm in Hc.
    destruct (Nat.ltb_spec u (next (url_state w))) as [Hlt|Hge];
      [|discriminate].
    destruct (Hl u Hlt) as [Hd | Hh]; [left; exact Hd|].
    right. apply owns_displayed_held. exact Hh.
Qed.

(** The object URLs of the session: the preview's URL is revoked by its
    retake button, the report's right after its download, the result
    view's by its close button. *)
Example session_urls :
  url_effects (snd (run Samples.engine Samples.session Samples.fresh))
  = [Make 0; Drop 0; Make 1; Make 2; Drop 2; Drop 1].
Proof. reflexivity. Qed.

(** Both paths of result rendering leave their URL with the displayed
    view. *)
Example failure_path_preview_holds_its_url :
  preview_owns Samples.preview_shown 0.
Proof. split; reflexivity. Qed.

Example success_path_view_holds_its_url :
  analysis_owns Samples.results_shown 0.
Proof. split; [reflexivity | exists (JObj []); reflexivity]. Qed.

(** ** A view replaced before it is dismissed *)

(** A URL that no handler holds and that is older than the next one to be
    made is not revoked by any move. *)
Definition forgotten (u : url) (s : Urls) : Prop :=
  u < next s /\ aOwner s <> Some u /\ pOwner s <> Some u.

Lemma move_keeps_forgotten (u : url) (m : move) (s : Urls) :
  forgotten u s ->
  forgotten u (fst (make_move m s)) /\ dropped u (snd (make_move m s)) = 0.
Proof.
  intros (Hlt & Ha & Hp).
  assert (Hn : Nat.eqb u (next s) = false) by (apply Nat.eqb_neq; lia).
  assert (Hn2 : Nat.eqb u (S (next s)) = false) by (apply Nat.eqb_neq; lia).
  assert (Hno : forall o, o <> Some u ->
            match o with
            | Some v => dropped u [Drop v] = 0
            | None => True
            end).
  { intros [v|] Hv; [|exact I]. unfold dropped. cbn.
    destruct (Nat.eqb u v) eqn:Euv; [|reflexivity].
    apply Nat.eqb_eq in Euv. subst v. contradiction. }
  unfold forgotten.
  destruct m as [|failed preview|preview| | |]; cbn [make_move].
  - cbn. auto.
  - destruct failed, preview; unfold preview_move;
      cbn [next aShown aOwner pShown pOwner pButtons fst snd];
      try destruct (pButtons s);
      cbn [next aShown aOwner pShown pOwner pButtons fst snd];
      unfold dropped; cbn [filter length]; rewrite ?Hn, ?Hn2;
      cbn [filter length];
      repeat split; try lia; try assumption; try discriminate;
      try (intros H; injection H as H; lia).
  - destruct preview; unfold preview_move;
      try destruct (pButtons s);
      cbn [next aShown aOwner pShown pOwner pButtons fst snd];
      unfold dropped; cbn [filter length]; rewrite ?Hn, ?Hn2;
      cbn [filter length];
      repeat split; try lia; try assumption; try discriminate;
      try (intros H; injection H as H; lia).
  - specialize (Hno (aOwner s) Ha).
    destruct (aOwner s) as [v|] eqn:Ho;
      [destruct (aShown s)|]; cbn [fst snd next aOwner pOwner];
      rewrite ?Ho; repeat split; auto.
  - specialize (Hno (pOwner s) Hp).
    destruct (pOwner s) as [v|] eqn:Ho;
      [destruct (pShown s)|]; cbn [fst snd next aOwner pOwner];
      rewrite ?Ho; repeat split; auto.
  - cbn [next aShown aOwner pShown pOwner pButtons fst snd].
    unfold dropped; cbn [filter length]; rewrite ?Hn, ?Hn2; cbn [filter length].
    repeat split; try lia; assumption.
Qed.

Lemma run_keeps_forgotten (E : Engine) (u : url) (evs : list event)
    (w : World) :
  forgotten u (url_state w) ->
  revoked u (snd (run E evs w)) = 0.
Proof.
  revert w. induction evs as [|e evs IH]; intros w Hw; [reflexivity|].
  cbn [run]. unfold step.
  destruct (step_follows_machine E e w) as [Hs Ht].
  destruct (move_keeps_forgotten u (move_of E e w) (url_state w) Hw)
    as [Hw1 Hd1].
  rewrite <- Hs in Hw1. rewrite <- Ht in Hd1.
  specialize (IH (world_after (handle E e w)) Hw1).
  destruct (run E evs (world_after (handle E e w))) as [w2 t2].
  cbn [snd] in IH |- *.
  rewrite revoked_dropped, url_effects_app, dropped_app, Hd1.
  rewrite <- revoked_dropped. exact IH.
Qed.

(** C8 at the failing input.  The API is found; a capture is uploaded and
    fails, so the minimal preview is shown with URL 0; the capture button
    is enabled again, a second capture is uploaded and fails too, and the
    preview is shown with URL 1, its buttons rewired; the retake button
    then dismisses the preview.  URL 0 was created and is not revoked; no
    view is displayed and no handler holds it any more, and whatever
    happens on the page afterwards it is never revoked. *)
Theorem replaced_preview_leaks_its_url :
  let r := run Samples.engine Samples.two_failed_captures Samples.fresh in
  url_effects (snd r) = [Make 0; Make 1; Drop 1]
  /\ created 0 (snd r) = 1
  /\ revoked 0 (snd r) = 0
  /\ previewHidden (page (fst r)) = true
  /\ analysisHidden (page (fst r)) = true
  /\ (forall u, ~ owns_displayed (fst r) u)
  /\ forall evs, revoked 0 (snd (run Samples.engine evs (fst r))) = 0.
Proof.
  cbv zeta.
  split; [reflexivity|]. split; [reflexivity|]. split; [reflexivity|].
  split; [reflexivity|]. split; [reflexivity|]. split.
  - intros u [[H _] | [H _]]; vm_compute in H; discriminate H.
  - intros evs. apply run_keeps_forgotten.
    unfold forgotten. vm_compute. repeat split; try lia; discriminate.
Qed.

(** ** Endpoint discovery (lines 74-102) *)

Lemma match_online {A} (s : string) (a b : A) :
  match s with
  | "online" => a
  | _ => b
  end = if String.eqb s "online" then a else b.
Proof.
  do 6 (destruct s as [|[[] [] [] [] [] [] [] []] s]; try reflexivity).
  destruct s; reflexivity.
Qed.

Lemma showApiStatus_runs (connected : bool) (u : string) (w : World) :
  let r := showApiStatus connected u w in
  outcome_of r = Return tt
  /\ trace_of r = [ShowApiStatus connected u]
  /\ getElementById "apiStatus" (world_after r) = true
  /\ app (world_after r) = app w
  /\ origin (world_after r) = origin w.
Proof.
  destruct w as [o sw v [i cw ch cd ah ab ph dl rt] n l a].
  unfold showApiStatus, createApiStatusElement, when, getElementById, bind,
    get, modify, emit, ret, outcome_of, trace_of, world_after.
  cbn -[String.eqb].
  destruct (existsb (String.eqb "apiStatus") i) eqn:Hi; cbn -[String.eqb];
    rewrite ?Hi; repeat split.
Qed.

(** How [detectApiUrl] ends once the health check has settled. *)
Lemma detectApiUrl_runs (E : Engine) (r : FetchResult) (w : World) :
  let res := detectApiUrl_settled E r w in
  outcome_of res = Return tt
  /\ getElementById "apiStatus" (world_after res) = true
  /\ if health_online E r then
       apiUrl (app (world_after res)) = Some (origin w)
       /\ trace_of res
          = [ ConsoleLog ("✅ API híbrida detectada: " +++ origin w);
              ShowApiStatus true (origin w) ]
     else
       apiUrl (app (world_after res)) = apiUrl (app w)
       /\ exists pre,
            trace_of res
            = pre ++ [ ShowApiStatus false "";
                       ConsoleError "API híbrida não encontrada ou não respondeu corretamente." ]
            /\ forallb is_console_error pre = true.
Proof.
  cbv zeta.
  assert (Hno : forall w1 pre,
            app w1 = app w -> forallb is_console_error pre = true ->
            let res := (showApiStatus false "";;
                        emit (ConsoleError "API híbrida não encontrada ou não respondeu corretamente.")) w1 in
            outcome_of res = Return tt
            /\ getElementById "apiStatus" (world_after res) = true
            /\ apiUrl (app (world_after res)) = apiUrl (app w)
            /\ exists pre',
                 pre ++ trace_of res
                 = pre' ++ [ ShowApiStatus false "";
                             ConsoleError "API híbrida não encontrada ou não respondeu corretamente." ]
                 /\ forallb is_console_error pre' = true).
  { intros w1 pre Hw1 Hpre. cbv zeta. rewrite bind_unfold.
    destruct (showApiStatus_runs false "" w1) as (Ho & Ht & Hg & Ha & _).
    cbv zeta in Ho, Ht, Hg, Ha. rewrite Ho.
    cbn [emit outcome_of world_after trace_of fst snd]. rewrite Ht, Ha, Hw1.
    repeat split; [exact Hg|]. exists pre. split; [reflexivity | exact Hpre]. }
  unfold detectApiUrl_settled. rewrite bind_unfold.
  cbn [get outcome_of world_after trace_of fst snd app].
  rewrite bind_unfold, try_catch_unfold.
  destruct r as [msg|response]; cbn [health_online].
  - cbn [throw outcome_of world_after trace_of fst snd].
    rewrite bind_unfold.
    cbn [emit ret outcome_of world_after trace_of fst snd app].
    destruct (Hno w [ConsoleError ("❌ Erro ao conectar ou API offline: "
                                   +++ error_toString (Exn "TypeError" msg))]
                eq_refl eq_refl) as (Ho & Hg & Ha & Hex).
    cbv zeta in Ho, Hg, Ha, Hex. rewrite Ho. repeat split; assumption.
  - destruct (ok response); cbn [andb].
    2:{ cbn [ret outcome_of world_after trace_of fst snd app].
        destruct (Hno w [] eq_refl eq_refl) as (Ho & Hg & Ha & Hex).
        cbv zeta in Ho, Hg, Ha, Hex. rewrite Ho. repeat split; assumption. }
    rewrite bind_unfold. unfold response_json.
    destruct (JSON_parse E (body response)) as [msg|data].
    { cbn [throw outcome_of world_after trace_of fst snd].
      rewrite bind_unfold.
      cbn [emit ret outcome_of world_after trace_of fst snd app].
      destruct (Hno w [ConsoleError ("❌ Erro ao conectar ou API offline: "
                                     +++ error_toString (Exn "SyntaxError" msg))]
                  eq_refl eq_refl) as (Ho & Hg & Ha & Hex).
      cbv zeta in Ho, Hg, Ha, Hex. rewrite Ho. repeat split; assumption. }
    cbn [ret outcome_of world_after trace_of fst snd app].
    rewrite bind_unfold.
    destruct data as [|x|q|s|items|fields];
      cbn [get_prop lift outcome_of world_after trace_of fst snd app ret].
    1:{ rewrite bind_unfold.
        cbn [emit ret outcome_of world_after trace_of fst snd app].
        destruct (Hno w [ConsoleError ("❌ Erro ao conectar ou API offline: "
                                       +++ error_toString (type_error E "null.status"))]
                    eq_refl eq_refl) as (Ho & Hg & Ha & Hex).
        cbv zeta in Ho, Hg, Ha, Hex. rewrite Ho. repeat split; assumption. }
    1-4: (destruct (Hno w [] eq_refl eq_refl) as (Ho & Hg & Ha & Hex);
          cbv zeta in Ho, Hg, Ha, Hex; rewrite Ho; repeat split; assumption).
    destruct (assoc "status" fields) as [[|x|q|s|items|fields']|];
      cbn [ret outcome_of world_after trace_of fst snd app];
      try (destruct (Hno w [] eq_refl eq_refl) as (Ho & Hg & Ha & Hex);
           cbv zeta in Ho, Hg, Ha, Hex; rewrite Ho; repeat split; assumption).
    rewrite match_online.
    destruct (String.eqb s "online");
      cbn [ret outcome_of world_after trace_of fst snd app].
    2:{ destruct (Hno w [] eq_refl eq_refl) as (Ho & Hg & Ha & Hex).
        cbv zeta in Ho, Hg, Ha, Hex. rewrite Ho. repeat split; assumption. }
    rewrite !bind_unfold.
    cbn [modify emit outcome_of world_after trace_of fst snd app].
    destruct (showApiStatus_runs true (origin w)
                (on_app (set_apiUrl (Some (origin w))) w))
      as (Ho & Ht & Hg & Ha & _).
    cbv zeta in Ho, Ht, Hg, Ha. rewrite Ho.
    cbn [ret outcome_of world_after trace_of fst snd app].
    rewrite Ht, Ha. repeat split. exact Hg.
Qed.

(** X5.  When the health check settles, [detectApiUrl] ends without an
    exception and the status badge exists.  When the response is a success
    whose JSON body has [status] equal to ["online"], the endpoint becomes
    the origin of the page and the badge shows it connected; in every other
    case (the request failed, the status is not a success, the body is not
    JSON, is [null], or has another [status]) the endpoint is left as it
    was and the badge shows the API as not found. *)
Theorem health_check_outcome (E : Engine) (r : FetchResult) (w : World) :
  let res := detectApiUrl_settled E r w in
  outcome_of res = Return tt
  /\ getElementById "apiStatus" (world_after res) = true
  /\ if health_online E r then
       apiUrl (app (world_after res)) = Some (origin w)
       /\ trace_of res
          = [ ConsoleLog ("✅ API híbrida detectada: " +++ origin w);
              ShowApiStatus true (origin w) ]
     else
       apiUrl (app (world_after res)) = apiUrl (app w)
       /\ exists pre,
            trace_of res
            = pre ++ [ ShowApiStatus false "";
                       ConsoleError "API híbrida não encontrada ou não respondeu corretamente." ]
            /\ forallb is_console_error pre = true.
Proof. exact (detectApiUrl_runs E r w). Qed.

(** ** What holds along every run *)

Lemma run_invariant (E : Engine) (I : World -> Prop) :
  (forall e w, I w -> I (fst (step E e w))) ->
  forall evs w, I w -> I (fst (run E evs w)).
Proof.
  intros Hstep evs. induction evs as [|e evs IH]; intros w Hw; [exact Hw|].
  cbn [run]. specialize (IH (fst (step E e w)) (Hstep e w Hw)).
  destruct (step E e w) as [w1 t1]. cbn [fst] in IH.
  destruct (run E evs w1) as [w2 t2]. exact IH.
Qed.

Lemma handle_keeps_origin (E : Engine) (e : event) :
  keeps origin (handle E e).
Proof.
  destruct e; unfold_methods; frame;
    try (apply stop_tracks_keeps; reflexivity).
Qed.

Lemma handle_keeps_apiUrl (E : Engine) (e : event) :
  (forall r, e <> EvHealth r) ->
  keeps (fun w => apiUrl (app w)) (handle E e).
Proof.
  intros H. destruct e; try (exfalso; eapply H; reflexivity);
    unfold_methods; frame; try (apply stop_tracks_keeps; reflexivity).
Qed.

Lemma step_endpoint (E : Engine) (e : event) (w : World) :
  origin (fst (step E e w)) = origin w
  /\ (apiUrl (app (fst (step E e w))) = apiUrl (app w)
      \/ apiUrl (app (fst (step E e w))) = Some (origin w)).
Proof.
  split; [exact (handle_keeps_origin E e w)|].
  destruct e;
    try (left; apply (handle_keeps_apiUrl E); intros ?; discriminate).
  unfold step. cbn [fst handle].
  destruct (detectApiUrl_runs E r w) as (_ & _ & H). cbv zeta in H.
  destruct (health_online E r); [right|left]; apply H.
Qed.

(** The endpoint in the worlds the page can reach. *)
Lemma reachable_endpoint (E : Engine) (w : World) :
  reachable E w ->
  (apiUrl (app w) = None \/ apiUrl (app w) = Some (origin w))
  /\ forall evs,
       apiUrl (app w) = Some (origin w) ->
       apiUrl (app (fst (run E evs w))) = Some (origin w).
Proof.
  intros (doc & cu & sup & v & evs0 & w0 & Hb & ->).
  assert (Hstep : forall o e w,
            (origin w = o /\ (apiUrl (app w) = None \/ apiUrl (app w) = Some o)) ->
            (origin (fst (step E e w)) = o
             /\ (apiUrl (app (fst (step E e w))) = None
                 \/ apiUrl (app (fst (step E e w))) = Some o))).
  { intros o e w (Ho & Ha). destruct (step_endpoint E e w) as (Ho' & Ha').
    split; [congruence|]. destruct Ha' as [Ha'|Ha']; rewrite Ha'; subst o; auto. }
  assert (Hkeep : forall o e w,
            (origin w = o /\ apiUrl (app w) = Some o) ->
            (origin (fst (step E e w)) = o
             /\ apiUrl (app (fst (step E e w))) = Some o)).
  { intros o e w (Ho & Ha). destruct (step_endpoint E e w) as (Ho' & Ha').
    split; [congruence|]. destruct Ha' as [Ha'|Ha']; rewrite Ha'; subst o; auto. }
  split.
  - assert (H0 : origin w0 = cu
                 /\ (apiUrl (app w0) = None \/ apiUrl (app w0) = Some cu)).
    { unfold boot in Hb.
      destruct (fst (constructor doc cu sup)) as [a|] eqn:Hc; [|discriminate].
      injection Hb as <-. cbn. split; [reflexivity|left].
      unfold constructor in Hc.
      destruct (negb (dom_video (lookup_dom doc))
                || negb (dom_canvas (lookup_dom doc))); [discriminate|].
      cbn in Hc. injection Hc as <-. reflexivity. }
    destruct (run_invariant E _ (Hstep cu) evs0 w0 H0) as (Ho & Ha).
    rewrite Ho. exact Ha.
  - intros evs Ha.
    destruct (run_invariant E _ (Hkeep (origin (fst (run E evs0 w0)))) evs
                (fst (run E evs0 w0)) (conj eq_refl Ha)) as (_ & H).
    exact H.
Qed.

(** X6.  The endpoint of the analysis API is only ever the origin of the
    page: in every world the page can reach, [apiUrl] is [null] or
    [window.location.origin]; and once it is set, no later event (a failed
    health check included) clears or changes it. *)
Theorem endpoint_is_the_page_origin (E : Engine) (w : World) :
  reachable E w ->
  (apiUrl (app w) = None \/ apiUrl (app w) = Some (origin w))
  /\ forall evs,
       apiUrl (app w) = Some (origin w) ->
       apiUrl (app (fst (run E evs w))) = Some (origin w).
Proof. exact (reachable_endpoint E w). Qed.

Lemma endpoint_is_the_page_origin_witness :
  (apiUrl (app Samples.api_found) = None
   \/ apiUrl (app Samples.api_found) = Some (origin Samples.api_found))
  /\ forall evs,
       apiUrl (app Samples.api_found) = Some (origin Samples.api_found) ->
       apiUrl (app (fst (run Samples.engine evs Samples.api_found)))
       = Some (origin Samples.api_found).
Proof.
  apply (endpoint_is_the_page_origin Samples.engine Samples.api_found).
  exists Samples.document, Samples.page_origin, true, Samples.camera,
    [EvHealth (Resolved Samples.healthy)], Samples.fresh.
  split; reflexivity.
Defined.

(** ** Requests *)

Lemma analyzePhoto_requests (E : Engine) (b : blob) (net : FetchResult) (w : World) (m t : string)
    (f : option (blob * string)) :
  In (Fetch m t f) (trace_of (analyzePhoto E b net w)) ->
  exists api,
    apiUrl (app w) = Some api /\ m = "POST" /\ t = api +++ "/upload"
    /\ f = Some (b, "face-capture.png").
Proof.
  unfold analyzePhoto. rewrite bind_unfold.
  cbn [get outcome_of world_after trace_of fst snd app_nil_l].
  destruct (apiUrl (app w)) as [api|]; intros Hin.
  - exists api. split; [reflexivity|].
    revert Hin. cbn [List.app].
    match goal with
    | |- In _ (trace_of (?c w)) -> _ =>
        assert (He : emits_only
                  (fun x => forall m t f, x = Fetch m t f ->
                     m = "POST" /\ t = api +++ "/upload"
                     /\ f = Some (b, "face-capture.png")) c)
    end.
    { unfold_methods; emissions; intros ? ? ? [=]; subst; auto. }
    intros Hin. specialize (He w). rewrite Forall_forall in He.
    exact (He _ Hin _ _ _ eq_refl).
  - exfalso. revert Hin. cbn [List.app].
    match goal with
    | |- In _ (trace_of (?c w)) -> _ =>
        assert (He : emits_only (fun x => is_fetch x = false) c)
    end.
    { unfold_methods; emissions; reflexivity. }
    intros Hin. specialize (He w). rewrite Forall_forall in He.
    specialize (He _ Hin). discriminate.
Qed.

(** X7.  After construction the page sends no request but the upload: a
    [Fetch] in the effects of an event is the POST of the captured blob,
    under the file name [face-capture.png], to [/upload] on the origin of
    the page itself. *)
Theorem requests_are_uploads_to_the_origin (E : Engine) (e : event)
    (w : World) (m t : string) (f : option (blob * string)) :
  reachable E w ->
  In (Fetch m t f) (snd (step E e w)) ->
  exists b net,
    e = EvBlob b net /\ m = "POST" /\ t = origin w +++ "/upload"
    /\ f = Some (b, "face-capture.png").
Proof.
  intros Hr Hin. unfold step in Hin. cbn [snd] in Hin.
  destruct e as [v| |r| | |r| |b net|btn now];
    try (exfalso;
         match type of Hin with
         | In _ (trace_of (?c w)) =>
             assert (He : emits_only (fun x => is_fetch x = false) c)
               by (unfold_methods; emissions; reflexivity)
         end;
         specialize (He w); rewrite Forall_forall in He;
         specialize (He _ Hin); discriminate).
  cbn [handle] in Hin.
  destruct (analyzePhoto_requests E b net w m t f Hin)
    as (api & Ha & -> & -> & ->).
  exists b, net. repeat split.
  destruct (reachable_endpoint E w Hr) as ([Hn|Ho] & _); congruence.
Qed.

Lemma requests_are_uploads_to_the_origin_witness :
  exists b net,
    EvBlob 1 (Resolved Samples.server_error) = EvBlob b net
    /\ "POST" = "POST"
    /\ "https://app.example/upload" = origin Samples.api_found +++ "/upload"
    /\ Some (1, "face-capture.png") = Some (b, "face-capture.png").
Proof.
  apply (requests_are_uploads_to_the_origin Samples.engine
           (EvBlob 1 (Resolved Samples.server_error)) Samples.api_found).
  - exists Samples.document, Samples.page_origin, true, Samples.camera,
      [EvHealth (Resolved Samples.healthy)], Samples.fresh.
    split; reflexivity.
  - vm_compute. right. right. left. reflexivity.
Defined.

(** ** How the handlers end *)

Lemma returns_tt (c : Js unit) (w : World) :
  returns c -> outcome_of (c w) = Return tt.
Proof. intros H. destruct (H w) as ([] & ->). reflexivity. Qed.

Lemma returns_try_catch_body {A} (c : Js A) (h : exn -> Js A) :
  returns c -> returns (try_catch c h).
Proof.
  intros Hc w. rewrite try_catch_unfold. destruct (Hc w) as (a & ->).
  exists a. reflexivity.
Qed.

Lemma returns_stop_tracks (sid : nat) (ts : list nat) :
  returns (stop_tracks sid ts).
Proof.
  intros w. rewrite stop_tracks_runs. exists tt. reflexivity.
Qed.

Lemma keeps_captureBtn (E : Engine) (c : Js unit) (w : World) :
  keeps fixed_fields c ->
  dom_captureBtn (dom (app (world_after (c w)))) = dom_captureBtn (dom (app w)).
Proof.
  intros H. specialize (H w). unfold fixed_fields in H.
  injection H as H _ _. rewrite H. reflexivity.
Qed.

(** An upload attempt ends without an exception, with the capture button
    enabled again. *)
Lemma analyzePhoto_ends (E : Engine) (b : blob) (net : FetchResult) (w : World) :
  dom_captureBtn (dom (app w)) = true ->
  outcome_of (analyzePhoto E b net w) = Return tt
  /\ captureDisabled (page (world_after (analyzePhoto E b net w))) = false.
Proof.
  intros Hbtn. destruct (apiUrl (app w)) as [api|] eqn:Ha.
  2:{ rewrite (analyzePhoto_without_endpoint E w b net Hbtn Ha).
      split; reflexivity. }
  unfold analyzePhoto. rewrite bind_unfold.
  cbn [get outcome_of world_after trace_of fst snd]. rewrite Ha.
  rewrite bind_unfold, showLoading_runs.
  cbn [outcome_of world_after trace_of fst snd].
  rewrite try_finally_unfold.
  set (body := try_catch (upload E api b net) (upload_catch E b)).
  assert (Hret : returns body).
  { unfold body. apply returns_try_catch. intros e.
    unfold upload_catch, alert. returning. }
  assert (Hkeep : keeps fixed_fields body).
  { unfold body, upload, upload_catch, showAnalysisResults, showPreview,
      response_json, createAnalysisContainer, createObjectURL,
      revokeObjectURL, alert. frame. }
  pose proof (keeps_captureBtn E body w Hkeep) as Hb. rewrite Hbtn in Hb.
  cbv zeta. rewrite (upload_finally_runs E _ Hb).
  cbn [outcome_of world_after trace_of fst snd].
  rewrite (returns_tt body w Hret). split; reflexivity.
Qed.

(** A capture on a video that reports its size. *)
Lemma capturePhoto_ends (E : Engine) (w : World) :
  dom_captureBtn (dom (app w)) = true ->
  outcome_of (capturePhoto E w) = Return tt
  /\ (truthy_dim (videoWidth (video w)) = true ->
      truthy_dim (videoHeight (video w)) = true ->
      captureDisabled (page (world_after (capturePhoto E w))) = true).
Proof.
  intros Hbtn. unfold capturePhoto. rewrite bind_unfold.
  cbn [get outcome_of world_after trace_of fst snd].
  destruct (truthy_dim (videoWidth (video w)));
    [destruct (truthy_dim (videoHeight (video w)))|]; cbn [negb orb];
    try (split; [reflexivity|intros; discriminate]).
  rewrite bind_unfold, (set_captureBtn_disabled_runs E true w Hbtn).
  cbn [outcome_of world_after trace_of fst snd].
  rewrite bind_unfold, showLoading_runs.
  cbn [outcome_of world_after trace_of fst snd].
  rewrite try_catch_unfold.
  match goal with
  | |- context [outcome_of (?c ?w1)] =>
      assert (Hret : returns c) by returning;
      assert (Hkeep : keeps (fun x => captureDisabled (page x)) c) by frame;
      rewrite (returns_tt c w1 Hret);
      pose proof (Hkeep w1) as Hd
  end.
  cbn [outcome_of world_after trace_of fst snd] in *.
  split; [reflexivity|]. intros _ _. rewrite Hd. reflexivity.
Qed.

(** X8.  On a page that has the capture button, the only handler an
    exception can leave is the one of the button that saves the report:
    every other event ends without an exception, whatever the camera, the
    network or the server answer. *)
Theorem handlers_end_normally (E : Engine) (e : event) (w : World) :
  dom_captureBtn (dom (app w)) = true ->
  (forall now, e <> EvClick SaveResults now) ->
  outcome_of (handle E e w) = Return tt.
Proof.
  intros Hbtn Hsave.
  destruct e as [v| |r| | |r| |b net|btn now]; cbn [handle].
  - reflexivity.
  - reflexivity.
  - apply (detectApiUrl_runs E r w).
  - apply returns_tt. unfold handleConsentAccept_request, initCamera_request.
    returning; apply returns_stop_tracks.
  - apply returns_tt. unfold switchCamera_request, initCamera_request.
    returning; apply returns_stop_tracks.
  - apply returns_tt. unfold initCamera_settled, alert. returning.
  - rewrite bind_unfold. cbn [get outcome_of world_after trace_of fst snd].
    destruct (dom_captureBtn (dom (app w)) && negb (captureDisabled (page w)));
      cbn [when]; [|reflexivity].
    cbv zeta. cbn [outcome_of fst]. apply (capturePhoto_ends E w Hbtn).
  - apply (analyzePhoto_ends E b net w Hbtn).
  - apply returns_tt.
    destruct btn; try (exfalso; eapply Hsave; reflexivity);
      unfold click, onclick, _hideAnalysisContainer, _downloadImage,
        revokeObjectURL; returning.
Qed.

Lemma handlers_end_normally_witness :
  outcome_of (handle Samples.engine
                (EvBlob 1 (Resolved Samples.html_page)) Samples.api_found)
  = Return tt.
Proof.
  apply (handlers_end_normally Samples.engine
           (EvBlob 1 (Resolved Samples.html_page)) Samples.api_found).
  - reflexivity.
  - intros now. discriminate.
Defined.

(** ** The capture button while an upload is under way *)

Lemma step_while_disabled (E : Engine) (e : event) (w : World) :
  is_blob_event e = false ->
  captureDisabled (page w) = true ->
  captureDisabled (page (fst (step E e w))) = true
  /\ existsb is_to_blob (snd (step E e w)) = false.
Proof.
  intros He Hd. unfold step. cbn [fst snd].
  destruct e as [v| |r| | |r| |b net|btn now]; try discriminate.
  7:{ cbn [handle]. rewrite bind_unfold.
      cbn [get outcome_of world_after trace_of fst snd]. rewrite Hd.
      rewrite andb_false_r. cbn. split; [exact Hd|reflexivity]. }
  all: split;
    [ rewrite <- Hd;
      match goal with
      | |- _ (page (world_after (?c ?x0))) = _ =>
          assert (Hk : keeps (fun x => captureDisabled (page x)) c)
            by (unfold_methods; frame; try (apply stop_tracks_keeps; reflexivity));
          exact (Hk x0)
      end
    | apply existsb_none;
      match goal with
      | |- Forall _ (trace_of (?c ?x0)) =>
          assert (Hq : emits_only (fun x => is_to_blob x = false) c)
            by (unfold_methods; emissions; reflexivity);
          exact (Hq x0)
      end ].
Qed.

Lemma run_while_disabled (E : Engine) (evs : list event) (w : World) :
  existsb is_blob_event evs = false ->
  captureDisabled (page w) = true ->
  captureDisabled (page (fst (run E evs w))) = true
  /\ existsb is_to_blob (snd (run E evs w)) = false.
Proof.
  revert w. induction evs as [|e evs IH]; intros w Hev Hd.
  - split; [exact Hd|reflexivity].
  - cbn [existsb] in Hev. apply orb_false_iff in Hev. destruct Hev as (He & Hev).
    destruct (step_while_disabled E e w He Hd) as (Hd1 & Hq1).
    cbn [run]. destruct (step E e w) as [w1 t1]. cbn [fst snd] in Hd1, Hq1.
    specialize (IH w1 Hev Hd1). destruct (run E evs w1) as [w2 t2].
    cbn [fst snd] in *. split; [apply IH|].
    rewrite existsb_app, Hq1. apply IH.
Qed.

(** X9.  A capture disables the capture button until its upload attempt is
    over: after a click that starts a capture the button is disabled; as
    long as no blob has been handed over, whatever else happens (further
    clicks on the capture button included) leaves it disabled and starts no
    second capture; and when the attempt ends, however it ends, the button
    is enabled again. *)
Theorem capture_button_is_guarded (E : Engine) (w : World) :
  dom_captureBtn (dom (app w)) = true ->
  captureDisabled (page w) = false ->
  truthy_dim (videoWidth (video w)) = true ->
  truthy_dim (videoHeight (video w)) = true ->
  let w1 := fst (step E EvCapture w) in
  captureDisabled (page w1) = true
  /\ (forall evs,
        existsb is_blob_event evs = false ->
        captureDisabled (page (fst (run E evs w1))) = true
        /\ existsb is_to_blob (snd (run E evs w1)) = false)
  /\ (forall evs b net,
        existsb is_blob_event evs = false ->
        captureDisabled
          (page (fst (run E (evs ++ [EvBlob b net]) w1))) = false).
Proof.
  intros Hbtn Hen Hvw Hvh. cbv zeta.
  assert (H1 : captureDisabled (page (fst (step E EvCapture w))) = true).
  { unfold step. cbn [fst handle]. rewrite bind_unfold.
    cbn [get outcome_of world_after trace_of fst snd].
    rewrite Hbtn, Hen. cbn [negb andb when]. cbv zeta.
    cbn [world_after fst snd]. apply (capturePhoto_ends E w Hbtn); assumption. }
  split; [exact H1|]. split.
  - intros evs Hev. apply run_while_disabled; assumption.
  - intros evs b net Hev.
    assert (Hrun : forall l1 l2 x,
              fst (run E (l1 ++ l2) x) = fst (run E l2 (fst (run E l1 x)))).
    { induction l1 as [|a l1 IH]; intros l2 x; [reflexivity|].
      cbn [List.app run]. specialize (IH l2 (fst (step E a x))).
      destruct (step E a x) as [x1 t1]. cbn [fst] in IH.
      destruct (run E (l1 ++ l2) x1), (run E l1 x1). cbn [fst] in *.
      rewrite IH. reflexivity. }
    rewrite Hrun. cbn [run]. unfold step at 1. cbn [fst handle].
    apply analyzePhoto_ends.
    pose proof (run_keeps_fixed_fields E evs (fst (step E EvCapture w))) as Hf.
    pose proof (handle_keeps_fixed_fields E EvCapture w) as Hg.
    unfold fixed_fields in Hf, Hg. injection Hf as Hf _ _.
    injection Hg as Hg _ _.
    exact (eq_trans (f_equal dom_captureBtn (eq_trans Hf Hg)) Hbtn).
Qed.

Lemma capture_button_is_guarded_witness :
  let w1 := fst (step Samples.engine EvCapture Samples.api_found) in
  captureDisabled (page w1) = true
  /\ (forall evs,
        existsb is_blob_event evs = false ->
        captureDisabled (page (fst (run Samples.engine evs w1))) = true
        /\ existsb is_to_blob (snd (run Samples.engine evs w1)) = false)
  /\ (forall evs b net,
        existsb is_blob_event evs = false ->
        captureDisabled
          (page (fst (run Samples.engine (evs ++ [EvBlob b net]) w1)))
        = false).
Proof.
  apply (capture_button_is_guarded Samples.engine Samples.api_found);
    reflexivity.
Defined.

(** ** The camera when each request is answered before the next switch *)

Lemma nodup_constant (n : nat) (l : list nat) :
  Forall (fun x => x = n) l -> length (nodup Nat.eq_dec l) <= 1.
Proof.
  induction l as [|a l IH]; intros H; [cbn; lia|].
  inversion H as [|? ? Ha Hl]; subst. specialize (IH Hl). cbn [nodup].
  destruct (in_dec Nat.eq_dec n l) as [Hin|Hout]; [exact IH|].
  destruct l as [|b l]; [cbn; lia|].
  exfalso. apply Hout. inversion Hl; subst. left. reflexivity.
Qed.

Lemma holder_has_one_stream (w : World) :
  holds_the_live_tracks w -> length (live_streams w) <= 1.
Proof.
  unfold holds_the_live_tracks, live_streams. intros ->.
  destruct (currentStream (app w)) as [s|]; [|cbn; lia].
  apply (nodup_constant (stream_id s)). unfold tracks_of.
  rewrite map_map. cbn [fst]. induction (tracks s); constructor; auto.
Qed.

Lemma switch_and_answer (E : Engine) (r : MediaResult) (rest : list event)
    (w : World) :
  getElementById "switchCamera" w = true ->
  let w2 :=
    world_after (initCamera_settled r (world_after (switchCamera_request w))) in
  fst (run E (EvSwitch :: EvMedia r :: rest) w) = fst (run E rest w2)
  /\ getElementById "switchCamera" w2 = true.
Proof.
  intros Hid. cbv zeta. split.
  - cbn [run]. unfold step. cbn [handle]. rewrite bind_unfold.
    cbn [get outcome_of world_after trace_of fst snd]. rewrite Hid.
    cbn [when]. cbv zeta. cbn [world_after fst snd].
    destruct (run E rest _) as [w3 t3]. reflexivity.
  - unfold getElementById in *.
    assert (H1 : keeps (fun x => ids (page x)) (initCamera_settled r))
      by (unfold initCamera_settled, alert; frame).
    assert (H2 : keeps (fun x => ids (page x)) switchCamera_request)
      by (unfold switchCamera_request, initCamera_request; frame;
          apply stop_tracks_keeps; reflexivity).
    pose proof (H1 (world_after (switchCamera_request w))) as H1'.
    pose proof (H2 w) as H2'. cbn beta in H1', H2'.
    rewrite H1', H2'. exact Hid.
Qed.

(** X10.  What a switch does to the camera.  It stops every track of the
    stream the controller holds, and no other: a track of a stream the
    controller does not hold (any more) stays live.  It drops the
    reference, flips the facing mode, and then requests exactly one
    stream, with the new facing mode and the ideal size 1280x720. *)
Theorem switch_stops_the_held_stream (w : World) :
  let r := switchCamera_request w in
  let held_tracks :=
    match currentStream (app w) with
    | Some s => tracks_of s
    | None => []
    end in
  outcome_of r = Return tt
  /\ trace_of r
     = map (fun x => TrackStop (fst x) (snd x)) held_tracks
       ++ [GetUserMedia (flip (facingMode (app w))) 1280 720]
  /\ currentStream (app (world_after r)) = None
  /\ facingMode (app (world_after r)) = flip (facingMode (app w))
  /\ liveTracks (world_after r)
     = filter (fun x => negb (existsb (same_track x) held_tracks))
              (liveTracks w).
Proof.
  cbv zeta.
  destruct (switchCamera_stops_before_request w) as (Ht & Hc & Hf & _).
  cbv zeta in Ht, Hc, Hf.
  split; [|split; [|split; [|split]]]; auto.
  - apply returns_tt. unfold switchCamera_request, initCamera_request.
    returning; apply returns_stop_tracks.
  - rewrite Ht. f_equal. destruct (currentStream (app w)) as [s|];
      [|reflexivity].
    unfold tracks_of. rewrite map_map. reflexivity.
  - unfold switchCamera_request, initCamera_request.
    rewrite bind_unfold. cbn [modify outcome_of world_after trace_of fst snd].
    rewrite bind_unfold. cbn [get outcome_of world_after trace_of fst snd].
    destruct w as [o sw v p n l [d cs fm api ew eh]].
    cbn [app currentStream on_app set_facingMode liveTracks].
    destruct cs as [s|].
    + rewrite bind_unfold, bind_unfold, stop_tracks_runs.
      cbn [outcome_of world_after trace_of fst snd modify].
      rewrite bind_unfold. cbn. reflexivity.
    + rewrite bind_unfold. cbn. clear.
      induction l as [|x l IH]; [reflexivity|]. cbn. f_equal. exact IH.
Qed.

(** X11.  Starting from a state in which the live tracks are exactly those
    of the stream the controller holds (as right after construction, where
    there is none), on a page that has the switch button: when every
    switch is answered before the next one is clicked, the streams never
    overlap.  After any number of such switches, granted or denied, the
    live tracks are again exactly those of the stream the controller
    holds, so at most one stream is live. *)
Theorem answered_switches_keep_one_stream (E : Engine)
    (answers : list MediaResult) (w : World) :
  getElementById "switchCamera" w = true ->
  holds_the_live_tracks w ->
  let w' := fst (run E (flat_map (fun r => [EvSwitch; EvMedia r]) answers) w) in
  holds_the_live_tracks w' /\ (length (live_streams w') <= 1)%nat.
Proof.
  cbv zeta. revert w.
  induction answers as [|r answers IH]; intros w Hid Hw.
  - cbn [flat_map run fst]. split; [exact Hw|apply holder_has_one_stream, Hw].
  - cbn [flat_map List.app].
    destruct (switch_and_answer E r
                (flat_map (fun r => [EvSwitch; EvMedia r]) answers) w Hid)
      as (Hrun & Hid2).
    cbv zeta in Hrun, Hid2. rewrite Hrun. apply IH; [exact Hid2|].
    apply switch_then_answer_holds_the_live_tracks, Hw.
Qed.

Lemma answered_switches_keep_one_stream_witness :
  let w' :=
    fst (run Samples.engine
           (flat_map (fun r => [EvSwitch; EvMedia r])
              [Granted Samples.back_stream; Granted Samples.front_again])
           Samples.streaming) in
  holds_the_live_tracks w' /\ (length (live_streams w') <= 1)%nat.
Proof.
  apply (answered_switches_keep_one_stream Samples.engine
           [Granted Samples.back_stream; Granted Samples.front_again]
           Samples.streaming); reflexivity.
Defined.

(** ** Conversions of the document *)

Lemma get_prop_property (E : Engine) (name : string) (data : json) :
  data <> JNull -> get_prop E name data = Return (property data name).
Proof. destruct data; try reflexivity. contradiction. Qed.

Lemma substitute_runs (E : Engine) (v : option json) :
  substitute E v
  = if shown v then Return tt else Throw (type_error E "ToPrimitive").
Proof.
  unfold substitute, shown, to_string.
  destruct v as [x|]; [|reflexivity].
  destruct (truthy (Some x)); cbn [negb orb]; [|reflexivity].
  destruct (stringable x); reflexivity.
Qed.

Lemma percent_runs (E : Engine) (v : option json) :
  percent E v
  = if shown v then Return tt else Throw (type_error E "ToPrimitive").
Proof.
  unfold percent, shown, to_number, to_string.
  destruct v as [x|]; [|reflexivity].
  destruct (truthy (Some x)); cbn [negb orb]; [|reflexivity].
  destruct x as [|y|q|s|items|fields]; try reflexivity.
  - destruct (stringable (JArr items)); reflexivity.
  - destruct (stringable (JObj fields)); reflexivity.
Qed.

Lemma formatDetail_runs (E : Engine) (data : json) (group field : string) :
  data <> JNull ->
  formatDetail E data group field
  = if printable (metric data group field) then Return tt
    else Throw (type_error E "toFixed is not a function").
Proof.
  intros Hd. unfold formatDetail, detail, metric.
  rewrite (get_prop_property E "detalhes" data Hd). cbn [and_then].
  set (v := get_opt field (get_opt group _)). clearbody v.
  unfold formatDecimal, printable.
  destruct v as [[|x|q|s|items|fields]|]; cbn [truthy negb and_then];
    try reflexivity.
  - destruct x; reflexivity.
  - destruct (negb (Qeq_bool q 0)); reflexivity.
  - destruct (negb (String.eqb s "")); reflexivity.
Qed.

(** The content of the result view can be built exactly from the
    presentable documents; otherwise a [TypeError] is thrown. *)
Lemma render_conversions_runs (E : Engine) (data : json) :
  if presentable data then render_conversions E data = Return tt
  else exists e, render_conversions E data = Throw e
                 /\ exn_name e = "TypeError".
Proof.
  destruct (match data with JNull => true | _ => false end) eqn:Hnull.
  { destruct data; try discriminate. cbn. eexists. split; reflexivity. }
  assert (Hd : data <> JNull) by (intros ->; discriminate).
  assert (Hp : presentable data = forallb shown (template_fields data))
    by (destruct data; try reflexivity; contradiction).
  rewrite Hp. unfold render_conversions, template_fields, metric.
  rewrite !(get_prop_property E _ data Hd). cbn [and_then forallb].
  rewrite !substitute_runs, percent_runs.
  repeat match goal with
         | |- context [shown ?v] =>
             destruct (shown v); cbn [and_then andb];
             try (eexists; split; reflexivity)
         end;
    try reflexivity.
Qed.

Lemma renders_presentable (E : Engine) (data : json) :
  renders E data = presentable data.
Proof.
  unfold renders. pose proof (render_conversions_runs E data) as H.
  destruct (presentable data); [rewrite H; reflexivity|].
  destruct H as (e & -> & _). reflexivity.
Qed.

(** ** Saving the report (lines 485-521) *)

Lemma report_runs (E : Engine) (data : json) :
  if saves data then report E data = Return tt
  else exists e, report E data = Throw e /\ exn_name e = "TypeError".
Proof.
  destruct (match data with JNull => true | _ => false end) eqn:Hnull.
  { destruct data; try discriminate. cbn. eexists. split; reflexivity. }
  assert (Hd : data <> JNull) by (intros ->; discriminate).
  assert (Hp : presentable data = forallb shown (template_fields data))
    by (destruct data; try reflexivity; contradiction).
  unfold saves. rewrite Hp.
  unfold report, template_fields, report_metrics, metric.
  rewrite !(get_prop_property E _ data Hd). cbn [and_then forallb fst snd].
  rewrite !substitute_runs, percent_runs, !(formatDetail_runs E data _ _ Hd).
  unfold metric.
  repeat match goal with
         | |- context [shown ?v] =>
             destruct (shown v); cbn [and_then andb];
             try (eexists; split; reflexivity)
         end.
  repeat match goal with
         | |- context [printable ?v] =>
             destruct (printable v); cbn [and_then andb];
             try (eexists; split; reflexivity)
         end;
    try reflexivity.
Qed.

(** X12.  The report is saved whole or not at all.  When the analysis is
    not [null], each value its text shows (the four classifications, the
    confidence and the method of the detection, the count of spots) is
    falsy or converts to a string, and each of its four metrics is a
    number or falsy, the handler makes one object URL, offers it as
    [analise-facial-<now>.txt], revokes it at once and confirms with an
    alert.  Otherwise (the analysis is [null], a shown value is an object
    with a property [toString] of its own, a metric is a non-empty string,
    [true], an array or an object) it throws a [TypeError] before anything
    is done: no file, no object URL, no alert. *)
Theorem report_is_saved_whole_or_not_at_all (E : Engine) (data : json)
    (now : N) (w : World) :
  let u := nextUrl w in
  if saves data then
    saveAnalysisData E data now w
    = (Return tt, set_nextUrl (S u) w,
       [ CreateObjectURL u;
         Download u ("analise-facial-" +++ decimal now +++ ".txt");
         RevokeObjectURL u;
         Alert "Análise salva com sucesso como arquivo TXT!" ])
  else
    exists e,
      saveAnalysisData E data now w = (Throw e, w, [])
      /\ exn_name e = "TypeError".
Proof.
  cbv zeta. unfold saveAnalysisData. rewrite bind_unfold.
  pose proof (report_runs E data) as H.
  destruct (saves data).
  - rewrite H. reflexivity.
  - destruct H as (e & -> & He). exists e. split; [reflexivity|exact He].
Qed.

(** The report of an analysis whose classification is an object with a
    property [toString] is not written: the template cannot convert it. *)
Example report_with_unconvertible_classification :
  saveAnalysisData Samples.engine
    (JObj [("fitzpatrick", JObj [("toString", JNum 1)])])
    1700000000000 Samples.results_shown
  = (Throw (type_error Samples.engine "ToPrimitive"),
     Samples.results_shown, []).
Proof. reflexivity. Qed.

(** ** The minimal preview on a page that lacks some of its elements
       (lines 527-559) *)

Lemma createObjectURL_runs (w : World) :
  createObjectURL w
  = (Return (nextUrl w), set_nextUrl (S (nextUrl w)) w,
     [CreateObjectURL (nextUrl w)]).
Proof. reflexivity. Qed.

(** X13.  The minimal preview on a page without its retake button, or
    without its download button.  The container and the image are there,
    so the image is set and the preview is displayed; wiring the missing
    button throws, and the handler revokes the object URL the image was
    just given, with an alert.  The preview stays displayed over a revoked
    URL; when it was the retake button that is missing, the download
    button has been wired already, and its handler offers that revoked
    URL as [face-capture-<now>.png]. *)
Theorem preview_with_a_missing_button (E : Engine) (b : blob) (w : World) :
  getElementById "previewContainer" w = true ->
  getElementById "previewImage" w = true ->
  getElementById "downloadBtn" w && getElementById "retryBtn" w = false ->
  let r := showPreview E b w in
  let u := nextUrl w in
  outcome_of r = Return tt
  /\ trace_of r
     = [ CreateObjectURL u;
         SetImageSrc "previewImage" u;
         ClassRemove "previewContainer" "hidden";
         ConsoleError ("Erro ao gerar pré-visualização: "
                       +++ error_toString (type_error E "null.onclick"));
         Alert "Erro ao gerar pré-visualização.";
         RevokeObjectURL u ]
  /\ previewHidden (page (world_after r)) = false
  /\ retryBtn_onclick (page (world_after r)) = retryBtn_onclick (page w)
  /\ (getElementById "downloadBtn" w = true ->
      forall now,
        trace_of (onclick E DownloadBtn now (world_after r))
        = [Download u ("face-capture-" +++ decimal now +++ ".png")]).
Proof.
  intros Hc Hi Hb. cbv zeta.
  destruct w as [o sw v [i cw ch cd ah ab ph dl rt] n l a].
  unfold getElementById in *. cbn [page ids] in *.
  unfold showPreview, getElementById. rewrite bind_unfold.
  cbn [get outcome_of world_after trace_of fst snd page ids].
  rewrite Hc, Hi. cbn [negb orb].
  rewrite bind_unfold, createObjectURL_runs.
  cbn [outcome_of world_after trace_of fst snd nextUrl].
  rewrite try_catch_unfold.
  unfold set_nextUrl, on_page, set_previewHidden, set_downloadBtn_onclick,
    set_retryBtn_onclick, bind, get, modify, emit, ret, throw, alert,
    revokeObjectURL, outcome_of, world_after, trace_of, onclick.
  cbn -[String.eqb String.append decimal error_toString type_error].
  destruct (existsb (String.eqb "downloadBtn") i) eqn:Hd;
    cbn -[String.eqb String.append decimal error_toString type_error].
  - cbn [andb] in Hb. rewrite Hb.
    cbn -[String.eqb String.append decimal error_toString type_error].
    repeat split.
  - repeat split. intros; discriminate.
Qed.

Lemma preview_with_a_missing_button_witness :
  let w := on_page (set_ids
                      [ "video"; "canvas"; "captureBtn"; "previewContainer";
                        "previewImage"; "downloadBtn" ]) Samples.api_found in
  let r := showPreview Samples.engine 1 w in
  let u := nextUrl w in
  outcome_of r = Return tt
  /\ trace_of r
     = [ CreateObjectURL u;
         SetImageSrc "previewImage" u;
         ClassRemove "previewContainer" "hidden";
         ConsoleError ("Erro ao gerar pré-visualização: "
                       +++ error_toString
                             (type_error Samples.engine "null.onclick"));
         Alert "Erro ao gerar pré-visualização.";
         RevokeObjectURL u ]
  /\ previewHidden (page (world_after r)) = false
  /\ retryBtn_onclick (page (world_after r)) = retryBtn_onclick (page w)
  /\ (getElementById "downloadBtn" w = true ->
      forall now,
        trace_of (onclick Samples.engine DownloadBtn now (world_after r))
        = [Download u ("face-capture-" +++ decimal now +++ ".png")]).
Proof.
  apply (preview_with_a_missing_button Samples.engine 1
           (on_page (set_ids
                       [ "video"; "canvas"; "captureBtn"; "previewContainer";
                         "previewImage"; "downloadBtn" ]) Samples.api_found));
    reflexivity.
Defined.

(** ** The listeners the constructor attaches (lines 8-58) *)

(** X14.  The constructor attaches a click listener exactly where it can:
    a listener is attached to an element if and only if the document has
    the video and the canvas, has that element, and the pair is one of
    [#acceptConsent] with [handleConsentAccept], [#switchCamera] with
    [switchCamera], [#captureBtn] with [capturePhoto].  A missing optional
    element costs only its own listener. *)
Theorem listeners_follow_the_document (doc : list string)
    (currentUrl : string) (supported : bool) (id : string) (h : handler) :
  In (AddEventListener id h) (snd (constructor doc currentUrl supported))
  <-> has "video" doc = true /\ has "canvas" doc = true
      /\ has id doc = true
      /\ In (id, h) [ ("acceptConsent", HandleConsentAccept);
                      ("switchCamera", SwitchCamera);
                      ("captureBtn", CapturePhoto) ].
Proof.
  unfold constructor, init, initEventListeners, registerServiceWorker,
    detectApiUrl_request, lookup_dom.
  cbn [dom_video dom_canvas dom_captureBtn].
  destruct (has "video" doc) eqn:Hv; cbn [negb orb snd].
  2:{ split; [|intros (? & _); discriminate].
      intros [H|[]]; discriminate. }
  destruct (has "canvas" doc) eqn:Hc; cbn [negb orb snd].
  2:{ split; [|intros (_ & ? & _); discriminate].
      intros [H|[]]; discriminate. }
  rewrite !in_app_iff. split.
  - intros [[H|[H|H]]|[H|H]].
    + destruct (has "acceptConsent" doc) eqn:Ha; [|destruct H].
      destruct H as [H|[]]. injection H as <- <-. cbn [In]. auto 6.
    + destruct (has "switchCamera" doc) eqn:Hs; [|destruct H].
      destruct H as [H|[]]. injection H as <- <-. cbn [In]. auto 7.
    + destruct (has "captureBtn" doc) eqn:Hb; [|destruct H].
      destruct H as [H|[]]. injection H as <- <-. cbn [In]. auto 8.
    + destruct supported; [destruct H as [H|[]]; discriminate|destruct H].
    + destruct H as [H|[]]; discriminate.
  - intros (_ & _ & Hid & Hin). cbn [In] in Hin.
    destruct Hin as [H|[H|[H|[]]]]; injection H as <- <-; rewrite Hid;
      cbn [In]; auto.
Qed.

(** ** The buttons of the full result view (lines 380-479) *)



(** A document whose classification is an object with a property
    [toString]: the template cannot convert it, the URL of the result is
    revoked and the minimal preview is shown in its place. *)
Example result_with_unconvertible_classification :
  trace_of (showAnalysisResults Samples.engine 1
              (JObj [("fitzpatrick", JObj [("toString", JNum 1)])])
              Samples.api_found)
  = [ CreateObjectURL 0;
      ClassRemove "analysisContainer" "hidden";
      ConsoleError
        "Erro ao mostrar resultados: TypeError: Cannot convert object to primitive value";
      RevokeObjectURL 0;
      CreateObjectURL 1;
      SetImageSrc "previewImage" 1;
      ClassRemove "previewContainer" "hidden" ].
Proof. reflexivity. Qed.

End ControllerFacts.

(* ===================================================================== *)
(** * Properties of the offline cache worker *)
(* ===================================================================== *)

Module WorkerFacts.

Import Worker.

(** ** Strings *)

Lemma substring_after (s t : string) :
  substring (String.length s) (String.length t) (s +++ t) = t.
Proof.
  induction s as [|c s IH]; cbn.
  - induction t as [|c t IH]; cbn; [reflexivity|].
    destruct t; cbn in *; congruence.
  - exact IH.
Qed.

(** A URL that ends with a text includes it. *)
Lemma includes_suffix (s t : string) : t <> "" -> includes (s +++ t) t = true.
Proof.
  intros Ht. unfold includes.
  destruct (index 0 t (s +++ t)) as [m|] eqn:E; [reflexivity|].
  exfalso.
  apply (index_correct3 0 (String.length s) t (s +++ t) E Ht (Nat.le_0_l _)).
  apply substring_after.
Qed.

(** The upload of the controller, to any endpoint, is left alone. *)
Lemma upload_is_ignored (origin api m o : string) :
  ignored origin {| method := m; url := api +++ "/upload"; url_origin := o |}
  = true.
Proof.
  unfold ignored. cbn [method url url_origin].
  rewrite includes_suffix by discriminate.
  rewrite orb_true_r. reflexivity.
Qed.

(** ** The cache storage *)

Lemma keys_put_in (cs : CacheStorage) (name u : string) (r : Response) :
  keys (put_in cs name u r)
  = if has_cache cs name then keys cs else keys cs ++ [name].
Proof.
  unfold has_cache, keys.
  induction cs as [|[n c] cs IH]; cbn; [reflexivity|].
  rewrite (String.eqb_sym name n).
  destruct (String.eqb n name); cbn; [reflexivity|].
  rewrite IH. destruct (existsb (String.eqb name) (map fst cs)); reflexivity.
Qed.

Lemma cache_put_some (c : Cache) (u v : string) (r : Response) :
  cache_match c v <> None -> cache_match (cache_put c u r) v <> None.
Proof.
  induction c as [|[k r0] c IH]; cbn; [congruence|].
  destruct (String.eqb k u) eqn:Eku; cbn.
  - destruct (String.eqb k v); [discriminate | auto].
  - destruct (String.eqb k v); [discriminate | auto].
Qed.

Lemma cache_put_match (c : Cache) (u : string) (r : Response) :
  cache_match (cache_put c u r) u = Some r.
Proof.
  induction c as [|[k r0] c IH]; cbn.
  - rewrite String.eqb_refl. reflexivity.
  - destruct (String.eqb k u) eqn:Eku; cbn; rewrite Eku; [reflexivity|].
    exact IH.
Qed.

Lemma find_cache_put_in (cs : CacheStorage) (name u : string) (r : Response) :
  find_cache (put_in cs name u r) name
  = Some (cache_put match find_cache cs name with
                    | Some c => c
                    | None => []
                    end u r).
Proof.
  induction cs as [|[n c] cs IH]; cbn.
  - rewrite String.eqb_refl. reflexivity.
  - destruct (String.eqb n name) eqn:En; cbn; rewrite En; [reflexivity|].
    exact IH.
Qed.

Lemma find_cache_open (cs : CacheStorage) (name : string) :
  find_cache (open cs name) name <> None.
Proof.
  unfold open, has_cache, keys.
  induction cs as [|[n c] cs IH]; cbn.
  - rewrite String.eqb_refl. discriminate.
  - rewrite (String.eqb_sym name n).
    destruct (String.eqb n name) eqn:En; cbn; rewrite ?En; [discriminate|].
    destruct (existsb (String.eqb name) (map fst cs)) eqn:Ex; cbn in *;
      rewrite ?En; exact IH.
Qed.

Lemma has_cache_find (cs : CacheStorage) (name : string) :
  has_cache cs name = true <-> find_cache cs name <> None.
Proof.
  unfold has_cache, keys. induction cs as [|[n c] cs IH]; cbn.
  - split; congruence.
  - rewrite (String.eqb_sym name n).
    destruct (String.eqb n name); cbn; [split; congruence | exact IH].
Qed.

Lemma NoDup_keys_open (cs : CacheStorage) (name : string) :
  NoDup (keys cs) -> NoDup (keys (open cs name)).
Proof.
  intros H. unfold open. destruct (has_cache cs name) eqn:Eh; [exact H|].
  unfold keys. rewrite map_app. cbn.
  apply NoDup_app.
  - exact H.
  - constructor; [intros [] | constructor].
  - intros x Hin [Hx|[]]. subst x.
    unfold has_cache in Eh.
    assert (existsb (String.eqb name) (keys cs) = true).
    { apply existsb_exists. exists name.
      split; [exact Hin|apply String.eqb_refl]. }
    congruence.
Qed.

Lemma NoDup_keys_put_in (cs : CacheStorage) (name u : string) (r : Response) :
  has_cache cs name = true ->
  keys (put_in cs name u r) = keys cs.
Proof. intros H. rewrite keys_put_in, H. reflexivity. Qed.

(** ** activate *)

Lemma delete_all (names : list string) (cs : CacheStorage) :
  fold_left delete names cs
  = filter (fun e => negb (existsb (String.eqb (fst e)) names)) cs.
Proof.
  revert cs. induction names as [|n names IH]; intros cs; cbn.
  - induction cs as [|e cs IHcs]; cbn; congruence.
  - rewrite IH. unfold delete.
    induction cs as [|e cs IHcs]; cbn; [reflexivity|].
    destruct (String.eqb (fst e) n); cbn; [exact IHcs|].
    destruct (existsb (String.eqb (fst e)) names); cbn; congruence.
Qed.

Lemma existsb_stale (names : list string) (n : string) :
  In n names ->
  existsb (String.eqb n)
    (filter (fun cacheName => negb (String.eqb cacheName CACHE_NAME)) names)
  = negb (String.eqb n CACHE_NAME).
Proof.
  intros Hin. destruct (String.eqb n CACHE_NAME) eqn:En; cbn.
  - apply String.eqb_eq in En. subst n.
    apply not_true_is_false. intros H. apply existsb_exists in H.
    destruct H as (x & Hx & Hxe). apply filter_In in Hx.
    apply String.eqb_eq in Hxe. subst x. destruct Hx as [_ Hx].
    rewrite String.eqb_refl in Hx. discriminate.
  - apply existsb_exists. exists n. split; [|apply String.eqb_refl].
    apply filter_In. split; [exact Hin|]. rewrite En. reflexivity.
Qed.

(** Activation keeps the caches named [CACHE_NAME] and no other. *)
Lemma activate_filter (cs : CacheStorage) :
  activate cs = filter (fun e => String.eqb (fst e) CACHE_NAME) cs.
Proof.
  unfold activate, stale. rewrite delete_all.
  apply filter_ext_in. intros e He.
  rewrite existsb_stale by (unfold keys; apply in_map; exact He).
  apply negb_involutive.
Qed.

Lemma keys_activate (cs : CacheStorage) :
  keys (activate cs)
  = filter (fun cacheName => String.eqb cacheName CACHE_NAME) (keys cs).
Proof.
  rewrite activate_filter. unfold keys.
  induction cs as [|e cs IH]; cbn; [reflexivity|].
  destruct (String.eqb (fst e) CACHE_NAME); cbn; congruence.
Qed.

Lemma filter_none_worker {A} (p : A -> bool) (l : list A) :
  (forall x, In x l -> p x = false) -> filter p l = [].
Proof.
  induction l as [|x l IH]; cbn; intros H; [reflexivity|].
  rewrite (H x (or_introl eq_refl)). apply IH. intros y Hy. apply H. auto.
Qed.

Lemma find_cache_in_keys (cs : CacheStorage) (name : string) :
  find_cache cs name <> None -> In name (keys cs).
Proof.
  unfold keys. induction cs as [|[n c] cs IH]; cbn; [congruence|].
  destruct (String.eqb n name) eqn:En.
  - apply String.eqb_eq in En. auto.
  - auto.
Qed.

Lemma filter_current (cs : CacheStorage) (c : Cache) :
  NoDup (keys cs) -> find_cache cs CACHE_NAME = Some c ->
  filter (fun e => String.eqb (fst e) CACHE_NAME) cs = [(CACHE_NAME, c)].
Proof.
  unfold keys. induction cs as [|[n c0] cs IH]; cbn [map fst find_cache filter].
  - discriminate.
  - intros Hnd Hf. inversion Hnd as [|x l Hnotin Hnd']; subst.
    destruct (String.eqb n CACHE_NAME) eqn:En.
    + apply String.eqb_eq in En. injection Hf as <-. subst n. f_equal.
      apply filter_none_worker. intros e He.
      destruct (String.eqb (fst e) CACHE_NAME) eqn:Ee; [|reflexivity].
      apply String.eqb_eq in Ee. exfalso. apply Hnotin.
      rewrite <- Ee. apply in_map. exact He.
    + apply IH; assumption.
Qed.

(** ** install *)

Lemma fetch_all_covers (origin : string) (net : string -> option Response)
    (paths : list string) (l : list (string * Response)) :
  fetch_all origin net paths = Some l ->
  forall p, In p paths -> exists r, In (origin +++ p, r) l /\ ok r = true.
Proof.
  revert l. induction paths as [|q paths IH]; intros l H p Hin.
  - destruct Hin.
  - cbn in H. destruct (net (origin +++ q)) as [r|]; [|discriminate].
    destruct (ok r) eqn:Hok; [|discriminate].
    destruct (fetch_all origin net paths) as [l'|]; [|discriminate].
    injection H as <-. destruct Hin as [<-|Hin].
    + exists r. split; [left; reflexivity | exact Hok].
    + destruct (IH l' eq_refl p Hin) as (r' & Hr' & Hok').
      exists r'. split; [right; exact Hr' | exact Hok'].
Qed.

Lemma put_all_spec (cs : CacheStorage) (l : list (string * Response)) (c : Cache) :
  find_cache cs CACHE_NAME = Some c ->
  keys (put_all cs CACHE_NAME l) = keys cs
  /\ find_cache (put_all cs CACHE_NAME l) CACHE_NAME
     = Some (fold_left (fun acc e => cache_put acc (fst e) (snd e)) l c).
Proof.
  unfold put_all. revert cs c. induction l as [|[u r] l IH]; intros cs c Hc.
  - cbn. auto.
  - cbn [fold_left fst snd].
    assert (Hh : has_cache cs CACHE_NAME = true)
      by (apply has_cache_find; congruence).
    specialize (IH (put_in cs CACHE_NAME u r) (cache_put c u r)).
    rewrite find_cache_put_in, Hc in IH. specialize (IH eq_refl).
    rewrite (NoDup_keys_put_in cs CACHE_NAME u r Hh) in IH. exact IH.
Qed.

Lemma fold_put_some (l : list (string * Response)) (c : Cache) (v : string) :
  cache_match c v <> None ->
  cache_match (fold_left (fun acc e => cache_put acc (fst e) (snd e)) l c) v
  <> None.
Proof.
  revert c. induction l as [|[u r] l IH]; intros c H; cbn; [exact H|].
  apply IH. apply cache_put_some. exact H.
Qed.

Lemma fold_put_in (l : list (string * Response)) (c : Cache) (v : string)
    (r : Response) :
  In (v, r) l ->
  cache_match (fold_left (fun acc e => cache_put acc (fst e) (snd e)) l c) v
  <> None.
Proof.
  revert c. induction l as [|[u r0] l IH]; intros c Hin; [destruct Hin|].
  cbn [fold_left fst snd]. destruct Hin as [Heq|Hin].
  - injection Heq as -> ->. apply fold_put_some.
    rewrite cache_put_match. discriminate.
  - apply IH. exact Hin.
Qed.

(** After a successful installation and the activation, the storage is the
    one current cache, and it holds every asset of the static list. *)
Lemma activated_storage (origin : string) (net : string -> option Response)
    (cs : CacheStorage) (s : State) :
  NoDup (keys cs) ->
  activated origin net cs = Some s ->
  pending s = [] /\
  exists c, caches s = [(CACHE_NAME, c)]
            /\ forall p, In p STATIC_CACHE ->
                         cache_match c (origin +++ p) <> None.
Proof.
  intros Hnd. unfold activated, install.
  destruct (fetch_all origin net STATIC_CACHE) as [l|] eqn:Hl; [|discriminate].
  intros H. injection H as <-. cbn [caches pending]. split; [reflexivity|].
  destruct (find_cache (open cs CACHE_NAME) CACHE_NAME) as [c0|] eqn:Hc0;
    [|exfalso; exact (find_cache_open cs CACHE_NAME Hc0)].
  destruct (put_all_spec (open cs CACHE_NAME) l c0 Hc0) as [Hk Hf].
  eexists. split.
  - rewrite activate_filter. apply filter_current; [|exact Hf].
    rewrite Hk. apply NoDup_keys_open. exact Hnd.
  - intros p Hp.
    destruct (fetch_all_covers origin net STATIC_CACHE l Hl p Hp)
      as (r & Hr & _).
    apply (fold_put_in l c0 (origin +++ p) r Hr).
Qed.

Lemma activated_serving (origin : string) (net : string -> option Response)
    (cs : CacheStorage) (s : State) :
  NoDup (keys cs) -> activated origin net cs = Some s -> serving origin s.
Proof.
  intros Hnd Ha.
  destruct (activated_storage origin net cs s Hnd Ha) as (Hp & c & Hc & Hall).
  split.
  - exists c. split; [exact Hc|]. apply Hall. cbn. auto.
  - rewrite Hp. constructor.
Qed.

(** ** fetch *)

Lemma started_in_current (origin : string) (cs : CacheStorage) (req : Request)
    (net : option Response) :
  Forall (fun p => put_cache p = CACHE_NAME)
         (started (on_fetch origin cs req net)).
Proof.
  unfold on_fetch. destruct (ignored origin req); [constructor|].
  destruct (caches_match cs (url req)); [constructor|].
  destruct net as [r|]; [|constructor]. cbn.
  destruct (status r =? 200)%N; repeat constructor.
Qed.

Lemma step_serving (origin : string) (e : event) (s : State) :
  serving origin s -> serving origin (step origin e s).
Proof.
  intros [(c & Hc & Hoff) Hp]. destruct e as [req net|]; cbn.
  - split; [exists c; auto|]. cbn.
    apply Forall_app. split; [exact Hp | apply started_in_current].
  - destruct (pending s) as [|p rest] eqn:Hpend.
    + split; [exists c; auto|]. rewrite Hpend. constructor.
    + inversion Hp as [|x l Hx Hrest]; subst. cbn.
      split; [|exact Hrest].
      rewrite Hc, Hx. cbn.
      eexists. split; [reflexivity|]. apply cache_put_some. exact Hoff.
Qed.

Lemma run_serving (origin : string) (evs : list event) (s : State) :
  serving origin s -> serving origin (run origin evs s).
Proof.
  unfold run. revert s. induction evs as [|e evs IH]; intros s H; cbn.
  - exact H.
  - apply IH. apply step_serving. exact H.
Qed.

(** C7.  Activation deletes every cache whose name is not the current
    version name and keeps the others.  When the worker was installed
    and activated on a cache storage (whose names are distinct), the names
    of the storage are exactly the current version name, and the cache
    holds the assets stored at install time; after any sequence of fetch
    events and completed cache writes the names are still exactly that one,
    and every write that was started goes to that cache. *)
Theorem activation_leaves_the_current_cache (origin : string)
    (net : string -> option Response) (cs : CacheStorage) (s : State)
    (evs : list event) :
  NoDup (keys cs) ->
  activated origin net cs = Some s ->
  keys (activate cs)
  = filter (fun cacheName => String.eqb cacheName CACHE_NAME) (keys cs)
  /\ keys (caches s) = [CACHE_NAME]
  /\ (forall p, In p STATIC_CACHE ->
                caches_match (caches s) (origin +++ p) <> None)
  /\ keys (caches (run origin evs s)) = [CACHE_NAME]
  /\ Forall (fun p => put_cache p = CACHE_NAME)
            (pending (run origin evs s)).
Proof.
  intros Hnd Ha. split; [apply keys_activate|].
  destruct (activated_storage origin net cs s Hnd Ha) as (Hp & c & Hc & Hall).
  split; [rewrite Hc; reflexivity|]. split.
  - intros p Hin. rewrite Hc. cbn. specialize (Hall p Hin).
    destruct (cache_match c (origin +++ p)); [discriminate | congruence].
  - pose proof (run_serving origin evs s
                  (activated_serving origin net cs s Hnd Ha)) as [(c' & Hc' & _) Hpend].
    split; [rewrite Hc'; reflexivity | exact Hpend].
Qed.

Lemma activation_leaves_the_current_cache_witness :
  keys (activate Samples.old_storage)
  = filter (fun cacheName => String.eqb cacheName CACHE_NAME)
           (keys Samples.old_storage)
  /\ keys (caches {| caches := activate (snd (install Samples.page_origin
                                  Samples.online Samples.old_storage));
                     pending := [] |}) = [CACHE_NAME]
  /\ (forall p, In p STATIC_CACHE ->
        caches_match
          (caches {| caches := activate (snd (install Samples.page_origin
                                  Samples.online Samples.old_storage));
                     pending := [] |})
          (Samples.page_origin +++ p) <> None)
  /\ keys (caches (run Samples.page_origin
                     [Fetch Samples.asset_request (Some Samples.asset); Written]
                     {| caches := activate (snd (install Samples.page_origin
                                  Samples.online Samples.old_storage));
                        pending := [] |})) = [CACHE_NAME]
  /\ Forall (fun p => put_cache p = CACHE_NAME)
       (pending (run Samples.page_origin
                   [Fetch Samples.asset_request (Some Samples.asset); Written]
                   {| caches := activate (snd (install Samples.page_origin
                                  Samples.online Samples.old_storage));
                      pending := [] |})).
Proof.
  apply (activation_leaves_the_current_cache Samples.page_origin
           Samples.online Samples.old_storage).
  - repeat constructor; cbn; intuition discriminate.
  - reflexivity.
Defined.

(** A request is left alone exactly when it is not a GET, or its URL
    includes [/upload], or it goes to another origin. *)
Lemma ignored_iff (origin : string) (req : Request) :
  ignored origin req = true
  <-> method req <> "GET" \/ includes (url req) "/upload" = true
      \/ url_origin req <> origin.
Proof.
  unfold ignored. rewrite !orb_true_iff, !negb_true_iff, !String.eqb_neq.
  tauto.
Qed.



(** The three cases on concrete requests. *)
Example upload_passes_through :
  on_fetch Samples.page_origin [] Samples.upload_request (Some Samples.asset)
  = {| reply := PassThrough; started := []; trace := [] |}.
Proof. reflexivity. Qed.

Example miss_then_written_then_hit :
  let s0 := {| caches := [(CACHE_NAME, [])]; pending := [] |} in
  let s1 := run Samples.page_origin
              [Fetch Samples.asset_request (Some Samples.asset)] s0 in
  let s2 := run Samples.page_origin [Written] s1 in
  caches s1 = caches s0
  /\ on_fetch Samples.page_origin (caches s2) Samples.asset_request None
     = {| reply := RespondWith (Some Samples.asset);
          started := [];
          trace := [CachesMatch "https://app.example/extra.js"] |}.
Proof. split; reflexivity. Qed.


(** ** Installation (lines 16-27) *)

Lemma fetch_all_spec (origin : string) (net : string -> option Response)
    (paths : list string) :
  fetch_all origin net paths
  = if forallb (asset_available origin net) paths
    then Some (answers origin net paths) else None.
Proof.
  induction paths as [|p paths IH]; [reflexivity|].
  cbn [fetch_all forallb answers flat_map]. unfold asset_available at 1.
  destruct (net (origin +++ p)) as [r|]; [|reflexivity].
  destruct (ok r); [|reflexivity]. cbn [andb]. rewrite IH.
  destruct (forallb (asset_available origin net) paths); reflexivity.
Qed.

(** ** What the cache answers *)

Lemma cache_put_other (c : Cache) (u v : string) (r : Response) :
  u <> v -> cache_match (cache_put c u r) v = cache_match c v.
Proof.
  intros Huv. induction c as [|[k r0] c IH]; cbn.
  - apply String.eqb_neq in Huv. rewrite Huv. reflexivity.
  - destruct (String.eqb k u) eqn:Eku; cbn.
    + apply String.eqb_eq in Eku. subst k.
      apply String.eqb_neq in Huv. rewrite Huv. reflexivity.
    + destruct (String.eqb k v); [reflexivity|exact IH].
Qed.

Lemma caches_match_put_in_other (cs : CacheStorage) (name u v : string)
    (r : Response) :
  u <> v -> caches_match (put_in cs name u r) v = caches_match cs v.
Proof.
  intros Huv. induction cs as [|[n c] cs IH]; cbn.
  - apply String.eqb_neq in Huv. rewrite Huv. reflexivity.
  - destruct (String.eqb n name); cbn.
    + rewrite (cache_put_other c u v r Huv). reflexivity.
    + rewrite IH. reflexivity.
Qed.

Lemma fold_put_other (l : list (string * Response)) (c : Cache) (v : string) :
  ~ In v (map fst l) ->
  cache_match (fold_left (fun acc e => cache_put acc (fst e) (snd e)) l c) v
  = cache_match c v.
Proof.
  revert c. induction l as [|[u r] l IH]; intros c Hv; [reflexivity|].
  cbn [fold_left fst snd]. rewrite IH.
  - apply cache_put_other. intros ->. apply Hv. left. reflexivity.
  - intros H. apply Hv. right. exact H.
Qed.

Lemma fold_put_last (l : list (string * Response)) (c : Cache) (v : string)
    (r : Response) :
  NoDup (map fst l) -> In (v, r) l ->
  cache_match (fold_left (fun acc e => cache_put acc (fst e) (snd e)) l c) v
  = Some r.
Proof.
  revert c. induction l as [|[u r0] l IH]; intros c Hnd Hin; [destruct Hin|].
  cbn [map fst] in Hnd. inversion Hnd as [|? ? Hu Hl]; subst.
  cbn [fold_left fst snd]. destruct Hin as [H|H].
  - injection H as -> ->. rewrite (fold_put_other l _ v Hu).
    apply cache_put_match.
  - apply IH; assumption.
Qed.

Lemma append_cancel (o a b : string) : o +++ a = o +++ b -> a = b.
Proof.
  induction o as [|c o IH]; cbn; [auto|]. intros H. injection H as H. auto.
Qed.

Lemma NoDup_urls (origin : string) (paths : list string) :
  NoDup paths -> NoDup (map (String.append origin) paths).
Proof.
  induction 1 as [|p paths Hp Hnd IH]; cbn [map]; constructor; [|exact IH].
  intros Hin. apply in_map_iff in Hin. destruct Hin as (q & Hq & Hin).
  apply append_cancel in Hq. subst q. exact (Hp Hin).
Qed.

Lemma answers_keys (origin : string) (net : string -> option Response)
    (paths : list string) :
  forallb (asset_available origin net) paths = true ->
  map fst (answers origin net paths) = map (String.append origin) paths.
Proof.
  induction paths as [|p paths IH]; [reflexivity|].
  cbn [forallb answers flat_map map]. unfold asset_available at 1.
  destruct (net (origin +++ p)) as [r|]; [|discriminate].
  intros H. apply andb_true_iff in H. destruct H as (_ & H).
  cbn [List.app map fst]. f_equal. exact (IH H).
Qed.

Lemma answers_in (origin : string) (net : string -> option Response)
    (paths : list string) (p : string) (r : Response) :
  In p paths -> net (origin +++ p) = Some r ->
  In (origin +++ p, r) (answers origin net paths).
Proof.
  intros Hp Hr. unfold answers. apply in_flat_map. exists p.
  split; [exact Hp|]. rewrite Hr. left. reflexivity.
Qed.

Lemma NoDup_STATIC_CACHE : NoDup STATIC_CACHE.
Proof.
  unfold STATIC_CACHE.
  repeat (constructor; [cbn [In]; intuition discriminate|]). constructor.
Qed.

(** The state after installation and activation, spelled out. *)
Lemma activated_cache (origin : string) (net : string -> option Response)
    (cs : CacheStorage) (s : State) :
  NoDup (keys cs) ->
  activated origin net cs = Some s ->
  pending s = []
  /\ forall p, In p STATIC_CACHE ->
       caches_match (caches s) (origin +++ p) = net (origin +++ p).
Proof.
  intros Hnd. unfold activated, install. rewrite fetch_all_spec.
  destruct (forallb (asset_available origin net) STATIC_CACHE) eqn:Hall;
    [|discriminate].
  remember (answers origin net STATIC_CACHE) as l eqn:Hl.
  intros Ha. injection Ha as <-. cbn [caches pending].
  split; [reflexivity|]. intros p Hin.
  destruct (find_cache (open cs CACHE_NAME) CACHE_NAME) as [c0|] eqn:Hc0;
    [|exfalso; exact (find_cache_open cs CACHE_NAME Hc0)].
  destruct (put_all_spec (open cs CACHE_NAME) l c0 Hc0) as [Hk Hf].
  assert (Hcur : activate (put_all (open cs CACHE_NAME) CACHE_NAME l)
                 = [(CACHE_NAME,
                     fold_left (fun acc e => cache_put acc (fst e) (snd e))
                       l c0)]).
  { rewrite activate_filter. apply filter_current; [|exact Hf].
    rewrite Hk. apply NoDup_keys_open. exact Hnd. }
  rewrite Hcur. cbn [caches_match].
  assert (Hav : asset_available origin net p = true).
  { rewrite forallb_forall in Hall. apply Hall. exact Hin. }
  unfold asset_available in Hav.
  destruct (net (origin +++ p)) as [r|] eqn:Hr; [|discriminate].
  rewrite (fold_put_last l c0 (origin +++ p) r).
  - reflexivity.
  - rewrite Hl, (answers_keys origin net STATIC_CACHE Hall).
    apply NoDup_urls, NoDup_STATIC_CACHE.
  - rewrite Hl. apply answers_in; assumption.
Qed.

(** A response that is cached, with no write for its URL under way, is
    what the cache answers from then on. *)
Lemma step_frozen (origin : string) (e : event) (s : State) (u : string)
    (r : Response) :
  caches_match (caches s) u = Some r ->
  Forall (fun p => put_url p <> u) (pending s) ->
  caches_match (caches (step origin e s)) u = Some r
  /\ Forall (fun p => put_url p <> u) (pending (step origin e s)).
Proof.
  intros Hc Hp. destruct e as [req net|]; cbn [step].
  - cbn [caches pending]. split; [exact Hc|].
    apply Forall_app. split; [exact Hp|].
    unfold on_fetch. destruct (ignored origin req); [constructor|].
    destruct (caches_match (caches s) (url req)) eqn:Hm; [constructor|].
    destruct net as [nr|]; [|constructor]. cbn [started].
    destruct (status nr =? 200)%N; [|constructor].
    constructor; [|constructor]. cbn [put_url]. intros Heq.
    rewrite Heq in Hm. congruence.
  - destruct (pending s) as [|p rest] eqn:Hpend.
    + split; [exact Hc|]. rewrite Hpend. constructor.
    + inversion Hp as [|x l Hx Hrest]; subst. cbn [caches pending].
      split; [|exact Hrest].
      rewrite caches_match_put_in_other; assumption.
Qed.

Lemma run_frozen (origin : string) (evs : list event) (s : State) (u : string)
    (r : Response) :
  caches_match (caches s) u = Some r ->
  Forall (fun p => put_url p <> u) (pending s) ->
  caches_match (caches (run origin evs s)) u = Some r
  /\ Forall (fun p => put_url p <> u) (pending (run origin evs s)).
Proof.
  unfold run. revert s. induction evs as [|e evs IH]; intros s Hc Hp.
  - split; assumption.
  - cbn [fold_left]. destruct (step_frozen origin e s u r Hc Hp) as (Hc1 & Hp1).
    apply IH; assumption.
Qed.

(** X16.  A successful installation stores what the network answered, and
    the worker serves exactly that from then on.  After installation and
    activation, and after any sequence of fetch events and completed cache
    writes, the cache answers each asset of the static list with the
    response the network gave at install time: an older copy in the
    current cache is replaced at install, and no later event refreshes or
    evicts the entry. *)
Theorem static_assets_are_served_as_installed (origin : string)
    (net : string -> option Response) (cs : CacheStorage) (s : State)
    (evs : list event) (p : string) :
  NoDup (keys cs) ->
  activated origin net cs = Some s ->
  In p STATIC_CACHE ->
  caches_match (caches (run origin evs s)) (origin +++ p) = net (origin +++ p)
  /\ net (origin +++ p) <> None.
Proof.
  intros Hnd Ha Hin.
  destruct (activated_cache origin net cs s Hnd Ha) as (Hp & Hall).
  specialize (Hall p Hin).
  destruct (net (origin +++ p)) as [r|] eqn:Hr.
  - split; [|discriminate].
    apply (run_frozen origin evs s (origin +++ p) r Hall).
    rewrite Hp. constructor.
  - exfalso.
    destruct (activated_storage origin net cs s Hnd Ha) as (_ & c & Hc & Hs).
    specialize (Hs p Hin). rewrite Hc in Hall. cbn [caches_match] in Hall.
    destruct (cache_match c (origin +++ p)); congruence.
Qed.

Lemma static_assets_are_served_as_installed_witness :
  caches_match
    (caches (run Samples.page_origin
               [Fetch Samples.asset_request (Some Samples.asset); Written]
               {| caches := activate (snd (install Samples.page_origin
                                             Samples.online Samples.old_storage));
                  pending := [] |}))
    (Samples.page_origin +++ "/app.js")
  = Samples.online (Samples.page_origin +++ "/app.js")
  /\ Samples.online (Samples.page_origin +++ "/app.js") <> None.
Proof.
  apply (static_assets_are_served_as_installed Samples.page_origin
           Samples.online Samples.old_storage).
  - repeat (constructor; [cbn [In]; intuition discriminate|]). constructor.
  - reflexivity.
  - cbn. auto.
Defined.

(** X17.  The worker never refreshes what it has cached.  Once the cache
    answers a URL and no write for that URL is under way, every later
    request for it that the worker handles is answered with that same
    response, from the cache alone: no network fetch and no cache write,
    whatever the network would have answered. *)
Theorem cached_response_is_never_refreshed (origin : string) (s : State)
    (u : string) (r : Response) (evs : list event) (req : Request)
    (net : option Response) :
  caches_match (caches s) u = Some r ->
  Forall (fun p => put_url p <> u) (pending s) ->
  ignored origin req = false ->
  url req = u ->
  on_fetch origin (caches (run origin evs s)) req net
  = {| reply := RespondWith (Some r); started := [];
       trace := [CachesMatch u] |}.
Proof.
  intros Hc Hp Hig Hu.
  destruct (run_frozen origin evs s u r Hc Hp) as (Hc' & _).
  unfold on_fetch. rewrite Hig, Hu, Hc'. reflexivity.
Qed.

Lemma cached_response_is_never_refreshed_witness :
  on_fetch Samples.page_origin
    (caches (run Samples.page_origin
               [Fetch Samples.asset_request (Some Samples.no_content); Written]
               {| caches := [(CACHE_NAME,
                              [(url Samples.asset_request, Samples.asset)])];
                  pending := [] |}))
    Samples.asset_request None
  = {| reply := RespondWith (Some Samples.asset); started := [];
       trace := [CachesMatch (url Samples.asset_request)] |}.
Proof.
  apply (cached_response_is_never_refreshed Samples.page_origin
           {| caches := [(CACHE_NAME,
                          [(url Samples.asset_request, Samples.asset)])];
              pending := [] |}
           (url Samples.asset_request) Samples.asset).
  - reflexivity.
  - constructor.
  - reflexivity.
  - reflexivity.
Defined.

(** ** Activation (lines 30-44) *)

Lemma find_cache_filter (cs : CacheStorage) (name : string) :
  find_cache (filter (fun e => String.eqb (fst e) CACHE_NAME) cs) name
  = if String.eqb name CACHE_NAME then find_cache cs CACHE_NAME else None.
Proof.
  induction cs as [|[n c] cs IH]; cbn [filter find_cache fst].
  - destruct (String.eqb name CACHE_NAME); reflexivity.
  - destruct (String.eqb n CACHE_NAME) eqn:En; cbn [find_cache].
    + apply String.eqb_eq in En. subst n.
      rewrite (String.eqb_sym CACHE_NAME name), IH.
      destruct (String.eqb name CACHE_NAME); reflexivity.
    + exact IH.
Qed.

(** X18.  Activation does not touch the current cache: the cache under the
    current version name has after the activation the entries it had
    before, in the same order, every other name is gone, and activating
    again changes nothing. *)
Theorem activation_keeps_the_current_entries (cs : CacheStorage)
    (name : string) :
  find_cache (activate cs) name
  = (if String.eqb name CACHE_NAME then find_cache cs CACHE_NAME else None)
  /\ activate (activate cs) = activate cs.
Proof.
  rewrite !activate_filter. split; [apply find_cache_filter|].
  induction cs as [|[n c] cs IH]; [reflexivity|]. cbn [filter fst].
  destruct (String.eqb n CACHE_NAME) eqn:En; [|exact IH].
  cbn [filter fst]. rewrite En, IH. reflexivity.
Qed.

End WorkerFacts.
